(** * Simulador de boxes de atención al público (simulacion_boxes.py)

    Shallow embedding of the discrete-time engine of
    [SimuladorAtencionPublico] and the properties of its per-tick
    transition.

    Modelling conventions.
    - Python integers are [Z]; the floats that reach the engine
      ([random.random()], [np.random.normal(...)], [PROB_INGRESO],
      [velocidad_animacion]) are finite doubles and are represented by the
      rational they denote ([Q]).
    - [Cliente] objects are shared between [clientes_ingresados], [cola],
      [Box.cliente_actual], [clientes_atendidos] and
      [clientes_abandonaron] and are mutated in place.  The model keeps
      an object store [objetos] (allocation order) and the collections
      hold references into it.
    - The two pseudo-random generators are oracles indexed by the number
      of draws already made; the positions are part of the state.
    - Exceptions are values of [result].  The matplotlib fields and the
      animation coordinates take no part in the engine and are left out. *)

From Stdlib Require Import ZArith QArith Lia.
From stdpp Require Import base decidable option numbers list sorting.

Local Open Scope Z_scope.

(** ** Exceptions *)

Inductive Error :=
| ValueError          (* raised by [__init__] and by [deque.remove] *)
| TypeError           (* [int >= None] *)
| AttributeError      (* attribute assignment on [None] *)
| ReferenciaInvalida. (* a reference outside the object store or the box list *)

Inductive result (A : Type) :=
| Ok (a : A)
| Raise (e : Error).
Arguments Ok {A} a.
Arguments Raise {A} e.

Global Instance result_ret : MRet result := λ A a, Ok a.
Global Instance result_bind : MBind result := λ A B f m,
  match m with
  | Ok a => f a
  | Raise e => Raise e
  end.

Definition of_option {A} (e : Error) (o : option A) : result A :=
  match o with
  | Some a => Ok a
  | None => Raise e
  end.

(** [for x in l: s = body(s, x)], stopping at the first exception. *)
Fixpoint for_each {S A} (body : S → A → result S) (s : S) (l : list A) : result S :=
  match l with
  | [] => Ok s
  | x :: l' => s' ← body s x; for_each body s' l'
  end.

(** ** Python numeric helpers *)

(** [float('inf')] or an integer: the type of the running minima. *)
Inductive Num :=
| Inf
| Ent (z : Z).

(** [min(a, b)]: the first argument unless the second is strictly smaller. *)
Definition py_min (a : Num) (b : Z) : Num :=
  match a with
  | Inf => Ent b
  | Ent x => if decide (b < x) then Ent b else Ent x
  end.

(** [max(a, b)]: the first argument unless the second is strictly larger. *)
Definition py_max (a b : Z) : Z := if decide (a < b) then b else a.

(** [int(x)] on a finite float: truncation towards zero. *)
Definition py_int (x : Q) : Z := Z.quot (Qnum x) (Z.pos (Qden x)).

(** ** Entities *)

(** References to [Cliente] objects: positions in the object store. *)
Abbreviation ref := nat (only parsing).

Module Cliente.
Record t := mk {
  id : Z;
  tiempo_ingreso : Z;
  tiempo_inicio_atencion : option Z;
  tiempo_fin_atencion : option Z;
  box_asignado : option Z;
  abandono : bool;
  tiempo_abandono : option Z
}.

(** Constructor call [Cliente(id=i, tiempo_ingreso=t)]. *)
Definition nuevo (i ingreso : Z) : t := mk i ingreso None None None false None.

Definition set_tiempo_inicio_atencion (v : option Z) (c : t) : t :=
  mk (id c) (tiempo_ingreso c) v (tiempo_fin_atencion c) (box_asignado c)
     (abandono c) (tiempo_abandono c).
Definition set_tiempo_fin_atencion (v : option Z) (c : t) : t :=
  mk (id c) (tiempo_ingreso c) (tiempo_inicio_atencion c) v (box_asignado c)
     (abandono c) (tiempo_abandono c).
Definition set_box_asignado (v : option Z) (c : t) : t :=
  mk (id c) (tiempo_ingreso c) (tiempo_inicio_atencion c)
     (tiempo_fin_atencion c) v (abandono c) (tiempo_abandono c).
Definition set_abandono (v : bool) (c : t) : t :=
  mk (id c) (tiempo_ingreso c) (tiempo_inicio_atencion c)
     (tiempo_fin_atencion c) (box_asignado c) v (tiempo_abandono c).
Definition set_tiempo_abandono (v : option Z) (c : t) : t :=
  mk (id c) (tiempo_ingreso c) (tiempo_inicio_atencion c)
     (tiempo_fin_atencion c) (box_asignado c) (abandono c) v.

(** Property [tiempo_espera]. *)
Definition tiempo_espera (c : t) : option Z :=
    match tiempo_inicio_atencion c with
    | Some ti => Some (ti - tiempo_ingreso c)
    | None =>
        match abandono c, tiempo_abandono c with
        | true, Some ta => Some (ta - tiempo_ingreso c)
        | _, _ => None
        end
    end.

(** Property [tiempo_atencion]. *)
Definition tiempo_atencion (c : t) : option Z :=
    match tiempo_inicio_atencion c, tiempo_fin_atencion c with
    | Some ti, Some tf => Some (tf - ti)
    | _, _ => None
    end.

(** The dataclass [__eq__] compares the fields. *)
Global Instance eq_dec : EqDecision t.
Proof. solve_decision. Defined.
End Cliente.

Module Box.
Record t := mk {
  id : Z;
  ocupado : bool;
  cliente_actual : option ref;
  tiempo_fin_atencion : option Z
}.

(** Constructor call [Box(i)]. *)
Definition nuevo (i : Z) : t := mk i false None None.
End Box.

(** The dictionary [estadisticas]; its key set is fixed. *)
Module Est.
Record t := mk {
  clientes_ingresados : Z;
  clientes_atendidos : Z;
  clientes_abandonaron : Z;
  tiempo_min_atencion : Num;
  tiempo_max_atencion : Z;
  tiempo_min_espera : Num;
  tiempo_max_espera : Z;
  costo_total : Z
}.

Definition inicial : t := mk 0 0 0 Inf 0 Inf 0 0.

Definition set_clientes_ingresados (v : Z) (e : t) : t :=
  mk v (clientes_atendidos e) (clientes_abandonaron e) (tiempo_min_atencion e)
     (tiempo_max_atencion e) (tiempo_min_espera e) (tiempo_max_espera e)
     (costo_total e).
Definition set_clientes_atendidos (v : Z) (e : t) : t :=
  mk (clientes_ingresados e) v (clientes_abandonaron e) (tiempo_min_atencion e)
     (tiempo_max_atencion e) (tiempo_min_espera e) (tiempo_max_espera e)
     (costo_total e).
Definition set_clientes_abandonaron (v : Z) (e : t) : t :=
  mk (clientes_ingresados e) (clientes_atendidos e) v (tiempo_min_atencion e)
     (tiempo_max_atencion e) (tiempo_min_espera e) (tiempo_max_espera e)
     (costo_total e).
Definition set_atencion (lo : Num) (hi : Z) (e : t) : t :=
  mk (clientes_ingresados e) (clientes_atendidos e) (clientes_abandonaron e)
     lo hi (tiempo_min_espera e) (tiempo_max_espera e) (costo_total e).
Definition set_espera (lo : Num) (hi : Z) (e : t) : t :=
  mk (clientes_ingresados e) (clientes_atendidos e) (clientes_abandonaron e)
     (tiempo_min_atencion e) (tiempo_max_atencion e) lo hi (costo_total e).
Definition set_costo_total (v : Z) (e : t) : t :=
  mk (clientes_ingresados e) (clientes_atendidos e) (clientes_abandonaron e)
     (tiempo_min_atencion e) (tiempo_max_atencion e) (tiempo_min_espera e)
     (tiempo_max_espera e) v.
End Est.


(** ** The simulator object

    The attributes of [SimuladorAtencionPublico], followed by the state of
    the interpreter the engine acts on: the store of [Cliente] objects and
    the number of draws made so far from [random] and from [np.random]. *)

Record Simulador := mkSimulador {
  num_boxes : Z;
  velocidad_animacion : Q;
  boxes : list Box.t;
  cola : list ref;
  clientes_ingresados : list ref;
  clientes_atendidos : list ref;
  clientes_abandonaron : list ref;
  DURACION_SIMULACION : Z;
  PROB_INGRESO : Q;
  TIEMPO_MAX_ESPERA : Z;
  MEDIA_ATENCION : Z;
  DESVIO_ATENCION : Z;
  COSTO_BOX : Z;
  PERDIDA_CLIENTE : Z;
  tiempo_actual : Z;
  contador_clientes : Z;
  simulacion_activa : bool;
  estadisticas : Est.t;
  objetos : list Cliente.t;
  pos_random : N;
  pos_numpy : N
}.

Definition set_boxes (v : list Box.t) (s : Simulador) : Simulador :=
  mkSimulador (num_boxes s) (velocidad_animacion s) v (cola s)
    (clientes_ingresados s) (clientes_atendidos s) (clientes_abandonaron s)
    (DURACION_SIMULACION s) (PROB_INGRESO s) (TIEMPO_MAX_ESPERA s)
    (MEDIA_ATENCION s) (DESVIO_ATENCION s) (COSTO_BOX s) (PERDIDA_CLIENTE s)
    (tiempo_actual s) (contador_clientes s) (simulacion_activa s)
    (estadisticas s) (objetos s) (pos_random s) (pos_numpy s).
Definition set_cola (v : list ref) (s : Simulador) : Simulador :=
  mkSimulador (num_boxes s) (velocidad_animacion s) (boxes s) v
    (clientes_ingresados s) (clientes_atendidos s) (clientes_abandonaron s)
    (DURACION_SIMULACION s) (PROB_INGRESO s) (TIEMPO_MAX_ESPERA s)
    (MEDIA_ATENCION s) (DESVIO_ATENCION s) (COSTO_BOX s) (PERDIDA_CLIENTE s)
    (tiempo_actual s) (contador_clientes s) (simulacion_activa s)
    (estadisticas s) (objetos s) (pos_random s) (pos_numpy s).
Definition set_clientes_ingresados (v : list ref) (s : Simulador) : Simulador :=
  mkSimulador (num_boxes s) (velocidad_animacion s) (boxes s) (cola s) v
    (clientes_atendidos s) (clientes_abandonaron s) (DURACION_SIMULACION s)
    (PROB_INGRESO s) (TIEMPO_MAX_ESPERA s) (MEDIA_ATENCION s)
    (DESVIO_ATENCION s) (COSTO_BOX s) (PERDIDA_CLIENTE s) (tiempo_actual s)
    (contador_clientes s) (simulacion_activa s) (estadisticas s) (objetos s)
    (pos_random s) (pos_numpy s).
Definition set_clientes_atendidos (v : list ref) (s : Simulador) : Simulador :=
  mkSimulador (num_boxes s) (velocidad_animacion s) (boxes s) (cola s)
    (clientes_ingresados s) v (clientes_abandonaron s) (DURACION_SIMULACION s)
    (PROB_INGRESO s) (TIEMPO_MAX_ESPERA s) (MEDIA_ATENCION s)
    (DESVIO_ATENCION s) (COSTO_BOX s) (PERDIDA_CLIENTE s) (tiempo_actual s)
    (contador_clientes s) (simulacion_activa s) (estadisticas s) (objetos s)
    (pos_random s) (pos_numpy s).
Definition set_clientes_abandonaron (v : list ref) (s : Simulador) : Simulador :=
  mkSimulador (num_boxes s) (velocidad_animacion s) (boxes s) (cola s)
    (clientes_ingresados s) (clientes_atendidos s) v (DURACION_SIMULACION s)
    (PROB_INGRESO s) (TIEMPO_MAX_ESPERA s) (MEDIA_ATENCION s)
    (DESVIO_ATENCION s) (COSTO_BOX s) (PERDIDA_CLIENTE s) (tiempo_actual s)
    (contador_clientes s) (simulacion_activa s) (estadisticas s) (objetos s)
    (pos_random s) (pos_numpy s).
Definition set_tiempo_actual (v : Z) (s : Simulador) : Simulador :=
  mkSimulador (num_boxes s) (velocidad_animacion s) (boxes s) (cola s)
    (clientes_ingresados s) (clientes_atendidos s) (clientes_abandonaron s)
    (DURACION_SIMULACION s) (PROB_INGRESO s) (TIEMPO_MAX_ESPERA s)
    (MEDIA_ATENCION s) (DESVIO_ATENCION s) (COSTO_BOX s) (PERDIDA_CLIENTE s) v
    (contador_clientes s) (simulacion_activa s) (estadisticas s) (objetos s)
    (pos_random s) (pos_numpy s).
Definition set_contador_clientes (v : Z) (s : Simulador) : Simulador :=
  mkSimulador (num_boxes s) (velocidad_animacion s) (boxes s) (cola s)
    (clientes_ingresados s) (clientes_atendidos s) (clientes_abandonaron s)
    (DURACION_SIMULACION s) (PROB_INGRESO s) (TIEMPO_MAX_ESPERA s)
    (MEDIA_ATENCION s) (DESVIO_ATENCION s) (COSTO_BOX s) (PERDIDA_CLIENTE s)
    (tiempo_actual s) v (simulacion_activa s) (estadisticas s) (objetos s)
    (pos_random s) (pos_numpy s).
Definition set_estadisticas (v : Est.t) (s : Simulador) : Simulador :=
  mkSimulador (num_boxes s) (velocidad_animacion s) (boxes s) (cola s)
    (clientes_ingresados s) (clientes_atendidos s) (clientes_abandonaron s)
    (DURACION_SIMULACION s) (PROB_INGRESO s) (TIEMPO_MAX_ESPERA s)
    (MEDIA_ATENCION s) (DESVIO_ATENCION s) (COSTO_BOX s) (PERDIDA_CLIENTE s)
    (tiempo_actual s) (contador_clientes s) (simulacion_activa s) v
    (objetos s) (pos_random s) (pos_numpy s).
Definition set_objetos (v : list Cliente.t) (s : Simulador) : Simulador :=
  mkSimulador (num_boxes s) (velocidad_animacion s) (boxes s) (cola s)
    (clientes_ingresados s) (clientes_atendidos s) (clientes_abandonaron s)
    (DURACION_SIMULACION s) (PROB_INGRESO s) (TIEMPO_MAX_ESPERA s)
    (MEDIA_ATENCION s) (DESVIO_ATENCION s) (COSTO_BOX s) (PERDIDA_CLIENTE s)
    (tiempo_actual s) (contador_clientes s) (simulacion_activa s)
    (estadisticas s) v (pos_random s) (pos_numpy s).
Definition set_pos_random (v : N) (s : Simulador) : Simulador :=
  mkSimulador (num_boxes s) (velocidad_animacion s) (boxes s) (cola s)
    (clientes_ingresados s) (clientes_atendidos s) (clientes_abandonaron s)
    (DURACION_SIMULACION s) (PROB_INGRESO s) (TIEMPO_MAX_ESPERA s)
    (MEDIA_ATENCION s) (DESVIO_ATENCION s) (COSTO_BOX s) (PERDIDA_CLIENTE s)
    (tiempo_actual s) (contador_clientes s) (simulacion_activa s)
    (estadisticas s) (objetos s) v (pos_numpy s).
Definition set_pos_numpy (v : N) (s : Simulador) : Simulador :=
  mkSimulador (num_boxes s) (velocidad_animacion s) (boxes s) (cola s)
    (clientes_ingresados s) (clientes_atendidos s) (clientes_abandonaron s)
    (DURACION_SIMULACION s) (PROB_INGRESO s) (TIEMPO_MAX_ESPERA s)
    (MEDIA_ATENCION s) (DESVIO_ATENCION s) (COSTO_BOX s) (PERDIDA_CLIENTE s)
    (tiempo_actual s) (contador_clientes s) (simulacion_activa s)
    (estadisticas s) (objetos s) (pos_random s) v.

(** Attribute read and in-place attribute write through a reference. *)
Definition leer (r : ref) (s : Simulador) : result Cliente.t :=
  of_option ReferenciaInvalida (objetos s !! r).

Definition modificar (r : ref) (f : Cliente.t → Cliente.t) (s : Simulador)
  : result Simulador :=
  c ← leer r s; Ok (set_objetos (<[r := f c]> (objetos s)) s).

(** [a == b] on two [Cliente] references: identity, else the dataclass
    field comparison. *)
Definition cliente_eq (objs : list Cliente.t) (a b : ref) : bool :=
  bool_decide (a = b) || bool_decide (objs !! a = objs !! b).

(** [deque.remove(x)]: drops the first element equal to [x]. *)
Fixpoint deque_remove (objs : list Cliente.t) (x : ref) (q : list ref)
  : result (list ref) :=
  match q with
  | [] => Raise ValueError
  | y :: q' =>
      if cliente_eq objs y x then Ok q'
      else q'' ← deque_remove objs x q'; Ok (y :: q'')
  end.

(** ** Construction *)

(** [SimuladorAtencionPublico.__init__].  [PROB_INGRESO] is the double
    that [1/144] evaluates to, [2001599834386887 / 2^58]. *)
Definition __init__ (num_boxes : Z) (velocidad_animacion : Q) : result Simulador :=
  if decide (1 ≤ num_boxes ∧ num_boxes ≤ 10) then
    Ok {| num_boxes := num_boxes;
          velocidad_animacion := velocidad_animacion;
          boxes := Box.nuevo <$> seqZ 0 num_boxes;
          cola := [];
          clientes_ingresados := [];
          clientes_atendidos := [];
          clientes_abandonaron := [];
          DURACION_SIMULACION := 4 * 3600;
          PROB_INGRESO := (2001599834386887 # 288230376151711744)%Q;
          TIEMPO_MAX_ESPERA := 30 * 60;
          MEDIA_ATENCION := 10 * 60;
          DESVIO_ATENCION := 5 * 60;
          COSTO_BOX := 1000;
          PERDIDA_CLIENTE := 10000;
          tiempo_actual := 0;
          contador_clientes := 0;
          simulacion_activa := false;
          estadisticas := Est.inicial;
          objetos := [];
          pos_random := 0%N;
          pos_numpy := 0%N |}
  else Raise ValueError.

(** ** The engine *)

Section Motor.

(** The [k]-th value returned by [random.random()], and the [k]-th value
    returned by [np.random.normal(loc, scale)]. *)
Variable random_random : N → Q.
Variable np_random_normal : N → Z → Z → Q.

Definition generar_tiempo_atencion (s : Simulador) : Z * Simulador :=
  let tiempo :=
    np_random_normal (pos_numpy s) (MEDIA_ATENCION s) (DESVIO_ATENCION s) in
  (py_max 60 (py_int tiempo), set_pos_numpy (N.succ (pos_numpy s)) s).

Definition procesar_llegadas (s : Simulador) : Simulador :=
  if decide (tiempo_actual s < DURACION_SIMULACION s) then
    let u := random_random (pos_random s) in
    let s := set_pos_random (N.succ (pos_random s)) s in
    if Qlt_le_dec u (PROB_INGRESO s) then
      let cliente : ref := length (objetos s) in
      let s :=
        set_objetos
          (objetos s ++ [Cliente.nuevo (contador_clientes s) (tiempo_actual s)])
          s in
      let s := set_contador_clientes (contador_clientes s + 1) s in
      let s := set_clientes_ingresados (clientes_ingresados s ++ [cliente]) s in
      let s := set_cola (cola s ++ [cliente]) s in
      set_estadisticas
        (Est.set_clientes_ingresados
           (Est.clientes_ingresados (estadisticas s) + 1) (estadisticas s))
        s
    else s
  else s.

(** Body of the loop of [asignar_clientes_a_boxes] for the box at
    position [i] of [self.boxes]. *)
Definition asignar_box (s : Simulador) (i : nat) : result Simulador :=
  box ← of_option ReferenciaInvalida (boxes s !! i);
  if Box.ocupado box then Ok s
  else
    match cola s with
    | [] => Ok s
    | cliente :: resto =>
        let s := set_cola resto s in
        let '(tiempo_atencion, s) := generar_tiempo_atencion s in
        let box :=
          Box.mk (Box.id box) true (Some cliente)
            (Some (tiempo_actual s + tiempo_atencion)) in
        let s := set_boxes (<[i := box]> (boxes s)) s in
        s ← modificar cliente
              (Cliente.set_tiempo_inicio_atencion (Some (tiempo_actual s))) s;
        modificar cliente (Cliente.set_box_asignado (Some (Box.id box))) s
    end.

Definition asignar_clientes_a_boxes (s : Simulador) : result Simulador :=
  for_each asignar_box s (seq 0 (length (boxes s))).

(** The two statistics updates of [procesar_finalizacion_atencion]. *)
Definition registrar_atencion (tiempo_atencion : option Z) (e : Est.t) : Est.t :=
  match tiempo_atencion with
  | Some ta =>
      if decide (ta = 0) then e
      else Est.set_atencion (py_min (Est.tiempo_min_atencion e) ta)
             (py_max (Est.tiempo_max_atencion e) ta) e
  | None => e
  end.

Definition registrar_espera (tiempo_espera : option Z) (e : Est.t) : Est.t :=
  match tiempo_espera with
  | Some te =>
      Est.set_espera (py_min (Est.tiempo_min_espera e) te)
        (py_max (Est.tiempo_max_espera e) te) e
  | None => e
  end.

(** Body of the loop of [procesar_finalizacion_atencion]. *)
Definition finalizar_box (s : Simulador) (i : nat) : result Simulador :=
  box ← of_option ReferenciaInvalida (boxes s !! i);
  if Box.ocupado box then
    fin ← of_option TypeError (Box.tiempo_fin_atencion box);
    if decide (fin ≤ tiempo_actual s) then
      cliente ← of_option AttributeError (Box.cliente_actual box);
      s ← modificar cliente
            (Cliente.set_tiempo_fin_atencion (Some (tiempo_actual s))) s;
      let s := set_clientes_atendidos (clientes_atendidos s ++ [cliente]) s in
      let s :=
        set_estadisticas
          (Est.set_clientes_atendidos
             (Est.clientes_atendidos (estadisticas s) + 1) (estadisticas s))
          s in
      c ← leer cliente s;
      let s :=
        set_estadisticas
          (registrar_atencion (Cliente.tiempo_atencion c) (estadisticas s)) s in
      let s :=
        set_estadisticas
          (registrar_espera (Cliente.tiempo_espera c) (estadisticas s)) s in
      Ok (set_boxes (<[i := Box.mk (Box.id box) false None None]> (boxes s)) s)
    else Ok s
  else Ok s.

Definition procesar_finalizacion_atencion (s : Simulador) : result Simulador :=
  for_each finalizar_box s (seq 0 (length (boxes s))).

(** Body of the first loop of [procesar_abandonos]; the second component
    is the local list [clientes_a_remover]. *)
Definition marcar_abandono (st : Simulador * list ref) (cliente : ref)
  : result (Simulador * list ref) :=
  let '(s, clientes_a_remover) := st in
  c ← leer cliente s;
  let tiempo_espera := tiempo_actual s - Cliente.tiempo_ingreso c in
  if decide (TIEMPO_MAX_ESPERA s ≤ tiempo_espera) then
    s ← modificar cliente (Cliente.set_abandono true) s;
    s ← modificar cliente
          (Cliente.set_tiempo_abandono (Some (tiempo_actual s))) s;
    let s := set_clientes_abandonaron (clientes_abandonaron s ++ [cliente]) s in
    let s :=
      set_estadisticas
        (Est.set_clientes_abandonaron
           (Est.clientes_abandonaron (estadisticas s) + 1) (estadisticas s))
        s in
    Ok (s, clientes_a_remover ++ [cliente])
  else Ok (s, clientes_a_remover).

(** Body of the second loop: [self.cola.remove(cliente)]. *)
Definition remover_de_cola (s : Simulador) (cliente : ref) : result Simulador :=
  q ← deque_remove (objetos s) cliente (cola s); Ok (set_cola q s).

Definition procesar_abandonos (s : Simulador) : result Simulador :=
  '(s, clientes_a_remover) ← for_each marcar_abandono (s, []) (cola s);
  for_each remover_de_cola s clientes_a_remover.

Definition calcular_costos (s : Simulador) : Simulador :=
  let costo_boxes := num_boxes s * COSTO_BOX s in
  let costo_perdidas :=
    Z.of_nat (length (clientes_abandonaron s)) * PERDIDA_CLIENTE s in
  set_estadisticas
    (Est.set_costo_total (costo_boxes + costo_perdidas) (estadisticas s)) s.

Definition simular_paso (s : Simulador) : result Simulador :=
  let s := procesar_llegadas s in
  s ← asignar_clientes_a_boxes s;
  s ← procesar_finalizacion_atencion s;
  s ← procesar_abandonos s;
  Ok (set_tiempo_actual (tiempo_actual s + 1) s).

Definition condicion_finalizacion (s : Simulador) : bool :=
  let boxes_ocupados := existsb Box.ocupado (boxes s) in
  bool_decide (DURACION_SIMULACION s ≤ tiempo_actual s)
  && bool_decide (cola s = [])
  && negb boxes_ocupados.

(** [n] successive calls of [simular_paso]. *)
Fixpoint pasos (n : nat) (s : Simulador) : result Simulador :=
  match n with
  | O => Ok s
  | S n' => s' ← simular_paso s; pasos n' s'
  end.

(** [ejecutar_simulacion_rapida]: the [while] loop is unrolled at most
    [fuel] times; [None] means the loop was still running. *)
Fixpoint ejecutar_simulacion_rapida (fuel : nat) (s : Simulador)
  : option (result Simulador) :=
  if condicion_finalizacion s then Some (Ok (calcular_costos s))
  else
    match fuel with
    | O => None
    | S fuel' =>
        match simular_paso s with
        | Ok s' => ejecutar_simulacion_rapida fuel' s'
        | Raise e => Some (Raise e)
        end
    end.

End Motor.

(** ** Reachable states *)

(** The states of an engine built by the constructor and advanced by
    [simular_paso], for the draws [U] of [random.random()] and [N] of
    [np.random.normal]. *)
Inductive alcanzable (U : N → Q) (N : N → Z → Z → Q) : Simulador → Prop :=
| alcanzable_init n v s :
    __init__ n v = Ok s → alcanzable U N s
| alcanzable_paso s s' :
    alcanzable U N s → simular_paso U N s = Ok s' → alcanzable U N s'.

(** Number of occupied boxes, as the information panel counts them:
    [sum(1 for box in self.boxes if box.ocupado)]. *)
Definition boxes_ocupados (s : Simulador) : nat :=
  length (filter (λ b, Box.ocupado b = true) (boxes s)).

(** ** Invariant of the engine *)

(** The customers currently held by the boxes. *)
Definition en_boxes (bs : list Box.t) : list ref := omap Box.cliente_actual bs.

(** Life-cycle stages of a customer record. *)
Definition esperando (D : Z) (c : Cliente.t) : Prop :=
  Cliente.tiempo_inicio_atencion c = None
  ∧ Cliente.abandono c = false
  ∧ Cliente.tiempo_ingreso c < D.

Definition en_atencion (fin : Z) (c : Cliente.t) : Prop :=
  ∃ ti, Cliente.tiempo_inicio_atencion c = Some ti
        ∧ ti + 60 ≤ fin
        ∧ Cliente.abandono c = false.

Definition atendido (c : Cliente.t) : Prop :=
  ∃ ti tf, Cliente.tiempo_inicio_atencion c = Some ti
           ∧ Cliente.tiempo_fin_atencion c = Some tf
           ∧ ti + 60 ≤ tf
           ∧ Cliente.abandono c = false.

Definition abandonado (espera_max : Z) (c : Cliente.t) : Prop :=
  Cliente.tiempo_inicio_atencion c = None
  ∧ Cliente.abandono c = true
  ∧ ∃ ta, Cliente.tiempo_abandono c = Some ta
          ∧ espera_max ≤ ta - Cliente.tiempo_ingreso c.

(** A box is occupied iff it holds a customer iff its completion tick is
    set; the customer it holds is in service. *)
Definition box_ok (objs : list Cliente.t) (b : Box.t) : Prop :=
  if Box.ocupado b then
    ∃ r fin c, Box.cliente_actual b = Some r
               ∧ Box.tiempo_fin_atencion b = Some fin
               ∧ objs !! r = Some c
               ∧ en_atencion fin c
  else Box.cliente_actual b = None ∧ Box.tiempo_fin_atencion b = None.

Record Inv (s : Simulador) : Prop := {
  inv_ids : ∀ r c, objetos s !! r = Some c → Cliente.id c = Z.of_nat r;
  inv_contador : contador_clientes s = Z.of_nat (length (objetos s));
  inv_ingresados : clientes_ingresados s = seq 0 (length (objetos s));
  inv_particion :
    cola s ++ en_boxes (boxes s) ++ clientes_atendidos s
      ++ clientes_abandonaron s
    ≡ₚ seq 0 (length (objetos s));
  inv_cola :
    ∀ r, r ∈ cola s →
      ∃ c, objetos s !! r = Some c ∧ esperando (DURACION_SIMULACION s) c;
  inv_boxes : ∀ i b, boxes s !! i = Some b → box_ok (objetos s) b;
  inv_atendidos :
    ∀ r, r ∈ clientes_atendidos s → ∃ c, objetos s !! r = Some c ∧ atendido c;
  inv_abandonaron :
    ∀ r, r ∈ clientes_abandonaron s →
      ∃ c, objetos s !! r = Some c ∧ abandonado (TIEMPO_MAX_ESPERA s) c;
  inv_est_ingresados :
    Est.clientes_ingresados (estadisticas s)
    = Z.of_nat (length (clientes_ingresados s));
  inv_est_atendidos :
    Est.clientes_atendidos (estadisticas s)
    = Z.of_nat (length (clientes_atendidos s));
  inv_est_abandonaron :
    Est.clientes_abandonaron (estadisticas s)
    = Z.of_nat (length (clientes_abandonaron s))
}.

(** The attributes no method of the engine assigns after construction. *)
Definition config (s : Simulador) : Z * Z * Q * Z * Z * Z * Z * Z :=
  (num_boxes s, DURACION_SIMULACION s, PROB_INGRESO s, TIEMPO_MAX_ESPERA s,
   MEDIA_ATENCION s, DESVIO_ATENCION s, COSTO_BOX s, PERDIDA_CLIENTE s).

(** How a record may change while the engine runs: identity and arrival
    tick are fixed, and neither the abandonment flag nor the service start
    is ever cleared. *)
Definition evoluciona (c c' : Cliente.t) : Prop :=
  Cliente.tiempo_ingreso c' = Cliente.tiempo_ingreso c
  ∧ Cliente.id c' = Cliente.id c
  ∧ (Cliente.abandono c = true → Cliente.abandono c' = true)
  ∧ (is_Some (Cliente.tiempo_inicio_atencion c) →
     is_Some (Cliente.tiempo_inicio_atencion c')).

(** What assignment, completion and abandonment leave alone: the
    configuration, the clock, the arrival bookkeeping and the number of
    boxes; draws from [np.random] are only ever consumed. *)
Record marco (s s' : Simulador) : Prop := {
  marco_config : config s' = config s;
  marco_tiempo : tiempo_actual s' = tiempo_actual s;
  marco_random : pos_random s' = pos_random s;
  marco_numpy : (pos_numpy s ≤ pos_numpy s')%N;
  marco_ingresados : clientes_ingresados s' = clientes_ingresados s;
  marco_contador : contador_clientes s' = contador_clientes s;
  marco_objetos : length (objetos s') = length (objetos s);
  marco_boxes : length (boxes s') = length (boxes s);
  marco_ingreso :
    ∀ r c, objetos s !! r = Some c →
      ∃ c', objetos s' !! r = Some c' ∧ evoluciona c c'
}.

(** A queued customer whose wait has reached the threshold at the current
    tick. *)
Definition vencido (s : Simulador) (r : ref) : Prop :=
  match objetos s !! r with
  | Some c => TIEMPO_MAX_ESPERA s ≤ tiempo_actual s - Cliente.tiempo_ingreso c
  | None => False
  end.

Global Instance vencido_dec s r : Decision (vencido s r).
Proof. unfold vencido. destruct (objetos s !! r); apply _. Defined.

(** The two attribute writes of [procesar_abandonos] on one record. *)
Definition marcar (t : Z) (c : Cliente.t) : Cliente.t :=
  Cliente.set_tiempo_abandono (Some t) (Cliente.set_abandono true c).

(** Effect of the first loop of [procesar_abandonos] once it has visited
    the queue members [l]: the due ones are stamped and appended to the
    abandoned record, nothing else moves. *)
Record marcado (l : list ref) (s s' : Simulador) : Prop := {
  mc_marco : marco s s';
  mc_cola : cola s' = cola s;
  mc_boxes : boxes s' = boxes s;
  mc_atendidos : clientes_atendidos s' = clientes_atendidos s;
  mc_abandonaron :
    clientes_abandonaron s'
    = clientes_abandonaron s ++ filter (vencido s) l;
  mc_objetos :
    ∀ r, objetos s' !! r
         = if decide (r ∈ filter (vencido s) l)
           then marcar (tiempo_actual s) <$> objetos s !! r
           else objetos s !! r;
  mc_est_ingresados :
    Est.clientes_ingresados (estadisticas s')
    = Est.clientes_ingresados (estadisticas s);
  mc_est_atendidos :
    Est.clientes_atendidos (estadisticas s')
    = Est.clientes_atendidos (estadisticas s);
  mc_est_abandonaron :
    Est.clientes_abandonaron (estadisticas s')
    = Est.clientes_abandonaron (estadisticas s)
      + Z.of_nat (length (filter (vencido s) l))
}.

(** What assignment and completion leave alone besides [marco]: the
    abandoned record is untouched and nobody joins the queue. *)
Record servicio (s s' : Simulador) : Prop := {
  sv_abandonaron : clientes_abandonaron s' = clientes_abandonaron s;
  sv_cola : ∀ r, r ∈ cola s' → r ∈ cola s
}.

(** The configuration the constructor installs for [n] boxes. *)
Definition config_inicial (n : Z) : Z * Z * Q * Z * Z * Z * Z * Z :=
  (n, 14400, (2001599834386887 # 288230376151711744)%Q, 1800, 600, 300,
   1000, 10000).

(** ** Sample draws

    Draws used to exhibit concrete runs: [llegan n] makes a customer
    arrive at each of the first [n] draws of [random.random()] and at no
    later one; [atencion_fija d] makes every service-time draw equal to
    [d]. *)
Definition llegan (n k : N) : Q := if decide (k < n)%N then 0%Q else 1%Q.
Definition atencion_fija (d : Z) (k : N) (loc scale : Z) : Q := inject_Z d.

(** Construction raised instead of returning an engine. *)
Definition falla_construccion (n : Z) (v : Q) : Prop :=
  ∃ e, __init__ n v = Raise e.

(** The latest completion tick scheduled on a list of boxes, and the
    states all of whose occupied boxes complete by [B]. *)
Definition max_fin (bs : list Box.t) : Z :=
  foldr (λ b acc, Z.max (default 0 (Box.tiempo_fin_atencion b)) acc) 0 bs.

Definition acotado (B : Z) (s : Simulador) : Prop :=
  ∀ i b fin,
    boxes s !! i = Some b → Box.ocupado b = true →
    Box.tiempo_fin_atencion b = Some fin → fin ≤ B.

(** Two sources of draws agree on the draws numbered [a <= k < b]. *)
Definition coinciden_random (U1 U2 : N → Q) (a b : N) : Prop :=
  ∀ k, (a ≤ k < b)%N → U1 k = U2 k.

Definition coinciden_normal (N1 N2 : N → Z → Z → Q) (a b : N) : Prop :=
  ∀ k loc scale, (a ≤ k < b)%N → N1 k loc scale = N2 k loc scale.

(** A source that behaves like [llegan n] on the first [m] draws and
    makes a customer arrive at every draw from the [m]-th on. *)
Definition llegan_y_luego (n m k : N) : Q :=
  if decide (k < n)%N then 0%Q
  else if decide (k < m)%N then 1%Q else 0%Q.

(** A source of service times equal to [d] on the first [m] draws and
    to [d'] afterwards. *)
Definition atencion_fija_hasta (d d' : Z) (m k : N) (loc scale : Z) : Q :=
  if decide (k < m)%N then inject_Z d else inject_Z d'.

(** ** Second invariant: stamps, box links, statistics, draw counts *)

(** What the fields of a record say about each other.  [d] is 1 between
    ticks (every stamp is strictly before the clock) and 0 inside a tick;
    [e] is 1 right after [procesar_abandonos] (whoever is still queued has
    waited strictly less than the threshold) and 0 otherwise. *)
Definition bien_formado (d e : Z) (s : Simulador) (c : Cliente.t) : Prop :=
  0 ≤ Cliente.tiempo_ingreso c ≤ tiempo_actual s - d
  ∧ match Cliente.tiempo_inicio_atencion c, Cliente.abandono c with
    | None, false =>
        Cliente.box_asignado c = None
        ∧ Cliente.tiempo_fin_atencion c = None
        ∧ Cliente.tiempo_abandono c = None
        ∧ tiempo_actual s - Cliente.tiempo_ingreso c
          ≤ TIEMPO_MAX_ESPERA s - e
    | Some ti, false =>
        Cliente.tiempo_ingreso c ≤ ti
        ∧ ti ≤ Cliente.tiempo_ingreso c + TIEMPO_MAX_ESPERA s
        ∧ ti ≤ tiempo_actual s - d
        ∧ Cliente.tiempo_abandono c = None
        ∧ (∃ k, Cliente.box_asignado c = Some k ∧ 0 ≤ k < num_boxes s)
        ∧ match Cliente.tiempo_fin_atencion c with
          | Some tf => ti + 60 ≤ tf ≤ tiempo_actual s - d
          | None => True
          end
    | None, true =>
        Cliente.tiempo_abandono c
        = Some (Cliente.tiempo_ingreso c + TIEMPO_MAX_ESPERA s)
        ∧ Cliente.tiempo_ingreso c + TIEMPO_MAX_ESPERA s
          ≤ tiempo_actual s - d
        ∧ Cliente.box_asignado c = None
        ∧ Cliente.tiempo_fin_atencion c = None
    | Some _, true => False
    end.

(** Service times and waiting times of the served customers, in the
    order of [clientes_atendidos]. *)
Definition atenciones (s : Simulador) : list Z :=
  omap (λ r, objetos s !! r ≫= Cliente.tiempo_atencion) (clientes_atendidos s).

Definition esperas (s : Simulador) : list Z :=
  omap (λ r, objetos s !! r ≫= Cliente.tiempo_espera) (clientes_atendidos s).

(** [lo] and [hi] are the running minimum and maximum of [l], with the
    initial values [float('inf')] and [0] when [l] is empty. *)
Definition resumen (lo : Num) (hi : Z) (l : list Z) : Prop :=
  (∀ x, x ∈ l → x ≤ hi)
  ∧ (∀ x, x ∈ l → ∃ m, lo = Ent m ∧ m ≤ x)
  ∧ (l = [] → lo = Inf ∧ hi = 0)
  ∧ (l ≠ [] → hi ∈ l ∧ ∃ m, lo = Ent m ∧ m ∈ l).

Record Inv2 (d e : Z) (s : Simulador) : Prop := {
  i2_tiempo : 0 ≤ tiempo_actual s;
  i2_espera_max : 0 ≤ TIEMPO_MAX_ESPERA s;
  i2_box_ids : ∀ i b, boxes s !! i = Some b → Box.id b = Z.of_nat i;
  i2_num_boxes : Z.of_nat (length (boxes s)) = num_boxes s;
  i2_cola_orden : StronglySorted lt (cola s);
  i2_ingreso_orden :
    ∀ r r' c c', (r < r')%nat →
      objetos s !! r = Some c → objetos s !! r' = Some c' →
      Cliente.tiempo_ingreso c < Cliente.tiempo_ingreso c';
  i2_registro : ∀ r c, objetos s !! r = Some c → bien_formado d e s c;
  i2_box_cliente :
    ∀ i b r c,
      boxes s !! i = Some b → Box.cliente_actual b = Some r →
      objetos s !! r = Some c →
      Cliente.box_asignado c = Some (Z.of_nat i)
      ∧ Cliente.tiempo_fin_atencion c = None;
  i2_atencion :
    resumen (Est.tiempo_min_atencion (estadisticas s))
      (Est.tiempo_max_atencion (estadisticas s)) (atenciones s);
  i2_espera :
    resumen (Est.tiempo_min_espera (estadisticas s))
      (Est.tiempo_max_espera (estadisticas s)) (esperas s);
  i2_costo : Est.costo_total (estadisticas s) = 0;
  i2_random :
    Z.of_N (pos_random s)
    = Z.min (tiempo_actual s + 1 - d) (DURACION_SIMULACION s `max` 0);
  i2_numpy :
    pos_numpy s
    = N.of_nat (length (en_boxes (boxes s)) + length (clientes_atendidos s))
}.

(** What [procesar_abandonos] never touches: the served record, the
    boxes, the draws of [np.random] and every statistic other than the
    abandonment counter. *)
Definition ajeno_al_abandono (s : Simulador)
  : list ref * list Box.t * N * Z * Z * (Num * Z * Num * Z * Z) :=
  (clientes_atendidos s, boxes s, pos_numpy s,
   Est.clientes_ingresados (estadisticas s),
   Est.clientes_atendidos (estadisticas s),
   (Est.tiempo_min_atencion (estadisticas s),
    Est.tiempo_max_atencion (estadisticas s),
    Est.tiempo_min_espera (estadisticas s),
    Est.tiempo_max_espera (estadisticas s),
    Est.costo_total (estadisticas s))).

(** ** Animation

    The engine side of the animated run.  Drawing on the figure is left
    out, except for the geometry of the box rectangles and the clock
    shown in the information panel. *)

(** A [matplotlib.patches.Rectangle]: lower-left corner, width, height. *)
Record Rectangle := mkRectangle {
  rect_x : Q;
  rect_y : Q;
  rect_width : Q;
  rect_height : Q
}.

(** [configurar_animacion]: the rectangle of the box at index [i], five
    boxes per row, rows going down. *)
Definition rectangulo_box (i : Z) : Rectangle :=
  let box_width := 2%Q in
  let box_height := (3 # 2)%Q in
  let start_x := 2%Q in
  let start_y := 7%Q in
  let x := (start_x + inject_Z (i mod 5) * (5 # 2))%Q in
  let y := (start_y - inject_Z (i / 5) * 2)%Q in
  mkRectangle x y box_width box_height.

(** [self.rectangulos_boxes] after [configurar_animacion]. *)
Definition configurar_animacion (s : Simulador) : list Rectangle :=
  rectangulo_box <$> seqZ 0 (Z.of_nat (length (boxes s))).

(** The waiting area drawn by [configurar_animacion], and the axes. *)
Definition area_de_espera : Rectangle := mkRectangle 1 1 14 3.
Definition ejes : Rectangle := mkRectangle 0 0 16 10.

(** Two rectangles share interior points; a rectangle lies within
    another. *)
Definition solapan (a b : Rectangle) : Prop :=
  (rect_x a < rect_x b + rect_width b)%Q
  ∧ (rect_x b < rect_x a + rect_width a)%Q
  ∧ (rect_y a < rect_y b + rect_height b)%Q
  ∧ (rect_y b < rect_y a + rect_height a)%Q.

Definition dentro (a b : Rectangle) : Prop :=
  (rect_x b <= rect_x a)%Q
  ∧ (rect_x a + rect_width a <= rect_x b + rect_width b)%Q
  ∧ (rect_y b <= rect_y a)%Q
  ∧ (rect_y a + rect_height a <= rect_y b + rect_height b)%Q.

(** The clock of the information panel: [(horas, minutos)]. *)
Definition reloj (s : Simulador) : Z * Z :=
  let tiempo_actual_min := tiempo_actual s / 60 in
  let horas := 8 + tiempo_actual_min / 60 in
  let minutos := tiempo_actual_min mod 60 in
  (horas, minutos).

(** The speed table of [ejecutar_simulacion_con_animacion]:
    [(intervalo, pasos_por_frame)]. *)
Definition velocidad_variable (velocidad : Z) : Z * Z :=
  if decide (90 ≤ velocidad) then (1, Z.max 1 (velocidad / 10))
  else if decide (70 ≤ velocidad) then (5, Z.max 1 (velocidad / 20))
  else if decide (50 ≤ velocidad) then (10, 1)
  else if decide (30 ≤ velocidad) then (20, 1)
  else if decide (10 ≤ velocidad) then (50, 1)
  else (Z.max 100 (py_int (1000 # Z.to_pos (Z.max 1 velocidad))), 1).

Definition frames_estimados (s : Simulador) (pasos_por_frame : Z) : Z :=
  if decide (1 < pasos_por_frame) then
    (DURACION_SIMULACION s + 3600) / pasos_por_frame
  else DURACION_SIMULACION s + 3600.

(** Frame rate of the video writer. *)
Definition fps (velocidad : Z) : Z := Z.max 10 (velocidad / 2).

Section Animacion.

Variable random_random : N → Q.
Variable np_random_normal : N → Z → Z → Q.

(** What [actualizar_animacion] does to the engine. *)
Definition actualizar_animacion (s : Simulador) : result Simulador :=
  if negb (condicion_finalizacion s) then
    simular_paso random_random np_random_normal s
  else Ok s.

(** What [actualizar_optimizado] does to the engine. *)
Definition actualizar_optimizado (pasos_por_frame : Z) (s : Simulador)
  : result Simulador :=
  for_each
    (λ s (_ : nat),
       if negb (condicion_finalizacion s) then
         simular_paso random_random np_random_normal s
       else Ok s)
    s (seq 0 (Z.to_nat pasos_por_frame)).

(** [llamadas] successive calls of the update function of the
    animation. *)
Fixpoint cuadros (actualizar : Simulador → result Simulador)
    (llamadas : nat) (s : Simulador) : result Simulador :=
  match llamadas with
  | O => Ok s
  | S llamadas' => s' ← actualizar s; cuadros actualizar llamadas' s'
  end.

(** [ejecutar_simulacion_con_animacion] for an update function called
    [llamadas] times by the animation. *)
Definition ejecutar_simulacion_con_animacion (velocidad : Z) (llamadas : nat)
    (s : Simulador) : result Simulador :=
  let '(intervalo, pasos_por_frame) := velocidad_variable velocidad in
  s ← (if decide (1 < pasos_por_frame) then
         cuadros (actualizar_optimizado pasos_por_frame) llamadas s
       else cuadros actualizar_animacion llamadas s);
  Ok (calcular_costos s).

End Animacion.

(** ** The dialogue of [main.py] *)

Module Main.

(** A line typed at a prompt: empty, an integer literal, or anything
    else. *)
Inductive Linea :=
| Vacia
| Entero (z : Z)
| Invalida.

(** [int(input(...))]: [None] stands for [ValueError]. *)
Definition int_input (l : Linea) : option Z :=
  match l with
  | Entero z => Some z
  | Vacia | Invalida => None
  end.

(** The loop [while True: try: ... except ValueError: ...] of the two
    first prompts; [None] when the input ends before a value is accepted. *)
Fixpoint pedir (lo hi : Z) (entradas : list Linea) : option (Z * list Linea) :=
  match entradas with
  | [] => None
  | l :: resto =>
      match int_input l with
      | Some n =>
          if decide (lo ≤ n ∧ n ≤ hi) then Some (n, resto)
          else pedir lo hi resto
      | None => pedir lo hi resto
      end
  end.

(** How [main] ends its dialogue. *)
Inductive Arranque :=
| Animada (simulador : Simulador) (guardar_video : bool) (velocidad : Z)
    (resto : list Linea)
| Rapida (simulador : Simulador) (resto : list Linea)
| FinDeEntrada
| VelocidadInvalida
| Falla (e : Error).

(** [int(input(...) or defecto)] *)
Definition pedir_velocidad (simulador : Simulador) (guardar_video : bool)
    (defecto : Z) (entradas : list Linea) : Arranque :=
  match entradas with
  | [] => FinDeEntrada
  | Vacia :: resto => Animada simulador guardar_video defecto resto
  | Entero z :: resto => Animada simulador guardar_video z resto
  | Invalida :: _ => VelocidadInvalida
  end.

Definition main (entradas : list Linea) : Arranque :=
  match pedir 1 10 entradas with
  | None => FinDeEntrada
  | Some (num_boxes, entradas) =>
      match pedir 1 3 entradas with
      | None => FinDeEntrada
      | Some (opcion, entradas) =>
          match __init__ num_boxes 1 with
          | Raise e => Falla e
          | Ok simulador =>
              if decide (opcion = 1) then
                pedir_velocidad simulador true 60 entradas
              else if decide (opcion = 2) then Rapida simulador entradas
              else pedir_velocidad simulador false 50 entradas
          end
      end
  end.

(** An entry the prompt for [lo..hi] asks again about. *)
Definition rechazada (lo hi : Z) (l : Linea) : Prop :=
  match int_input l with
  | Some n => ¬ (lo ≤ n ∧ n ≤ hi)
  | None => True
  end.

End Main.

(** ** Third invariant: turns and scheduled completions *)

(** The service of a customer has started. *)
Definition iniciado (c : Cliente.t) : Prop :=
  is_Some (Cliente.tiempo_inicio_atencion c).

Global Instance iniciado_dec c : Decision (iniciado c).
Proof. unfold iniciado. apply _. Defined.

(** The turn of the customer [r]: how many customers created before it
    have had their service started. *)
Definition turno (s : Simulador) (r : ref) : nat :=
  length (filter iniciado (take r (objetos s))).

(** The service time that [generar_tiempo_atencion] computes from the
    [k]-th draw of [np.random.normal]. *)
Definition duracion_del_turno (np_random_normal : N → Z → Z → Q)
    (s : Simulador) (k : nat) : Z :=
  py_max 60
    (py_int (np_random_normal (N.of_nat k) (MEDIA_ATENCION s)
               (DESVIO_ATENCION s))).

(** Customers start their service in order of creation, each with the
    next draw; a box completes at the start tick plus the time drawn, and
    that tick has not passed (it is still ahead for the boxes before
    [frontera], which the completion loop has already visited). *)
Record Inv3 (np_random_normal : N → Z → Z → Q) (frontera : nat)
    (s : Simulador) : Prop := {
  i3_fifo :
    ∀ r r' c', r ∈ cola s → (r < r')%nat → objetos s !! r' = Some c' →
      ¬ iniciado c';
  i3_orden :
    ∀ r r' c c' ti ti',
      (r < r')%nat → objetos s !! r = Some c → objetos s !! r' = Some c' →
      Cliente.tiempo_inicio_atencion c = Some ti →
      Cliente.tiempo_inicio_atencion c' = Some ti' →
      ti ≤ ti';
  i3_numpy : pos_numpy s = N.of_nat (length (filter iniciado (objetos s)));
  i3_fin :
    ∀ r c ti tf,
      objetos s !! r = Some c →
      Cliente.tiempo_inicio_atencion c = Some ti →
      Cliente.tiempo_fin_atencion c = Some tf →
      tf = ti + duracion_del_turno np_random_normal s (turno s r);
  i3_box :
    ∀ i b r c ti fin,
      boxes s !! i = Some b → Box.cliente_actual b = Some r →
      objetos s !! r = Some c →
      Cliente.tiempo_inicio_atencion c = Some ti →
      Box.tiempo_fin_atencion b = Some fin →
      fin = ti + duracion_del_turno np_random_normal s (turno s r)
      ∧ tiempo_actual s + (if decide (i < frontera)%nat then 1 else 0) ≤ fin
}.

(** ** History of a record *)

(** Whatever is written on the record [c] is still written, unchanged,
    on the record [c']. *)
Definition conserva (c c' : Cliente.t) : Prop :=
  Cliente.id c' = Cliente.id c
  ∧ Cliente.tiempo_ingreso c' = Cliente.tiempo_ingreso c
  ∧ (∀ t, Cliente.tiempo_inicio_atencion c = Some t →
          Cliente.tiempo_inicio_atencion c' = Some t)
  ∧ (∀ t, Cliente.tiempo_fin_atencion c = Some t →
          Cliente.tiempo_fin_atencion c' = Some t)
  ∧ (∀ k, Cliente.box_asignado c = Some k →
          Cliente.box_asignado c' = Some k)
  ∧ (Cliente.abandono c = true → Cliente.abandono c' = true)
  ∧ (∀ t, Cliente.tiempo_abandono c = Some t →
          Cliente.tiempo_abandono c' = Some t).

(** Every record of [s] is conserved in [s']. *)
Definition historia (s s' : Simulador) : Prop :=
  ∀ r c, objetos s !! r = Some c →
    ∃ c', objetos s' !! r = Some c' ∧ conserva c c'.

(** ** The printed results *)

(** A time in seconds as the report prints it: [x // 60] minutes and
    [x % 60] seconds. *)
Definition min_seg (x : Z) : Z * Z := (x / 60, x mod 60).

(** The figures printed by [imprimir_resultados], in the order of the
    report; a pair of times is [None] where the report shows [N/A]. *)
Record Resultados := mkResultados {
  res_num_boxes : Z;
  res_ingresaron : Z;
  res_atendidos : Z;
  res_abandonaron : Z;
  res_atencion : option ((Z * Z) * (Z * Z));
  res_espera : option ((Z * Z) * (Z * Z));
  res_costo_boxes : Z;
  res_costo_perdidas : Z;
  res_costo_total : Z
}.

Definition imprimir_resultados (s : Simulador) : Resultados :=
  {| res_num_boxes := num_boxes s;
     res_ingresaron := Est.clientes_ingresados (estadisticas s);
     res_atendidos := Est.clientes_atendidos (estadisticas s);
     res_abandonaron := Est.clientes_abandonaron (estadisticas s);
     res_atencion :=
       match Est.tiempo_min_atencion (estadisticas s) with
       | Ent lo =>
           Some (min_seg lo, min_seg (Est.tiempo_max_atencion (estadisticas s)))
       | Inf => None
       end;
     res_espera :=
       match Est.tiempo_min_espera (estadisticas s) with
       | Ent lo =>
           Some (min_seg lo, min_seg (Est.tiempo_max_espera (estadisticas s)))
       | Inf => None
       end;
     res_costo_boxes := num_boxes s * COSTO_BOX s;
     res_costo_perdidas :=
       Z.of_nat (length (clientes_abandonaron s)) * PERDIDA_CLIENTE s;
     res_costo_total := Est.costo_total (estadisticas s) |}.

(** * Properties *)

(** ** The exception monad and the loops *)

Lemma bind_Ok {A B} (m : result A) (f : A → result B) (b : B) :
  m ≫= f = Ok b ↔ ∃ a, m = Ok a ∧ f a = Ok b.
Proof.
  destruct m as [a|e]; simpl; split.
  - eauto.
  - intros (a' & [= <-] & H). exact H.
  - discriminate.
  - intros (a' & [=] & _).
Qed.

Lemma of_option_Ok {A} e (o : option A) a : of_option e o = Ok a ↔ o = Some a.
Proof. destruct o; simpl; split; intros [=]; by subst. Qed.

(** A reflexive and transitive relation that every iteration respects is
    respected by the loop. *)
Lemma for_each_rel {S A} (R : S → S → Prop) (body : S → A → result S) :
  (∀ s, R s s) →
  (∀ s1 s2 s3, R s1 s2 → R s2 s3 → R s1 s3) →
  (∀ s x s', body s x = Ok s' → R s s') →
  ∀ l s s', for_each body s l = Ok s' → R s s'.
Proof.
  intros Hrefl Htrans Hbody l.
  induction l as [|x l IH]; intros s s' Hrun; simpl in Hrun.
  - injection Hrun as <-. apply Hrefl.
  - apply bind_Ok in Hrun as (s1 & H1 & H2). eauto.
Qed.

(** A loop over positions [a, a+n) whose every iteration succeeds and
    carries a position-indexed invariant one step further. *)
Lemma for_each_seq_inv {S} (P : nat → S → Prop) (body : S → nat → result S) :
  ∀ n a s,
    P a s →
    (∀ k s, (a ≤ k < a + n)%nat → P k s → ∃ s', body s k = Ok s' ∧ P (Datatypes.S k) s') →
    ∃ s', for_each body s (seq a n) = Ok s' ∧ P (a + n)%nat s'.
Proof.
  induction n as [|n IH]; intros a s HP Hbody; simpl.
  - exists s. rewrite Nat.add_0_r. done.
  - destruct (Hbody a s) as (s1 & -> & HP1); [lia|done|]. simpl.
    destruct (IH (Datatypes.S a) s1 HP1) as (s' & Hrun & HP').
    { intros k s2 Hk. apply Hbody. lia. }
    exists s'. split; [done|]. by replace (a + Datatypes.S n)%nat with (Datatypes.S a + n)%nat by lia.
Qed.

(** ** Frame of the three queue-processing procedures *)

Lemma evoluciona_refl c : evoluciona c c.
Proof. by repeat split. Qed.

Lemma evoluciona_trans c1 c2 c3 :
  evoluciona c1 c2 → evoluciona c2 c3 → evoluciona c1 c3.
Proof.
  intros (? & ? & ? & ?) (? & ? & ? & ?).
  repeat split; [congruence|congruence|auto|auto].
Qed.

#[local] Hint Resolve evoluciona_refl : core.

(** Discharges [evoluciona c (f c)] for the attribute writes of the engine. *)
Ltac escritura_ok :=
  intros ?; unfold evoluciona; simpl; repeat split; eauto.

Lemma marco_refl s : marco s s.
Proof. split; try done. eauto. Qed.

Lemma marco_trans s1 s2 s3 : marco s1 s2 → marco s2 s3 → marco s1 s3.
Proof.
  intros [] []. split; try congruence; try lia.
  intros r c Hc.
  destruct (marco_ingreso0 r c Hc) as (c2 & Hc2 & ?).
  destruct (marco_ingreso1 r c2 Hc2) as (c3 & Hc3 & ?).
  exists c3. split; [done|]. by eapply evoluciona_trans.
Qed.

Lemma modificar_Ok r f s s' :
  modificar r f s = Ok s' ↔
  ∃ c, objetos s !! r = Some c ∧ s' = set_objetos (<[r := f c]> (objetos s)) s.
Proof.
  unfold modificar, leer. rewrite bind_Ok. split.
  - intros (c & Hc%of_option_Ok & [= <-]). eauto.
  - intros (c & Hc & ->). exists c. by rewrite Hc.
Qed.

(** An attribute write that keeps [id] and [tiempo_ingreso]. *)
Lemma marco_modificar r f s s' :
  (∀ c, evoluciona c (f c)) →
  modificar r f s = Ok s' → marco s s'.
Proof.
  intros Hf (c & Hc & ->)%modificar_Ok.
  split; simpl; try done.
  - by rewrite length_insert.
  - intros r' c' Hc'. destruct (decide (r = r')) as [<-|Hne].
    + rewrite list_lookup_insert_eq by (by eapply lookup_lt_Some).
      exists (f c). split; [done|]. replace c' with c by congruence. apply Hf.
    + rewrite list_lookup_insert_ne by done. eauto.
Qed.

Lemma marco_set_boxes bs s :
  length bs = length (boxes s) → marco s (set_boxes bs s).
Proof. intros Hlen. split; simpl; try done. eauto. Qed.

Lemma marco_set_cola q s : marco s (set_cola q s).
Proof. split; simpl; try done. eauto. Qed.

Lemma marco_set_estadisticas e s : marco s (set_estadisticas e s).
Proof. split; simpl; try done. eauto. Qed.

Lemma marco_set_clientes_atendidos l s : marco s (set_clientes_atendidos l s).
Proof. split; simpl; try done. eauto. Qed.

Lemma marco_set_clientes_abandonaron l s :
  marco s (set_clientes_abandonaron l s).
Proof. split; simpl; try done. eauto. Qed.

Lemma marco_set_pos_numpy s : marco s (set_pos_numpy (N.succ (pos_numpy s)) s).
Proof. split; simpl; try done; [lia|eauto]. Qed.

Create HintDb marco discriminated.
#[local] Hint Resolve marco_refl marco_set_boxes marco_set_cola
  marco_set_estadisticas marco_set_clientes_atendidos
  marco_set_clientes_abandonaron marco_set_pos_numpy : marco.

Section Marco.

Variable N : N → Z → Z → Q.

Lemma marco_asignar_box s i s' : asignar_box N s i = Ok s' → marco s s'.
Proof.
  unfold asignar_box. intros (box & Hbox%of_option_Ok & H)%bind_Ok.
  destruct (Box.ocupado box); [injection H as <-; auto with marco|].
  destruct (cola s) as [|cliente resto]; [injection H as <-; auto with marco|].
  simpl in H. apply bind_Ok in H as (s1 & H1 & H2).
  apply marco_modificar in H1; [|escritura_ok].
  apply marco_modificar in H2; [|escritura_ok].
  eapply marco_trans; [|exact H2]. eapply marco_trans; [|exact H1].
  eapply marco_trans; [apply marco_set_cola|].
  eapply marco_trans; [apply marco_set_pos_numpy|].
  apply marco_set_boxes. simpl. by rewrite length_insert.
Qed.

Lemma marco_asignar_clientes_a_boxes s s' :
  asignar_clientes_a_boxes N s = Ok s' → marco s s'.
Proof.
  apply for_each_rel;
    [apply marco_refl | apply marco_trans | apply marco_asignar_box].
Qed.

Lemma marco_finalizar_box s i s' : finalizar_box s i = Ok s' → marco s s'.
Proof.
  unfold finalizar_box. intros (box & Hbox%of_option_Ok & H)%bind_Ok.
  destruct (Box.ocupado box); [|injection H as <-; auto with marco].
  apply bind_Ok in H as (fin & _ & H).
  case_decide; [|injection H as <-; auto with marco].
  apply bind_Ok in H as (cliente & _ & H).
  apply bind_Ok in H as (s1 & H1 & H).
  apply bind_Ok in H as (c & _ & H). injection H as <-.
  apply marco_modificar in H1; [|escritura_ok].
  eapply marco_trans; [exact H1|].
  eapply marco_trans; [apply marco_set_clientes_atendidos|].
  eapply marco_trans; [apply marco_set_estadisticas|].
  eapply marco_trans; [apply marco_set_estadisticas|].
  eapply marco_trans; [apply marco_set_estadisticas|].
  apply marco_set_boxes. simpl. by rewrite length_insert.
Qed.

Lemma marco_procesar_finalizacion_atencion s s' :
  procesar_finalizacion_atencion s = Ok s' → marco s s'.
Proof.
  apply for_each_rel;
    [apply marco_refl | apply marco_trans | apply marco_finalizar_box].
Qed.

Lemma marco_marcar_abandono st cliente st' :
  marcar_abandono st cliente = Ok st' → marco st.1 st'.1.
Proof.
  destruct st as [s rem]. unfold marcar_abandono.
  intros (c & _ & H)%bind_Ok.
  case_decide; [|injection H as <-; auto with marco].
  apply bind_Ok in H as (s1 & H1 & H). apply bind_Ok in H as (s2 & H2 & H).
  injection H as <-. simpl.
  apply marco_modificar in H1; [|escritura_ok].
  apply marco_modificar in H2; [|escritura_ok].
  eapply marco_trans; [exact H1|]. eapply marco_trans; [exact H2|].
  eapply marco_trans; [apply marco_set_clientes_abandonaron|].
  apply marco_set_estadisticas.
Qed.

Lemma marco_remover_de_cola s cliente s' :
  remover_de_cola s cliente = Ok s' → marco s s'.
Proof.
  unfold remover_de_cola. intros (q & _ & [= <-])%bind_Ok. auto with marco.
Qed.

Lemma marco_procesar_abandonos s s' : procesar_abandonos s = Ok s' → marco s s'.
Proof.
  unfold procesar_abandonos. intros ([s1 rem] & H1 & H2)%bind_Ok.
  eapply marco_trans.
  - eapply (for_each_rel (λ st st', marco st.1 st'.1)) in H1; [exact H1|..].
    + intros; apply marco_refl.
    + intros ???; apply marco_trans.
    + apply marco_marcar_abandono.
  - eapply for_each_rel in H2; [exact H2|..].
    + apply marco_refl.
    + apply marco_trans.
    + apply marco_remover_de_cola.
Qed.

End Marco.

(** ** Customers held by the boxes *)

Lemma en_boxes_nuevo (l : list Z) : en_boxes (Box.nuevo <$> l) = [].
Proof. induction l as [|z l IH]; [done|]. simpl. exact IH. Qed.

Lemma en_boxes_split bs i b :
  bs !! i = Some b →
  en_boxes bs
  = en_boxes (take i bs) ++ option_list (Box.cliente_actual b)
      ++ en_boxes (drop (S i) bs).
Proof.
  intros Hb. rewrite <-(take_drop_middle bs i b Hb) at 1.
  unfold en_boxes. rewrite omap_app. simpl.
  by destruct (Box.cliente_actual b).
Qed.

Lemma en_boxes_insert bs i b b' :
  bs !! i = Some b →
  en_boxes (<[i := b']> bs)
  = en_boxes (take i bs) ++ option_list (Box.cliente_actual b')
      ++ en_boxes (drop (S i) bs).
Proof.
  intros Hb. rewrite insert_take_drop by (by eapply lookup_lt_Some).
  unfold en_boxes. rewrite omap_app. simpl.
  by destruct (Box.cliente_actual b').
Qed.

Lemma en_boxes_ocupar bs i b b' r :
  bs !! i = Some b →
  Box.cliente_actual b = None →
  Box.cliente_actual b' = Some r →
  en_boxes (<[i := b']> bs) ≡ₚ r :: en_boxes bs.
Proof.
  intros Hb Hnone Hsome.
  rewrite (en_boxes_insert _ _ _ _ Hb), (en_boxes_split _ _ _ Hb), Hnone, Hsome.
  simpl. by rewrite Permutation_middle.
Qed.

Lemma en_boxes_liberar bs i b b' r :
  bs !! i = Some b →
  Box.cliente_actual b = Some r →
  Box.cliente_actual b' = None →
  en_boxes bs ≡ₚ r :: en_boxes (<[i := b']> bs).
Proof.
  intros Hb Hsome Hnone.
  rewrite (en_boxes_insert _ _ _ _ Hb), (en_boxes_split _ _ _ Hb), Hnone, Hsome.
  simpl. by rewrite Permutation_middle.
Qed.

Lemma elem_of_en_boxes bs i b r :
  bs !! i = Some b → Box.cliente_actual b = Some r → r ∈ en_boxes bs.
Proof.
  intros Hb Hr. apply list_elem_of_omap. exists b. split; [|done].
  by eapply list_elem_of_lookup_2.
Qed.

Lemma length_en_boxes objs bs :
  (∀ i b, bs !! i = Some b → box_ok objs b) →
  length (en_boxes bs) = length (filter (λ b, Box.ocupado b = true) bs).
Proof.
  induction bs as [|b bs IH]; intros Hok; [done|].
  assert (box_ok objs b) as Hb by (apply (Hok 0%nat); done).
  assert (length (en_boxes bs) = length (filter (λ b, Box.ocupado b = true) bs))
    as IH' by (apply IH; intros i b' ?; by apply (Hok (S i))).
  rewrite filter_cons. unfold box_ok in Hb. simpl.
  destruct (Box.ocupado b) eqn:Hoc.
  - destruct Hb as (r & fin & c & -> & _). rewrite decide_True by done.
    simpl. by rewrite IH'.
  - destruct Hb as [-> _]. rewrite decide_False by done. exact IH'.
Qed.

(** ** Consequences of the invariant *)

Lemma Inv_NoDup s :
  Inv s →
  NoDup (cola s ++ en_boxes (boxes s) ++ clientes_atendidos s
           ++ clientes_abandonaron s).
Proof. intros HI. rewrite (inv_particion s HI). apply NoDup_seq. Qed.

Lemma Inv_valido s r :
  Inv s →
  r ∈ cola s ++ en_boxes (boxes s) ++ clientes_atendidos s
        ++ clientes_abandonaron s →
  (r < length (objetos s))%nat.
Proof.
  intros HI Hr. rewrite (inv_particion s HI) in Hr.
  apply elem_of_seq in Hr. lia.
Qed.

Lemma Inv_init n v s : __init__ n v = Ok s → Inv s.
Proof.
  unfold __init__. case_decide; [|done]. intros [= <-].
  split; simpl; try done.
  - by rewrite en_boxes_nuevo.
  - intros r Hr. by apply elem_of_nil in Hr.
  - intros i b Hb. apply list_lookup_fmap_Some in Hb as (z & -> & _).
    by split.
  - intros r Hr. by apply elem_of_nil in Hr.
  - intros r Hr. by apply elem_of_nil in Hr.
Qed.

(** ** The invariant is preserved by arrivals *)

Lemma box_ok_app objs extra b : box_ok objs b → box_ok (objs ++ extra) b.
Proof.
  unfold box_ok. destruct (Box.ocupado b); [|done].
  intros (r & fin & c & ? & ? & Hc & ?). exists r, fin, c.
  repeat split; try done. by apply lookup_app_l_Some.
Qed.

Lemma Inv_procesar_llegadas U s : Inv s → Inv (procesar_llegadas U s).
Proof.
  intros HI. unfold procesar_llegadas.
  case_decide as Ht; [|done].
  destruct (Qlt_le_dec _ _) as [Hu|Hu]; simpl.
  2:{ destruct HI. by split. }
  pose proof (Inv_valido s) as Hval.
  destruct HI as [Hids Hcont Hing Hpart Hcola Hboxes Hat Hab He1 He2 He3].
  split; simpl.
  - intros r c Hc. apply lookup_app_Some in Hc as [Hc|[Hlen Hc]]; [eauto|].
    apply list_lookup_singleton_Some in Hc as [Hr <-]. simpl. lia.
  - rewrite length_app. simpl. lia.
  - rewrite length_app, seq_app. simpl. by rewrite Hing.
  - rewrite length_app, seq_app. simpl. rewrite <-Hpart.
    rewrite <-(assoc_L (++) (cola s)). simpl.
    by rewrite <-Permutation_middle, Permutation_cons_append.
  - intros r [Hr|Hr%list_elem_of_singleton]%elem_of_app.
    + destruct (Hcola r Hr) as (c & Hc & ?). exists c.
      split; [by apply lookup_app_l_Some|done].
    + subst r. eexists. split.
      * rewrite lookup_app_r by done. by rewrite Nat.sub_diag.
      * by repeat split.
  - intros i b Hb. apply box_ok_app. eauto.
  - intros r Hr. destruct (Hat r Hr) as (c & Hc & ?).
    exists c. split; [by apply lookup_app_l_Some|done].
  - intros r Hr. destruct (Hab r Hr) as (c & Hc & ?).
    exists c. split; [by apply lookup_app_l_Some|done].
  - rewrite length_app. simpl. lia.
  - done.
  - done.
Qed.

(** ** The invariant is preserved by assignment *)

Lemma modificar_Some r f s c :
  objetos s !! r = Some c →
  modificar r f s = Ok (set_objetos (<[r := f c]> (objetos s)) s).
Proof. intros Hc. unfold modificar, leer. by rewrite Hc. Qed.

(** Writing through [r] does not disturb what the records behind other
    references satisfy. *)
Lemma lookup_otro (objs : list Cliente.t) r r' c' :
  r' ≠ r → (<[r := c']> objs) !! r' = objs !! r'.
Proof. intros Hne. by apply list_lookup_insert_ne. Qed.

Lemma box_ok_otro objs r c' b :
  (∀ r', Box.cliente_actual b = Some r' → r' ≠ r) →
  box_ok objs b → box_ok (<[r := c']> objs) b.
Proof.
  unfold box_ok. intros Hne. destruct (Box.ocupado b); [|done].
  intros (r' & fin & c & Hr' & ? & Hc & ?). exists r', fin, c.
  repeat split; try done. rewrite lookup_otro; [done|]. by apply Hne.
Qed.

Lemma Inv_asignar_box N s i :
  Inv s → (i < length (boxes s))%nat →
  ∃ s', asignar_box N s i = Ok s' ∧ Inv s'.
Proof.
  intros HI Hi. destruct (lookup_lt_is_Some_2 _ _ Hi) as [b Hb].
  unfold asignar_box. rewrite Hb. simpl.
  destruct (Box.ocupado b) eqn:Hoc; [eauto|].
  destruct (cola s) as [|r resto] eqn:Hq; [eauto|].
  pose proof (Inv_NoDup s HI) as Hnd.
  pose proof (Inv_valido s) as Hval.
  destruct HI as [Hids Hcont Hing Hpart Hcola Hboxes Hat Hab He1 He2 He3].
  rewrite Hq in *.
  destruct (Hcola r) as (c & Hc & Hini & Habn & Hing_c); [left|].
  assert (r < length (objetos s))%nat as Hr by (by eapply lookup_lt_Some).
  pose proof (Hboxes i b Hb) as Hbok. unfold box_ok in Hbok.
  rewrite Hoc in Hbok. destruct Hbok as [Hbcli Hbfin].
  simpl. erewrite modificar_Some by (simpl; exact Hc). simpl.
  erewrite modificar_Some by (simpl; by apply list_lookup_insert_eq).
  simpl. rewrite list_insert_insert_eq.
  eexists. split; [done|].
  apply NoDup_cons in Hnd as [Hr_notin Hnd]. simpl in Hr_notin.
  rewrite !elem_of_app in Hr_notin.
  split; simpl.
  - intros r' c' Hc'. destruct (decide (r' = r)) as [->|Hne].
    + rewrite list_lookup_insert_eq in Hc' by done. injection Hc' as <-.
      simpl. eauto.
    + rewrite lookup_otro in Hc' by done. eauto.
  - by rewrite length_insert.
  - by rewrite length_insert.
  - rewrite length_insert, <-Hpart.
    rewrite (en_boxes_ocupar _ _ _ _ r Hb Hbcli) by done.
    simpl. by rewrite <-Permutation_middle.
  - intros r' Hr'. destruct (Hcola r') as (c' & Hc' & ?); [by right|].
    exists c'. split; [|done]. rewrite lookup_otro; [done|].
    intros ->. apply Hr_notin. by left.
  - intros j b' Hb'. destruct (decide (i = j)) as [<-|Hne].
    + rewrite list_lookup_insert_eq in Hb' by done. injection Hb' as <-.
      unfold box_ok. simpl. eexists r, _, _. repeat split.
      { by apply list_lookup_insert_eq. }
      exists (tiempo_actual s). simpl. repeat split; [|done].
      unfold py_max. case_decide; lia.
    + rewrite list_lookup_insert_ne in Hb' by done.
      apply box_ok_otro; [|eauto].
      intros r' Hr' ->. apply Hr_notin. right. left.
      by eapply elem_of_en_boxes.
  - intros r' Hr'. destruct (Hat r' Hr') as (c' & Hc' & ?).
    exists c'. split; [|done]. rewrite lookup_otro; [done|].
    intros ->. apply Hr_notin. right. right. by left.
  - intros r' Hr'. destruct (Hab r' Hr') as (c' & Hc' & ?).
    exists c'. split; [|done]. rewrite lookup_otro; [done|].
    intros ->. apply Hr_notin. right. right. by right.
  - done.
  - done.
  - done.
Qed.

(** ** The invariant is preserved by completion *)

Lemma registrar_ingresados te ta e :
  Est.clientes_ingresados (registrar_espera te (registrar_atencion ta e))
  = Est.clientes_ingresados e.
Proof.
  unfold registrar_espera, registrar_atencion.
  destruct te, ta; try case_decide; done.
Qed.

Lemma registrar_atendidos te ta e :
  Est.clientes_atendidos (registrar_espera te (registrar_atencion ta e))
  = Est.clientes_atendidos e.
Proof.
  unfold registrar_espera, registrar_atencion.
  destruct te, ta; try case_decide; done.
Qed.

Lemma registrar_abandonaron te ta e :
  Est.clientes_abandonaron (registrar_espera te (registrar_atencion ta e))
  = Est.clientes_abandonaron e.
Proof.
  unfold registrar_espera, registrar_atencion.
  destruct te, ta; try case_decide; done.
Qed.

(** Two boxes never hold the same customer. *)
Lemma en_boxes_NoDup_distintos bs i j b b' r :
  NoDup (en_boxes bs) →
  bs !! i = Some b → bs !! j = Some b' → i ≠ j →
  Box.cliente_actual b = Some r → Box.cliente_actual b' ≠ Some r.
Proof.
  intros Hnd Hb Hb' Hne Hr Hr'.
  rewrite (en_boxes_liberar bs i b (Box.mk (Box.id b) false None None) r)
    in Hnd by done.
  apply NoDup_cons in Hnd as [Hnotin _]. apply Hnotin.
  eapply (elem_of_en_boxes _ j b'); [|done].
  by rewrite list_lookup_insert_ne.
Qed.

Lemma Inv_finalizar_box s i :
  Inv s → (i < length (boxes s))%nat →
  ∃ s', finalizar_box s i = Ok s' ∧ Inv s'.
Proof.
  intros HI Hi. destruct (lookup_lt_is_Some_2 _ _ Hi) as [b Hb].
  unfold finalizar_box. rewrite Hb. simpl.
  destruct (Box.ocupado b) eqn:Hoc; [|eauto].
  pose proof (Inv_NoDup s HI) as Hnd. pose proof HI as HI0.
  destruct HI as [Hids Hcont Hing Hpart Hcola Hboxes Hat Hab He1 He2 He3].
  pose proof (Hboxes i b Hb) as Hbok. unfold box_ok in Hbok.
  rewrite Hoc in Hbok.
  destruct Hbok as (r & fin & c & Hbcli & Hbfin & Hc & ti & Hini & Hdur & Habn).
  rewrite Hbfin. simpl. case_decide as Hfin; [|by eauto].
  rewrite Hbcli. simpl.
  assert (r < length (objetos s))%nat as Hr by (by eapply lookup_lt_Some).
  erewrite modificar_Some by exact Hc. simpl.
  unfold leer. simpl. rewrite list_lookup_insert_eq by done. simpl.
  eexists. split; [done|].
  apply NoDup_app in Hnd as (_ & Hcola_otros & Hnd).
  apply NoDup_app in Hnd as (Hnd_boxes & Hboxes_otros & _).
  assert (r ∈ en_boxes (boxes s)) as Hr_box by (by eapply elem_of_en_boxes).
  split; simpl.
  - intros r' c' Hc'. destruct (decide (r' = r)) as [->|Hne].
    + rewrite list_lookup_insert_eq in Hc' by done. injection Hc' as <-.
      simpl. eauto.
    + rewrite lookup_otro in Hc' by done. eauto.
  - by rewrite length_insert.
  - by rewrite length_insert.
  - rewrite length_insert, <-Hpart.
    rewrite (en_boxes_liberar (boxes s) i b
               (Box.mk (Box.id b) false None None) r) by done.
    rewrite <-(assoc_L (++) _ [r]). simpl.
    by rewrite <-!Permutation_middle.
  - intros r' Hr'. destruct (Hcola r' Hr') as (c' & Hc' & ?).
    exists c'. split; [|done]. rewrite lookup_otro; [done|].
    intros ->. apply (Hcola_otros r Hr'). rewrite elem_of_app. by left.
  - intros j b' Hb'. destruct (decide (i = j)) as [<-|Hne].
    + rewrite list_lookup_insert_eq in Hb' by done. injection Hb' as <-.
      by split.
    + rewrite list_lookup_insert_ne in Hb' by done.
      apply box_ok_otro; [|eauto].
      intros r' Hr' ->.
      by eapply (en_boxes_NoDup_distintos (boxes s) i j b b' r).
  - intros r' [Hr'|Hr'%list_elem_of_singleton]%elem_of_app.
    + destruct (Hat r' Hr') as (c' & Hc' & ?).
      exists c'. split; [|done]. rewrite lookup_otro; [done|].
      intros ->. apply (Hboxes_otros r Hr_box). rewrite elem_of_app. by left.
    + subst r'. eexists. split; [by apply list_lookup_insert_eq|].
      exists ti, (tiempo_actual s). simpl. repeat split; [done|lia|done].
  - intros r' Hr'. destruct (Hab r' Hr') as (c' & Hc' & ?).
    exists c'. split; [|done]. rewrite lookup_otro; [done|].
    intros ->. apply (Hboxes_otros r Hr_box). rewrite elem_of_app. by right.
  - by rewrite registrar_ingresados.
  - rewrite registrar_atendidos. simpl. rewrite length_app. simpl. lia.
  - by rewrite registrar_abandonaron.
Qed.

Lemma Inv_asignar_clientes_a_boxes N s :
  Inv s → ∃ s', asignar_clientes_a_boxes N s = Ok s' ∧ Inv s'.
Proof.
  intros HI. unfold asignar_clientes_a_boxes.
  destruct (for_each_seq_inv
              (λ _ s', Inv s' ∧ length (boxes s') = length (boxes s))
              (asignar_box N) (length (boxes s)) 0 s)
    as (s' & Hrun & HI' & _); [done| |by eauto].
  intros k s1 Hk [HI1 Hlen].
  destruct (Inv_asignar_box N s1 k HI1) as (s2 & Hs2 & HI2); [lia|].
  exists s2. split; [done|]. split; [done|].
  apply marco_asignar_box in Hs2. rewrite (marco_boxes _ _ Hs2). done.
Qed.

Lemma Inv_procesar_finalizacion_atencion s :
  Inv s → ∃ s', procesar_finalizacion_atencion s = Ok s' ∧ Inv s'.
Proof.
  intros HI. unfold procesar_finalizacion_atencion.
  destruct (for_each_seq_inv
              (λ _ s', Inv s' ∧ length (boxes s') = length (boxes s))
              finalizar_box (length (boxes s)) 0 s)
    as (s' & Hrun & HI' & _); [done| |by eauto].
  intros k s1 Hk [HI1 Hlen].
  destruct (Inv_finalizar_box s1 k HI1) as (s2 & Hs2 & HI2); [lia|].
  exists s2. split; [done|]. split; [done|].
  apply marco_finalizar_box in Hs2. rewrite (marco_boxes _ _ Hs2). done.
Qed.

(** ** Abandonment: the marking loop *)

Lemma marcado_nil s : marcado [] s s.
Proof.
  split; simpl; try done.
  - apply marco_refl.
  - by rewrite app_nil_r.
  - lia.
Qed.

Lemma marcado_vencido l s s' r : marcado l s s' → vencido s' r ↔ vencido s r.
Proof.
  intros Hm. unfold vencido. rewrite (mc_objetos _ _ _ Hm).
  pose proof (marco_config _ _ (mc_marco _ _ _ Hm)) as Hcfg.
  pose proof (marco_tiempo _ _ (mc_marco _ _ _ Hm)) as Ht.
  unfold config in Hcfg. injection Hcfg as _ _ _ Hmax _ _ _ _.
  rewrite Hmax, Ht.
  destruct (objetos s !! r) as [c|]; case_decide; simpl; done.
Qed.

Lemma marcado_trans l1 l2 s1 s2 s3 :
  marcado l1 s1 s2 → marcado l2 s2 s3 → marcado (l1 ++ l2) s1 s3.
Proof.
  intros H12 H23.
  assert (filter (vencido s2) l2 = filter (vencido s1) l2) as Hfil.
  { apply list_filter_iff. intros r. by eapply marcado_vencido. }
  pose proof (marco_tiempo _ _ (mc_marco _ _ _ H12)) as Ht.
  destruct H12 as [Hm1 Hq1 Hb1 Hat1 Hab1 Ho1 Hei1 Hea1 Heb1].
  destruct H23 as [Hm2 Hq2 Hb2 Hat2 Hab2 Ho2 Hei2 Hea2 Heb2].
  rewrite Hfil in *.
  split; rewrite ?filter_app; try congruence.
  - by eapply marco_trans.
  - rewrite Hab2, Hab1. by rewrite (assoc_L (++)).
  - intros r. rewrite Ho2, Ho1, Ht.
    destruct (decide (r ∈ filter (vencido s1) l1)) as [H1|H1],
      (decide (r ∈ filter (vencido s1) l2)) as [H2|H2].
    1-3: rewrite decide_True by (rewrite elem_of_app; tauto).
    4: rewrite decide_False by (rewrite elem_of_app; tauto).
    all: by destruct (objetos s1 !! r).
  - rewrite Heb2, Heb1, length_app. lia.
Qed.

Lemma marcado_uno s rem x c :
  objetos s !! x = Some c →
  ∃ s', marcar_abandono (s, rem) x = Ok (s', rem ++ filter (vencido s) [x])
        ∧ marcado [x] s s'.
Proof.
  intros Hc. unfold marcar_abandono, leer. rewrite Hc. simpl.
  assert (x < length (objetos s))%nat as Hx by (by eapply lookup_lt_Some).
  destruct (decide (vencido s x)) as [Hv|Hv].
  - assert (filter (vencido s) [x] = [x]) as Hfil.
    { by rewrite filter_cons, decide_True, filter_nil. }
    unfold vencido in Hv. rewrite Hc in Hv.
    rewrite decide_True by done.
    erewrite modificar_Some by exact Hc. simpl.
    erewrite modificar_Some by (simpl; by apply list_lookup_insert_eq).
    simpl. rewrite list_insert_insert_eq.
    eexists. split; [by rewrite Hfil|].
    split; rewrite ?Hfil; simpl; try done.
    + split; simpl; try done.
      * by rewrite length_insert.
      * intros r c' Hc'. destruct (decide (r = x)) as [->|Hne].
        -- rewrite list_lookup_insert_eq by done. eexists. split; [done|].
           replace c' with c by congruence. done.
        -- rewrite lookup_otro by done. eauto.
    + intros r. destruct (decide (r = x)) as [->|Hne].
      * rewrite list_lookup_insert_eq by done.
        rewrite decide_True by (by apply list_elem_of_singleton).
        by rewrite Hc.
      * rewrite lookup_otro by done.
        rewrite decide_False; [done|]. by intros ?%list_elem_of_singleton.
  - assert (filter (vencido s) [x] = []) as Hfil.
    { by rewrite filter_cons, decide_False, filter_nil. }
    unfold vencido in Hv. rewrite Hc in Hv.
    rewrite decide_False by done. rewrite Hfil, app_nil_r.
    exists s. split; [done|].
    pose proof (marcado_nil s) as Hnil.
    destruct Hnil as [Hm1 Hq1 Hb1 Hat1 Hab1 Ho1 Hei1 Hea1 Heb1].
    split; rewrite ?Hfil; done.
Qed.

Lemma marcado_loop l s rem :
  (∀ r, r ∈ l → is_Some (objetos s !! r)) →
  ∃ s', for_each marcar_abandono (s, rem) l
        = Ok (s', rem ++ filter (vencido s) l)
        ∧ marcado l s s'.
Proof.
  revert s rem. induction l as [|x l IH]; intros s rem Hval.
  - exists s. simpl. rewrite app_nil_r. split; [done|]. apply marcado_nil.
  - destruct (Hval x) as [c Hc]; [by left|].
    destruct (marcado_uno s rem x c Hc) as (s1 & Hrun1 & Hm1).
    destruct (IH s1 (rem ++ filter (vencido s) [x])) as (s' & Hrun & Hm).
    { intros r Hr. destruct (Hval r) as [c' Hc']; [by right|].
      destruct (marco_ingreso _ _ (mc_marco _ _ _ Hm1) r c' Hc') as (? & -> & _).
      done. }
    exists s'. cbn [for_each]. rewrite Hrun1. cbn [mbind result_bind].
    rewrite Hrun.
    assert (filter (vencido s1) l = filter (vencido s) l) as ->.
    { apply list_filter_iff. intros r. by eapply marcado_vencido. }
    split.
    + rewrite <-(assoc_L (++)). by rewrite <-filter_app.
    + by apply (marcado_trans [x] l s s1 s').
Qed.

(** ** Abandonment: the removal loop *)

Lemma cliente_eq_refl objs x : cliente_eq objs x x = true.
Proof. unfold cliente_eq. by rewrite bool_decide_eq_true_2. Qed.

Lemma filter_todos {A} (P : A → Prop) `{!∀ x, Decision (P x)} (l : list A) :
  (∀ x, x ∈ l → P x) → filter P l = l.
Proof.
  induction l as [|x l IH]; intros Hall; [done|].
  rewrite filter_cons_True by (apply Hall; by left).
  f_equal. apply IH. intros y Hy. apply Hall. by right.
Qed.

Lemma set_cola_id s : set_cola (cola s) s = s.
Proof. by destruct s. Qed.

Lemma deque_remove_filter objs x q :
  NoDup q → x ∈ q →
  (∀ y, y ∈ q → cliente_eq objs y x = true → y = x) →
  deque_remove objs x q = Ok (filter (λ y, y ≠ x) q).
Proof.
  induction q as [|y q IH]; intros Hnd Hx Heq.
  - by apply elem_of_nil in Hx.
  - apply NoDup_cons in Hnd as [Hy Hnd]. simpl.
    destruct (cliente_eq objs y x) eqn:Hyx.
    + assert (y = x) as -> by (apply Heq; [by left|done]).
      rewrite filter_cons_False by (by intros ?).
      rewrite filter_todos; [done|]. by intros z Hz ->.
    + assert (y ≠ x) as Hne.
      { intros ->. by rewrite cliente_eq_refl in Hyx. }
      apply elem_of_cons in Hx as [->|Hx]; [done|].
      rewrite IH; [|done..|].
      * simpl. by rewrite filter_cons_True.
      * intros z Hz. apply Heq. by right.
Qed.

Lemma remover_loop rem s :
  NoDup (cola s) → NoDup rem →
  (∀ r, r ∈ rem → r ∈ cola s) →
  (∀ y z, y ∈ cola s → cliente_eq (objetos s) y z = true → y = z) →
  for_each remover_de_cola s rem
  = Ok (set_cola (filter (λ y, y ∉ rem) (cola s)) s).
Proof.
  revert s. induction rem as [|x rem IH]; intros s Hq Hrem Hsub Heq.
  - simpl. rewrite filter_todos; [by rewrite set_cola_id|].
    intros y _. apply not_elem_of_nil.
  - apply NoDup_cons in Hrem as [Hx Hrem].
    assert (remover_de_cola s x
            = Ok (set_cola (filter (λ y, y ≠ x) (cola s)) s)) as Hpaso.
    { unfold remover_de_cola.
      rewrite deque_remove_filter; [done|done|apply Hsub; by left|by eauto]. }
    cbn [for_each]. rewrite Hpaso. cbn [mbind result_bind].
    rewrite IH; simpl.
    + f_equal.
      change (set_cola ?q (set_cola _ s)) with (set_cola q s).
      f_equal. rewrite list_filter_filter.
      apply list_filter_iff. intros y. rewrite not_elem_of_cons. tauto.
    + by apply NoDup_filter.
    + done.
    + intros r Hr. apply list_elem_of_filter. split; [by intros ->|].
      apply Hsub. by right.
    + intros y z [_ Hy]%list_elem_of_filter. by apply Heq.
Qed.

(** ** The invariant is preserved by abandonment *)

Lemma filter_ext_in {A} (P Q : A → Prop)
    `{!∀ x, Decision (P x), !∀ x, Decision (Q x)} (l : list A) :
  (∀ x, x ∈ l → P x ↔ Q x) → filter P l = filter Q l.
Proof.
  induction l as [|x l IH]; intros Hiff; [done|].
  assert (filter P l = filter Q l) as IH'.
  { apply IH. intros y Hy. apply Hiff. by right. }
  destruct (decide (P x)) as [HP|HP].
  - rewrite !filter_cons_True; [by rewrite IH'|by apply Hiff; [left|]|done].
  - rewrite !filter_cons_False; [done| |done].
    intros HQ. apply HP. apply Hiff; [by left|done].
Qed.

Lemma procesar_abandonos_spec s :
  Inv s →
  ∃ s', procesar_abandonos s = Ok s'
        ∧ Inv s'
        ∧ cola s' = filter (λ r, ¬ vencido s r) (cola s)
        ∧ clientes_abandonaron s'
          = clientes_abandonaron s ++ filter (vencido s) (cola s)
        ∧ boxes s' = boxes s
        ∧ ∀ r, objetos s' !! r
               = if decide (r ∈ filter (vencido s) (cola s))
                 then marcar (tiempo_actual s) <$> objetos s !! r
                 else objetos s !! r.
Proof.
  intros HI. pose proof (Inv_NoDup s HI) as Hnd.
  destruct HI as [Hids Hcont Hing Hpart Hcola Hboxes Hat Hab He1 He2 He3].
  destruct (marcado_loop (cola s) s []) as (s1 & Hrun1 & Hm).
  { intros r Hr. destruct (Hcola r Hr) as (c & -> & _). done. }
  rewrite app_nil_l in Hrun1.
  pose proof Hm as [Hmarco Hq1 Hb1 Hat1 Hab1 Ho1 Hei1 Hea1 Heb1].
  pose proof Hmarco as [Hcfg Ht1 _ _ Hing1 Hcont1 Hlen1 _ _].
  unfold config in Hcfg. injection Hcfg as _ HD _ Hmax _ _ _ _.
  apply NoDup_app in Hnd as (Hnd_cola & Hcola_otros & Hnd).
  assert (∀ r c', objetos s1 !! r = Some c' → Cliente.id c' = Z.of_nat r)
    as Hids1.
  { intros r c'. rewrite Ho1. case_decide.
    - destruct (objetos s !! r) as [c|] eqn:Hc; [|done].
      intros [= <-]. simpl. eauto.
    - eauto. }
  unfold procesar_abandonos. rewrite Hrun1. cbn [mbind result_bind].
  rewrite remover_loop; rewrite ?Hq1.
  2: done.
  2: by apply NoDup_filter.
  2: by intros r [_ Hr]%list_elem_of_filter.
  2:{ intros y z Hy. unfold cliente_eq.
      intros [Heq%bool_decide_eq_true|Heq%bool_decide_eq_true]%orb_true_iff;
        [done|].
      destruct (Hcola y Hy) as (c & Hc & _).
      destruct (marco_ingreso _ _ Hmarco y c Hc) as (c1 & Hc1 & _).
      rewrite Hc1 in Heq. symmetry in Heq.
      apply Hids1 in Hc1. apply Hids1 in Heq. lia. }
  assert (filter (λ y, y ∉ filter (vencido s) (cola s)) (cola s)
          = filter (λ r, ¬ vencido s r) (cola s)) as Hfil.
  { apply filter_ext_in. intros y Hy. rewrite list_elem_of_filter. tauto. }
  rewrite Hfil.
  eexists. split; [done|]. simpl.
  split; [|by repeat split].
  assert (∀ r c, r ∉ filter (vencido s) (cola s) →
                 objetos s !! r = Some c → objetos s1 !! r = Some c) as Hmismo.
  { intros r c Hr Hc. rewrite Ho1. by rewrite decide_False. }
  assert (∀ r, r ∈ en_boxes (boxes s) ++ clientes_atendidos s
                    ++ clientes_abandonaron s →
               r ∉ filter (vencido s) (cola s)) as Hfuera.
  { intros r Hr [_ Hr']%list_elem_of_filter. by apply (Hcola_otros r). }
  split; simpl.
  - done.
  - by rewrite Hcont1, Hlen1.
  - by rewrite Hing1, Hlen1.
  - rewrite Hb1, Hat1, Hab1, Hlen1, <-Hpart.
    transitivity
      ((filter (vencido s) (cola s) ++ filter (λ r, ¬ vencido s r) (cola s))
         ++ en_boxes (boxes s) ++ clientes_atendidos s
         ++ clientes_abandonaron s);
      [|by rewrite filter_app_complement].
    rewrite !(assoc_L (++)).
    rewrite (comm (++) _ (filter (vencido s) (cola s))).
    by rewrite !(assoc_L (++)).
  - intros r [Hnv Hr]%list_elem_of_filter.
    destruct (Hcola r Hr) as (c & Hc & Hesp). exists c. rewrite HD.
    split; [|done]. apply Hmismo; [|done].
    by intros [? _]%list_elem_of_filter.
  - intros i b. rewrite Hb1. intros Hb. pose proof (Hboxes i b Hb) as Hok.
    unfold box_ok in *. destruct (Box.ocupado b); [|done].
    destruct Hok as (r & fin & c & Hr & Hfin & Hc & Hat_c).
    exists r, fin, c. repeat split; try done.
    apply Hmismo; [|done]. apply Hfuera. rewrite elem_of_app. left.
    by eapply elem_of_en_boxes.
  - rewrite Hat1. intros r Hr. destruct (Hat r Hr) as (c & Hc & ?).
    exists c. split; [|done]. apply Hmismo; [|done].
    apply Hfuera. rewrite !elem_of_app. right. by left.
  - rewrite Hab1, Hmax. intros r [Hr|Hr]%elem_of_app.
    + destruct (Hab r Hr) as (c & Hc & ?).
      exists c. split; [|done]. apply Hmismo; [|done].
      apply Hfuera. rewrite !elem_of_app. right. by right.
    + pose proof Hr as [Hv Hrq]%list_elem_of_filter.
      destruct (Hcola r Hrq) as (c & Hc & Hini & Habn & _).
      unfold vencido in Hv. rewrite Hc in Hv.
      exists (marcar (tiempo_actual s) c). split.
      * rewrite Ho1, decide_True by done. by rewrite Hc.
      * split; [done|]. split; [done|]. by exists (tiempo_actual s).
  - by rewrite Hei1, Hing1.
  - by rewrite Hea1, Hat1.
  - rewrite Heb1, Hab1, length_app. lia.
Qed.

(** ** Assignment and completion never touch the abandoned record *)

Lemma servicio_refl s : servicio s s.
Proof. by split. Qed.

Lemma servicio_trans s1 s2 s3 :
  servicio s1 s2 → servicio s2 s3 → servicio s1 s3.
Proof. intros [] []. split; [congruence|auto]. Qed.

Lemma servicio_modificar r f s s' : modificar r f s = Ok s' → servicio s s'.
Proof. intros (c & Hc & ->)%modificar_Ok. by split. Qed.

Lemma servicio_asignar_box N s i s' :
  asignar_box N s i = Ok s' → servicio s s'.
Proof.
  unfold asignar_box. intros (box & Hbox%of_option_Ok & H)%bind_Ok.
  destruct (Box.ocupado box); [injection H as <-; apply servicio_refl|].
  destruct (cola s) as [|cliente resto] eqn:Hq;
    [injection H as <-; apply servicio_refl|].
  simpl in H. apply bind_Ok in H as (s1 & H1 & H2).
  apply servicio_modificar in H1, H2.
  eapply servicio_trans; [|exact H2]. eapply servicio_trans; [|exact H1].
  split; simpl; [done|]. rewrite Hq. intros r Hr. by right.
Qed.

Lemma servicio_asignar_clientes_a_boxes N s s' :
  asignar_clientes_a_boxes N s = Ok s' → servicio s s'.
Proof.
  apply for_each_rel;
    [apply servicio_refl | apply servicio_trans | apply servicio_asignar_box].
Qed.

Lemma servicio_finalizar_box s i s' : finalizar_box s i = Ok s' → servicio s s'.
Proof.
  unfold finalizar_box. intros (box & Hbox%of_option_Ok & H)%bind_Ok.
  destruct (Box.ocupado box); [|injection H as <-; apply servicio_refl].
  apply bind_Ok in H as (fin & _ & H).
  case_decide; [|injection H as <-; apply servicio_refl].
  apply bind_Ok in H as (cliente & _ & H).
  apply bind_Ok in H as (s1 & H1 & H).
  apply bind_Ok in H as (c & _ & H). injection H as <-.
  apply servicio_modificar in H1. destruct H1. by split.
Qed.

Lemma servicio_procesar_finalizacion_atencion s s' :
  procesar_finalizacion_atencion s = Ok s' → servicio s s'.
Proof.
  apply for_each_rel;
    [apply servicio_refl | apply servicio_trans | apply servicio_finalizar_box].
Qed.

(** ** One tick *)

Lemma Inv_set_tiempo_actual t s : Inv s → Inv (set_tiempo_actual t s).
Proof. intros []. by split. Qed.

(** The four stages of a successful tick. *)
Lemma simular_paso_Ok U N s s' :
  simular_paso U N s = Ok s' ↔
  ∃ s2 s3 s4,
    asignar_clientes_a_boxes N (procesar_llegadas U s) = Ok s2
    ∧ procesar_finalizacion_atencion s2 = Ok s3
    ∧ procesar_abandonos s3 = Ok s4
    ∧ s' = set_tiempo_actual (tiempo_actual s4 + 1) s4.
Proof.
  unfold simular_paso. split.
  - intros (s2 & H2 & (s3 & H3 & (s4 & H4 & [= <-])%bind_Ok)%bind_Ok)%bind_Ok.
    by exists s2, s3, s4.
  - intros (s2 & s3 & s4 & H2 & H3 & H4 & ->).
    cbn zeta. rewrite H2. simpl. rewrite H3. simpl. rewrite H4. done.
Qed.

(** From a state that satisfies the invariant a tick never raises, and
    every stage re-establishes the invariant. *)
Lemma simular_paso_Inv U N s :
  Inv s →
  ∃ s2 s3 s4,
    asignar_clientes_a_boxes N (procesar_llegadas U s) = Ok s2
    ∧ procesar_finalizacion_atencion s2 = Ok s3
    ∧ procesar_abandonos s3 = Ok s4
    ∧ simular_paso U N s = Ok (set_tiempo_actual (tiempo_actual s4 + 1) s4)
    ∧ Inv (procesar_llegadas U s) ∧ Inv s2 ∧ Inv s3 ∧ Inv s4.
Proof.
  intros HI. pose proof (Inv_procesar_llegadas U s HI) as HI1.
  destruct (Inv_asignar_clientes_a_boxes N _ HI1) as (s2 & H2 & HI2).
  destruct (Inv_procesar_finalizacion_atencion _ HI2) as (s3 & H3 & HI3).
  destruct (procesar_abandonos_spec _ HI3) as (s4 & H4 & HI4 & _).
  exists s2, s3, s4. split_and!; try done.
  apply simular_paso_Ok. by exists s2, s3, s4.
Qed.

Lemma simular_paso_total U N s :
  Inv s → ∃ s', simular_paso U N s = Ok s' ∧ Inv s'.
Proof.
  intros HI.
  destruct (simular_paso_Inv U N s HI) as (s2 & s3 & s4 & _ & _ & _ & H & _ & _ & _ & HI4).
  eexists. split; [exact H|]. by apply Inv_set_tiempo_actual.
Qed.

Lemma alcanzable_Inv U N s : alcanzable U N s → Inv s.
Proof.
  induction 1 as [n v s Hinit|s s' _ IH Hpaso].
  - by eapply Inv_init.
  - destruct (simular_paso_total U N s IH) as (s'' & Hs'' & HI).
    congruence.
Qed.

(** ** Configuration of reachable states *)

Lemma config_procesar_llegadas U s : config (procesar_llegadas U s) = config s.
Proof.
  unfold procesar_llegadas. case_decide; [|done].
  by destruct (Qlt_le_dec _ _).
Qed.

Lemma config_simular_paso U N s s' :
  simular_paso U N s = Ok s' → config s' = config s.
Proof.
  intros (s2 & s3 & s4 & H2 & H3 & H4 & ->)%simular_paso_Ok.
  apply marco_asignar_clientes_a_boxes in H2.
  apply marco_procesar_finalizacion_atencion in H3.
  apply marco_procesar_abandonos in H4.
  change (config (set_tiempo_actual (tiempo_actual s4 + 1) s4))
    with (config s4).
  rewrite (marco_config _ _ H4), (marco_config _ _ H3), (marco_config _ _ H2).
  apply config_procesar_llegadas.
Qed.

Lemma config___init__ n v s : __init__ n v = Ok s → config s = config_inicial n.
Proof. unfold __init__. case_decide; [|done]. by intros [= <-]. Qed.

Lemma alcanzable_config U N s :
  alcanzable U N s → config s = config_inicial (num_boxes s).
Proof.
  induction 1 as [n v s Hinit|s s' _ IH Hpaso].
  - rewrite (config___init__ n v s Hinit).
    unfold __init__ in Hinit. case_decide; [|done]. by injection Hinit as <-.
  - pose proof (config_simular_paso U N s s' Hpaso) as Hcfg.
    rewrite Hcfg, IH. unfold config in Hcfg. by injection Hcfg as -> _ _ _ _ _ _ _.
Qed.

Lemma alcanzable_pasos U N n s s' :
  alcanzable U N s → pasos U N n s = Ok s' → alcanzable U N s'.
Proof.
  revert s. induction n as [|n IH]; intros s Hs Hrun; simpl in Hrun.
  - by injection Hrun as <-.
  - apply bind_Ok in Hrun as (s1 & H1 & Hrun).
    eapply IH; [|exact Hrun]. by eapply alcanzable_paso.
Qed.

(** ** Concrete runs *)

Example py_int_trunca : py_int (-7 # 2) = -3 ∧ py_int (7 # 2) = 3.
Proof. done. Qed.

Example generar_tiempo_atencion_negativo s :
  (generar_tiempo_atencion (atencion_fija (-250)) s).1 = 60.
Proof. done. Qed.

(** One box, one arrival at tick 0, service time 120: the customer is
    served from tick 0 to tick 120 and nobody abandons. *)
Example escenario_un_cliente :
  ∃ s0 s,
    __init__ 1 1 = Ok s0
    ∧ pasos (llegan 1) (atencion_fija 120) 121 s0 = Ok s
    ∧ objetos s
      = [Cliente.mk 0 0 (Some 0) (Some 120) (Some 0) false None]
    ∧ clientes_atendidos s = [0%nat]
    ∧ clientes_abandonaron s = []
    ∧ Est.clientes_atendidos (estadisticas s) = 1.
Proof.
  eexists _, _. split; [reflexivity|]. split; [vm_compute; reflexivity|].
  by split_and!.
Qed.

(** One box kept busy for 3000 seconds and three arrivals at ticks 0, 1
    and 2: the second and third customers abandon at ticks 1801 and
    1802. *)
Example escenario_abandono :
  ∃ s0 s,
    __init__ 1 1 = Ok s0
    ∧ pasos (llegan 3) (atencion_fija 3000) 1803 s0 = Ok s
    ∧ clientes_abandonaron s = [1%nat; 2%nat]
    ∧ Cliente.tiempo_abandono <$> objetos s
      = [None; Some 1801; Some 1802]
    ∧ cola s = [].
Proof.
  eexists _, _. split; [reflexivity|]. split; [vm_compute; reflexivity|].
  by split_and!.
Qed.

(** No arrival at all with three boxes: the run stops at the horizon
    with a total cost of 3000. *)
Example escenario_sin_llegadas :
  ∃ s0 s,
    __init__ 3 1 = Ok s0
    ∧ ejecutar_simulacion_rapida (llegan 0) (atencion_fija 600)
        (Z.to_nat 15000) s0 = Some (Ok s)
    ∧ tiempo_actual s = 14400
    ∧ Est.clientes_ingresados (estadisticas s) = 0
    ∧ Est.costo_total (estadisticas s) = 3000.
Proof.
  eexists _, _. split; [reflexivity|]. split; [vm_compute; reflexivity|].
  by split_and!.
Qed.

(** * The claims *)

(** ** C1: conservation of customers *)

(** C1. In every reachable state the queue length plus the number of
    occupied boxes plus the served customers plus the abandoned customers
    equals the arrived customers, both on the records the engine keeps and
    on the counters of [estadisticas]. *)
Theorem conservacion_de_clientes U N s :
  alcanzable U N s →
  (length (cola s) + boxes_ocupados s + length (clientes_atendidos s)
   + length (clientes_abandonaron s))%nat
  = length (clientes_ingresados s)
  ∧ Z.of_nat (length (cola s)) + Z.of_nat (boxes_ocupados s)
    + Est.clientes_atendidos (estadisticas s)
    + Est.clientes_abandonaron (estadisticas s)
    = Est.clientes_ingresados (estadisticas s).
Proof.
  intros HI%alcanzable_Inv.
  assert ((length (cola s) + boxes_ocupados s + length (clientes_atendidos s)
           + length (clientes_abandonaron s))%nat
          = length (clientes_ingresados s)) as Hcuenta.
  { pose proof (inv_particion s HI) as Hperm.
    apply Permutation_length in Hperm.
    rewrite !length_app, length_seq in Hperm.
    rewrite (inv_ingresados s HI), length_seq.
    unfold boxes_ocupados.
    rewrite <-(length_en_boxes (objetos s)) by apply (inv_boxes s HI).
    lia. }
  split; [done|].
  rewrite (inv_est_atendidos s HI), (inv_est_abandonaron s HI),
    (inv_est_ingresados s HI).
  lia.
Qed.

Lemma conservacion_de_clientes_witness :
  ∃ s0 s,
    __init__ 1 1 = Ok s0
    ∧ pasos (llegan 3) (atencion_fija 60) 70 s0 = Ok s
    ∧ (length (cola s) + boxes_ocupados s + length (clientes_atendidos s)
       + length (clientes_abandonaron s))%nat
      = length (clientes_ingresados s)
    ∧ Z.of_nat (length (cola s)) + Z.of_nat (boxes_ocupados s)
      + Est.clientes_atendidos (estadisticas s)
      + Est.clientes_abandonaron (estadisticas s)
      = Est.clientes_ingresados (estadisticas s).
Proof.
  eexists _, _. split; [reflexivity|]. split; [vm_compute; reflexivity|].
  apply (conservacion_de_clientes (llegan 3) (atencion_fija 60)).
  eapply (alcanzable_pasos (llegan 3) (atencion_fija 60) 70);
    [eapply (alcanzable_init _ _ 1 1); reflexivity|vm_compute; reflexivity].
Defined.

(** ** C3: the termination predicate *)

Lemma existsb_ocupado_false (bs : list Box.t) :
  existsb Box.ocupado bs = false ↔ ∀ b, b ∈ bs → Box.ocupado b = false.
Proof.
  induction bs as [|b bs IH]; simpl.
  - split; [|done]. intros _ b Hb. by apply elem_of_nil in Hb.
  - rewrite orb_false_iff, IH. split.
    + intros [Hb Hbs] b' [->|Hb']%elem_of_cons; auto.
    + intros Hall. split; [apply Hall; by left|].
      intros b' Hb'. apply Hall. by right.
Qed.

Lemma condicion_finalizacion_true s :
  condicion_finalizacion s = true ↔
  DURACION_SIMULACION s ≤ tiempo_actual s
  ∧ cola s = []
  ∧ ∀ b, b ∈ boxes s → Box.ocupado b = false.
Proof.
  unfold condicion_finalizacion. cbn zeta.
  rewrite !andb_true_iff, !bool_decide_eq_true, negb_true_iff.
  rewrite existsb_ocupado_false. tauto.
Qed.

(** C3. [condicion_finalizacion] answers true exactly when the clock has
    reached the horizon, the queue is empty and no box is occupied; it
    answers false as soon as the clock is short of the horizon, or the
    queue holds somebody, or some box is occupied. *)
Theorem condicion_finalizacion_correcta s :
  (condicion_finalizacion s = true ↔
   DURACION_SIMULACION s ≤ tiempo_actual s
   ∧ cola s = []
   ∧ ∀ b, b ∈ boxes s → Box.ocupado b = false)
  ∧ (condicion_finalizacion s = false ↔
     tiempo_actual s < DURACION_SIMULACION s
     ∨ cola s ≠ []
     ∨ ∃ b, b ∈ boxes s ∧ Box.ocupado b = true).
Proof.
  assert (condicion_finalizacion s = true ↔
          DURACION_SIMULACION s ≤ tiempo_actual s
          ∧ cola s = []
          ∧ ∀ b, b ∈ boxes s → Box.ocupado b = false) as Hsi.
  { apply condicion_finalizacion_true. }
  split; [exact Hsi|].
  rewrite <-not_true_iff_false, Hsi. split.
  - intros Hno.
    destruct (decide (tiempo_actual s < DURACION_SIMULACION s)); [by left|].
    destruct (decide (cola s = [])) as [Hq|Hq]; [|by right; left].
    right. right.
    destruct (existsb Box.ocupado (boxes s)) eqn:Hex.
    + apply existsb_exists in Hex as (b & Hb%list_elem_of_In & Hoc). eauto.
    + exfalso. apply Hno. split; [lia|]. split; [done|].
      by apply existsb_ocupado_false.
  - intros [Ht|[Hq|(b & Hb & Hoc)]] (Ht' & Hq' & Hall);
      [lia|done|]. rewrite (Hall b Hb) in Hoc. done.
Qed.

(** ** C4: minimum service time *)

(** C4. [generar_tiempo_atencion] returns at least 60 whatever the draw,
    and every customer of the served record of a reachable state has both
    stamps, with [tiempo_inicio_atencion <= tiempo_fin_atencion] and a
    service time of at least 60 seconds. *)
Theorem piso_minimo_de_atencion U N s :
  alcanzable U N s →
  (∀ s0, 60 ≤ (generar_tiempo_atencion N s0).1)
  ∧ ∀ r, r ∈ clientes_atendidos s →
      ∃ c ti tf,
        objetos s !! r = Some c
        ∧ Cliente.tiempo_inicio_atencion c = Some ti
        ∧ Cliente.tiempo_fin_atencion c = Some tf
        ∧ ti ≤ tf
        ∧ 60 ≤ tf - ti
        ∧ Cliente.tiempo_atencion c = Some (tf - ti).
Proof.
  intros HI%alcanzable_Inv. split.
  - intros s0. unfold generar_tiempo_atencion, py_max. simpl.
    case_decide; lia.
  - intros r Hr.
    destruct (inv_atendidos s HI r Hr) as (c & Hc & ti & tf & Hti & Htf & Hdur & _).
    exists c, ti, tf. unfold Cliente.tiempo_atencion. rewrite Hti, Htf.
    split_and!; try done; lia.
Qed.

Lemma piso_minimo_de_atencion_witness :
  ∃ s0 s,
    __init__ 1 1 = Ok s0
    ∧ pasos (llegan 3) (atencion_fija 45) 70 s0 = Ok s
    ∧ clientes_atendidos s = [0%nat]
    ∧ (∀ s0, 60 ≤ (generar_tiempo_atencion (atencion_fija 45) s0).1)
    ∧ ∀ r, r ∈ clientes_atendidos s →
        ∃ c ti tf,
          objetos s !! r = Some c
          ∧ Cliente.tiempo_inicio_atencion c = Some ti
          ∧ Cliente.tiempo_fin_atencion c = Some tf
          ∧ ti ≤ tf
          ∧ 60 ≤ tf - ti
          ∧ Cliente.tiempo_atencion c = Some (tf - ti).
Proof.
  eexists _, _. split; [reflexivity|]. split; [vm_compute; reflexivity|].
  split; [reflexivity|].
  apply (piso_minimo_de_atencion (llegan 3) (atencion_fija 45)).
  eapply (alcanzable_pasos (llegan 3) (atencion_fija 45) 70);
    [eapply (alcanzable_init _ _ 1 1); reflexivity|vm_compute; reflexivity].
Defined.

(** ** C6: the cost formula *)

(** C6. [calcular_costos] stores [num_boxes * COSTO_BOX] plus
    [len(clientes_abandonaron) * PERDIDA_CLIENTE]; in a reachable state
    the two prices are 1000 and 10000, so that a run without abandonment
    costs exactly [num_boxes * 1000]. *)
Theorem costo_total_final U N s :
  alcanzable U N s →
  Est.costo_total (estadisticas (calcular_costos s))
  = num_boxes s * COSTO_BOX s
    + Z.of_nat (length (clientes_abandonaron s)) * PERDIDA_CLIENTE s
  ∧ COSTO_BOX s = 1000
  ∧ PERDIDA_CLIENTE s = 10000
  ∧ (clientes_abandonaron s = [] →
     Est.costo_total (estadisticas (calcular_costos s)) = num_boxes s * 1000).
Proof.
  intros Hcfg%alcanzable_config. unfold config, config_inicial in Hcfg.
  injection Hcfg as _ _ _ _ _ Hcosto Hperdida.
  split; [done|]. split; [done|]. split; [done|].
  intros Hnadie. simpl. rewrite Hnadie, Hcosto. simpl. lia.
Qed.

Lemma costo_total_final_witness :
  ∃ s0 s,
    __init__ 3 1 = Ok s0
    ∧ pasos (llegan 2) (atencion_fija 60) 5 s0 = Ok s
    ∧ Est.costo_total (estadisticas (calcular_costos s)) = 3000.
Proof.
  eexists _, _. split; [reflexivity|]. split; [vm_compute; reflexivity|].
  eapply eq_trans;
    [apply (costo_total_final (llegan 2) (atencion_fija 60))|reflexivity].
  - eapply (alcanzable_pasos (llegan 2) (atencion_fija 60) 5);
      [eapply (alcanzable_init _ _ 3 1); reflexivity|vm_compute; reflexivity].
  - reflexivity.
Defined.

(** ** C8: validation at construction *)

(** C8, as stated, fails on the animation speed: speed 0 with 5 boxes is
    a non-positive rate, and the constructor returns an engine. *)
Lemma construccion_acepta_velocidad_nula :
  (0 <= 0)%Q ∧ ¬ falla_construccion 5 0.
Proof.
  split; [apply Qle_refl|]. intros [e He]. vm_compute in He. discriminate.
Qed.

(** C8, amended. Construction raises exactly when the number of boxes is
    outside [1, 10], whatever the animation speed, and otherwise returns
    an engine. *)
Theorem validacion_de_construccion n v :
  (falla_construccion n v ↔ n < 1 ∨ 10 < n)
  ∧ (__init__ n v = Raise ValueError ↔ n < 1 ∨ 10 < n)
  ∧ ((∃ s, __init__ n v = Ok s) ↔ 1 ≤ n ≤ 10).
Proof.
  unfold falla_construccion, __init__.
  case_decide as Hn; split_and!; split.
  - intros [e He]. discriminate.
  - lia.
  - discriminate.
  - lia.
  - done.
  - eauto.
  - lia.
  - eauto.
  - lia.
  - done.
  - intros [s' Hs']. discriminate.
  - done.
Qed.

(** ** Arrivals, case by case *)

Lemma procesar_llegadas_spec U s :
  tiempo_actual (procesar_llegadas U s) = tiempo_actual s
  ∧ clientes_abandonaron (procesar_llegadas U s) = clientes_abandonaron s
  ∧ clientes_atendidos (procesar_llegadas U s) = clientes_atendidos s
  ∧ boxes (procesar_llegadas U s) = boxes s
  ∧ pos_numpy (procesar_llegadas U s) = pos_numpy s
  ∧ ((¬ (tiempo_actual s < DURACION_SIMULACION s
         ∧ (U (pos_random s) < PROB_INGRESO s)%Q)
      ∧ cola (procesar_llegadas U s) = cola s
      ∧ objetos (procesar_llegadas U s) = objetos s
      ∧ clientes_ingresados (procesar_llegadas U s) = clientes_ingresados s
      ∧ contador_clientes (procesar_llegadas U s) = contador_clientes s)
     ∨ (tiempo_actual s < DURACION_SIMULACION s
        ∧ (U (pos_random s) < PROB_INGRESO s)%Q
        ∧ cola (procesar_llegadas U s) = cola s ++ [length (objetos s)]
        ∧ objetos (procesar_llegadas U s)
          = objetos s
              ++ [Cliente.nuevo (contador_clientes s) (tiempo_actual s)]
        ∧ clientes_ingresados (procesar_llegadas U s)
          = clientes_ingresados s ++ [length (objetos s)]
        ∧ contador_clientes (procesar_llegadas U s)
          = contador_clientes s + 1)).
Proof.
  unfold procesar_llegadas.
  case_decide as Ht.
  - cbn zeta. simpl. destruct (Qlt_le_dec _ _) as [Hu|Hu]; simpl.
    + split_and!; try done. right. by split_and!.
    + split_and!; try done. left. split_and!; try done.
      intros [_ Hu']. by apply Qlt_not_le in Hu'.
  - split_and!; try done. left. split_and!; try done. tauto.
Qed.

(** Over a whole tick, records only evolve. *)
Lemma simular_paso_evoluciona U N s s' r c :
  simular_paso U N s = Ok s' →
  objetos s !! r = Some c →
  ∃ c', objetos s' !! r = Some c' ∧ evoluciona c c'.
Proof.
  intros (s2 & s3 & s4 & H2 & H3 & H4 & ->)%simular_paso_Ok Hc.
  apply marco_asignar_clientes_a_boxes in H2.
  apply marco_procesar_finalizacion_atencion in H3.
  apply marco_procesar_abandonos in H4.
  pose proof (marco_trans _ _ _ (marco_trans _ _ _ H2 H3) H4) as Hm.
  apply (marco_ingreso _ _ Hm).
  destruct (procesar_llegadas_spec U s)
    as (_ & _ & _ & _ & _ & [(_ & _ & -> & _)|(_ & _ & _ & -> & _)]);
    [done|by apply lookup_app_l_Some].
Qed.

Lemma pasos_evoluciona U N n s s' r c :
  pasos U N n s = Ok s' →
  objetos s !! r = Some c →
  ∃ c', objetos s' !! r = Some c' ∧ evoluciona c c'.
Proof.
  revert s c. induction n as [|n IH]; intros s c Hrun Hc; simpl in Hrun.
  - injection Hrun as <-. exists c. split; [done|apply evoluciona_refl].
  - apply bind_Ok in Hrun as (s1 & H1 & Hrun).
    destruct (simular_paso_evoluciona U N s s1 r c H1 Hc) as (c1 & Hc1 & E1).
    destruct (IH s1 c1 Hrun Hc1) as (c' & Hc' & E').
    exists c'. split; [done|]. by eapply evoluciona_trans.
Qed.

(** Every record of the store is at exactly one stage of its life. *)
Lemma Inv_clasificacion s r c :
  Inv s → objetos s !! r = Some c →
  (r ∈ cola s ∧ esperando (DURACION_SIMULACION s) c)
  ∨ (r ∈ en_boxes (boxes s) ∧ ∃ fin, en_atencion fin c)
  ∨ (r ∈ clientes_atendidos s ∧ atendido c)
  ∨ (r ∈ clientes_abandonaron s ∧ abandonado (TIEMPO_MAX_ESPERA s) c).
Proof.
  intros HI Hc.
  assert (r ∈ seq 0 (length (objetos s))) as Hr.
  { apply elem_of_seq. apply lookup_lt_Some in Hc. lia. }
  rewrite <-(inv_particion s HI), !elem_of_app in Hr.
  destruct Hr as [Hr|[Hr|[Hr|Hr]]].
  - left. split; [done|].
    destruct (inv_cola s HI r Hr) as (c' & Hc' & ?). congruence.
  - right. left. split; [done|].
    apply list_elem_of_omap in Hr as (b & Hb & Hcli).
    apply list_elem_of_lookup in Hb as [i Hb].
    pose proof (inv_boxes s HI i b Hb) as Hok. unfold box_ok in Hok.
    destruct (Box.ocupado b).
    + destruct Hok as (r' & fin & c' & Hr' & _ & Hc' & Hat).
      exists fin. congruence.
    + destruct Hok as [Hnone _]. congruence.
  - right. right. left. split; [done|].
    destruct (inv_atendidos s HI r Hr) as (c' & Hc' & ?). congruence.
  - right. right. right. split; [done|].
    destruct (inv_abandonaron s HI r Hr) as (c' & Hc' & ?). congruence.
Qed.

(** ** C2: exclusive terminal disposition *)

Lemma Inv_disjuntos s r :
  Inv s →
  (r ∈ cola s →
   (r ∉ en_boxes (boxes s)) ∧ (r ∉ clientes_atendidos s)
   ∧ (r ∉ clientes_abandonaron s))
  ∧ (r ∈ en_boxes (boxes s) →
     (r ∉ clientes_atendidos s) ∧ (r ∉ clientes_abandonaron s))
  ∧ (r ∈ clientes_atendidos s → r ∉ clientes_abandonaron s).
Proof.
  intros Hnd%Inv_NoDup.
  apply NoDup_app in Hnd as (_ & H1 & Hnd).
  apply NoDup_app in Hnd as (_ & H2 & Hnd).
  apply NoDup_app in Hnd as (_ & H3 & _).
  split_and!.
  - intros Hr. specialize (H1 r Hr). rewrite !elem_of_app in H1. tauto.
  - intros Hr. specialize (H2 r Hr). rewrite !elem_of_app in H2. tauto.
  - intros Hr. by apply H3.
Qed.

Lemma Inv_abandonado s r c :
  Inv s → objetos s !! r = Some c → Cliente.abandono c = true →
  Cliente.tiempo_inicio_atencion c = None
  ∧ r ∈ clientes_abandonaron s
  ∧ (r ∉ cola s)
  ∧ (r ∉ en_boxes (boxes s)).
Proof.
  intros HI Hc Hab. pose proof (Inv_disjuntos s r HI) as (Hq & Hb & _).
  destruct (Inv_clasificacion s r c HI Hc)
    as [[_ (_ & ? & _)]|[[_ (fin & ti & _ & _ & ?)]
       |[[_ (ti & tf & _ & _ & _ & ?)]|[Hr (Hini & _)]]]];
    try congruence.
  split_and!; [done|done|tauto|tauto].
Qed.

Lemma Inv_iniciado s r c :
  Inv s → objetos s !! r = Some c →
  is_Some (Cliente.tiempo_inicio_atencion c) →
  Cliente.abandono c = false
  ∧ (r ∉ clientes_abandonaron s)
  ∧ (r ∉ cola s).
Proof.
  intros HI Hc [ti Hini].
  pose proof (Inv_disjuntos s r HI) as (Hq & Hb & Hat).
  destruct (Inv_clasificacion s r c HI Hc)
    as [[_ (? & _)]|[[Hr (fin & ti' & _ & _ & ?)]
       |[[Hr (ti' & tf & _ & _ & _ & ?)]|[_ (? & _)]]]];
    try congruence.
  - split_and!; [done|tauto|tauto].
  - split_and!; [done|tauto|tauto].
Qed.

(** C2. In a reachable state no record has both [tiempo_inicio_atencion]
    set and [abandono] true.  Along any further run, a record already
    abandoned stays abandoned, never gets a service start and is held by
    no box; a record whose service has started never gets the abandonment
    flag and never enters the abandoned record. *)
Theorem disposicion_exclusiva U N s :
  alcanzable U N s →
  (∀ r c, objetos s !! r = Some c →
     ¬ (is_Some (Cliente.tiempo_inicio_atencion c)
        ∧ Cliente.abandono c = true))
  ∧ (∀ n s' r c,
       pasos U N n s = Ok s' → objetos s !! r = Some c →
       ∃ c', objetos s' !! r = Some c'
             ∧ (Cliente.abandono c = true →
                Cliente.abandono c' = true
                ∧ Cliente.tiempo_inicio_atencion c' = None
                ∧ (r ∉ en_boxes (boxes s'))
                ∧ (r ∉ cola s'))
             ∧ (is_Some (Cliente.tiempo_inicio_atencion c) →
                is_Some (Cliente.tiempo_inicio_atencion c')
                ∧ Cliente.abandono c' = false
                ∧ (r ∉ clientes_abandonaron s')
                ∧ (r ∉ cola s'))).
Proof.
  intros Halc. split.
  - intros r c Hc [Hini Hab].
    destruct (Inv_iniciado s r c (alcanzable_Inv _ _ _ Halc) Hc Hini)
      as (Hno & _).
    congruence.
  - intros n s' r c Hrun Hc.
    pose proof (alcanzable_Inv _ _ _ (alcanzable_pasos _ _ _ _ _ Halc Hrun))
      as HI'.
    destruct (pasos_evoluciona U N n s s' r c Hrun Hc)
      as (c' & Hc' & _ & _ & Hab & Hini).
    exists c'. split; [done|]. split.
    + intros Habn%Hab.
      destruct (Inv_abandonado s' r c' HI' Hc' Habn) as (? & _ & ? & ?).
      done.
    + intros Hi%Hini.
      destruct (Inv_iniciado s' r c' HI' Hc' Hi) as (? & ? & ?).
      done.
Qed.

Lemma disposicion_exclusiva_witness :
  ∃ s0 s,
    __init__ 1 1 = Ok s0
    ∧ pasos (llegan 3) (atencion_fija 3000) 1802 s0 = Ok s
    ∧ clientes_abandonaron s = [1%nat]
    ∧ (∀ r c, objetos s !! r = Some c →
         ¬ (is_Some (Cliente.tiempo_inicio_atencion c)
            ∧ Cliente.abandono c = true))
    ∧ (∀ n s' r c,
         pasos (llegan 3) (atencion_fija 3000) n s = Ok s' →
         objetos s !! r = Some c →
         ∃ c', objetos s' !! r = Some c'
               ∧ (Cliente.abandono c = true →
                  Cliente.abandono c' = true
                  ∧ Cliente.tiempo_inicio_atencion c' = None
                  ∧ (r ∉ en_boxes (boxes s'))
                  ∧ (r ∉ cola s'))
               ∧ (is_Some (Cliente.tiempo_inicio_atencion c) →
                  is_Some (Cliente.tiempo_inicio_atencion c')
                  ∧ Cliente.abandono c' = false
                  ∧ (r ∉ clientes_abandonaron s')
                  ∧ (r ∉ cola s'))).
Proof.
  eexists _, _. split; [reflexivity|]. split; [vm_compute; reflexivity|].
  split; [reflexivity|].
  apply (disposicion_exclusiva (llegan 3) (atencion_fija 3000)).
  eapply (alcanzable_pasos (llegan 3) (atencion_fija 3000) 1802);
    [eapply (alcanzable_init _ _ 1 1); reflexivity|vm_compute; reflexivity].
Defined.

(** ** C5: the abandonment threshold *)

(** C5. In a reachable state the threshold is 1800 and every customer of
    the abandoned record carries the flag and an abandonment tick at
    least [TIEMPO_MAX_ESPERA] after its arrival, and is not in the queue.
    A customer that enters the abandoned record during a tick was queued
    before that tick, is out of the queue after it, and is stamped with
    the tick at which it was marked. *)
Theorem umbral_de_abandono U N s :
  alcanzable U N s →
  TIEMPO_MAX_ESPERA s = 1800
  ∧ (∀ r, r ∈ clientes_abandonaron s →
       (r ∉ cola s)
       ∧ ∃ c ta,
           objetos s !! r = Some c
           ∧ Cliente.abandono c = true
           ∧ Cliente.tiempo_abandono c = Some ta
           ∧ TIEMPO_MAX_ESPERA s ≤ ta - Cliente.tiempo_ingreso c)
  ∧ (∀ s' r,
       simular_paso U N s = Ok s' →
       r ∈ clientes_abandonaron s' → r ∉ clientes_abandonaron s →
       r ∈ cola s
       ∧ (r ∉ cola s')
       ∧ ∃ c, objetos s' !! r = Some c
              ∧ Cliente.tiempo_abandono c = Some (tiempo_actual s)).
Proof.
  intros Halc.
  pose proof (alcanzable_Inv _ _ _ Halc) as HI.
  pose proof (alcanzable_config _ _ _ Halc) as Hcfg.
  unfold config, config_inicial in Hcfg.
  injection Hcfg as _ _ Hmax _ _ _ _.
  assert (∀ s1, Inv s1 → ∀ r, r ∈ clientes_abandonaron s1 →
            (r ∉ cola s1)
            ∧ ∃ c ta,
                objetos s1 !! r = Some c
                ∧ Cliente.abandono c = true
                ∧ Cliente.tiempo_abandono c = Some ta
                ∧ TIEMPO_MAX_ESPERA s1 ≤ ta - Cliente.tiempo_ingreso c)
    as Hestado.
  { intros s1 HI1 r Hr.
    destruct (inv_abandonaron s1 HI1 r Hr) as (c & Hc & _ & Hab & ta & Hta & Hesp).
    destruct (Inv_abandonado s1 r c HI1 Hc Hab) as (_ & _ & Hq & _).
    split; [done|]. by exists c, ta. }
  split; [done|]. split; [by apply Hestado|].
  intros s' r Hpaso Hr' Hr.
  destruct (simular_paso_Inv U N s HI)
    as (s2 & s3 & s4 & H2 & H3 & H4 & Hs' & HI1 & HI2 & HI3 & HI4).
  rewrite Hpaso in Hs'. injection Hs' as ->.
  destruct (procesar_abandonos_spec s3 HI3)
    as (s4' & H4' & _ & Hq4 & Hab4 & _ & Ho4).
  rewrite H4 in H4'. injection H4' as <-.
  pose proof (marco_asignar_clientes_a_boxes _ _ _ H2) as Hm2.
  pose proof (marco_procesar_finalizacion_atencion _ _ H3) as Hm3.
  pose proof (marco_trans _ _ _ Hm2 Hm3) as Hm.
  pose proof (servicio_trans _ _ _
                (servicio_asignar_clientes_a_boxes _ _ _ H2)
                (servicio_procesar_finalizacion_atencion _ _ H3)) as Hsv.
  destruct (procesar_llegadas_spec U s) as (Ht1 & Hab1 & _ & _ & _ & Hcasos).
  assert (tiempo_actual s3 = tiempo_actual s) as Ht3.
  { by rewrite (marco_tiempo _ _ Hm). }
  assert (TIEMPO_MAX_ESPERA s3 = 1800) as Hmax3.
  { pose proof (marco_config _ _ Hm) as Hc3.
    rewrite config_procesar_llegadas in Hc3. unfold config in Hc3.
    injection Hc3 as _ _ _ -> _ _ _ _. done. }
  simpl in Hr'. rewrite Hab4, (sv_abandonaron _ _ Hsv), Hab1 in Hr'.
  apply elem_of_app in Hr' as [Hr'|Hr']; [done|].
  pose proof Hr' as [Hv Hq3]%list_elem_of_filter.
  split_and!.
  - apply (sv_cola _ _ Hsv) in Hq3.
    destruct Hcasos as [(_ & Hq1 & _)|(_ & _ & Hq1 & Ho1 & _)];
      rewrite Hq1 in Hq3; [done|].
    apply elem_of_app in Hq3 as [Hq3|Hnuevo%list_elem_of_singleton]; [done|].
    exfalso. subst r.
    destruct (marco_ingreso _ _ Hm (length (objetos s))
                (Cliente.nuevo (contador_clientes s) (tiempo_actual s)))
      as (c3 & Hc3 & Hing & _).
    { rewrite Ho1, lookup_app_r by done. by rewrite Nat.sub_diag. }
    unfold vencido in Hv. rewrite Hc3, Hing, Hmax3, Ht3 in Hv. simpl in Hv.
    lia.
  - simpl. rewrite Hq4. by intros [? _]%list_elem_of_filter.
  - simpl. rewrite Ho4, decide_True by done.
    unfold vencido in Hv. destruct (objetos s3 !! r) as [c3|]; [|done].
    exists (marcar (tiempo_actual s3) c3). split; [done|].
    simpl. by rewrite Ht3.
Qed.

Lemma umbral_de_abandono_witness :
  ∃ s0 s,
    __init__ 1 1 = Ok s0
    ∧ pasos (llegan 3) (atencion_fija 3000) 1801 s0 = Ok s
    ∧ TIEMPO_MAX_ESPERA s = 1800
    ∧ (∀ r, r ∈ clientes_abandonaron s →
         (r ∉ cola s)
         ∧ ∃ c ta,
             objetos s !! r = Some c
             ∧ Cliente.abandono c = true
             ∧ Cliente.tiempo_abandono c = Some ta
             ∧ TIEMPO_MAX_ESPERA s ≤ ta - Cliente.tiempo_ingreso c)
    ∧ (∀ s' r,
         simular_paso (llegan 3) (atencion_fija 3000) s = Ok s' →
         r ∈ clientes_abandonaron s' → r ∉ clientes_abandonaron s →
         r ∈ cola s
         ∧ (r ∉ cola s')
         ∧ ∃ c, objetos s' !! r = Some c
                ∧ Cliente.tiempo_abandono c = Some (tiempo_actual s)).
Proof.
  eexists _, _. split; [reflexivity|]. split; [vm_compute; reflexivity|].
  apply (umbral_de_abandono (llegan 3) (atencion_fija 3000)).
  eapply (alcanzable_pasos (llegan 3) (atencion_fija 3000) 1801);
    [eapply (alcanzable_init _ _ 1 1); reflexivity|vm_compute; reflexivity].
Defined.

(** ** C7: arrival cutoff and arrival bookkeeping *)

Lemma simular_paso_marco U N s s' :
  simular_paso U N s = Ok s' →
  ∃ s4, marco (procesar_llegadas U s) s4
        ∧ s' = set_tiempo_actual (tiempo_actual s4 + 1) s4.
Proof.
  intros (s2 & s3 & s4 & H2 & H3 & H4 & ->)%simular_paso_Ok.
  apply marco_asignar_clientes_a_boxes in H2.
  apply marco_procesar_finalizacion_atencion in H3.
  apply marco_procesar_abandonos in H4.
  exists s4. split; [|done].
  exact (marco_trans _ _ _ (marco_trans _ _ _ H2 H3) H4).
Qed.

(** C7. A tick executed at or after the horizon creates no customer: the
    ingested record, the object store and both counters are unchanged.
    When a customer arrives at a tick [t] before the horizon, it is a
    new object with [id] equal to the number of customers created so far
    and [tiempo_ingreso = t], appended to the tail of the queue and of
    the ingested record; at the end of the tick it is still the last
    entry of the ingested record, with the same [id] and arrival tick. *)
Theorem corte_de_llegadas U N s :
  alcanzable U N s →
  (DURACION_SIMULACION s ≤ tiempo_actual s →
   procesar_llegadas U s = s
   ∧ ∀ s', simular_paso U N s = Ok s' →
       clientes_ingresados s' = clientes_ingresados s
       ∧ length (objetos s') = length (objetos s)
       ∧ contador_clientes s' = contador_clientes s
       ∧ Est.clientes_ingresados (estadisticas s')
         = Est.clientes_ingresados (estadisticas s))
  ∧ (tiempo_actual s < DURACION_SIMULACION s →
     (U (pos_random s) < PROB_INGRESO s)%Q →
     contador_clientes s = Z.of_nat (length (clientes_ingresados s))
     ∧ objetos (procesar_llegadas U s)
       = objetos s ++ [Cliente.nuevo (contador_clientes s) (tiempo_actual s)]
     ∧ cola (procesar_llegadas U s) = cola s ++ [length (objetos s)]
     ∧ clientes_ingresados (procesar_llegadas U s)
       = clientes_ingresados s ++ [length (objetos s)]
     ∧ contador_clientes (procesar_llegadas U s) = contador_clientes s + 1
     ∧ ∀ s', simular_paso U N s = Ok s' →
         clientes_ingresados s'
         = clientes_ingresados s ++ [length (objetos s)]
         ∧ ∃ c, objetos s' !! length (objetos s) = Some c
                ∧ Cliente.id c = contador_clientes s
                ∧ Cliente.tiempo_ingreso c = tiempo_actual s).
Proof.
  intros HI%alcanzable_Inv.
  assert (∀ s', simular_paso U N s = Ok s' → Inv s') as Hinv.
  { intros s' Hs'.
    destruct (simular_paso_total U N s HI) as (s'' & Hs'' & HI').
    congruence. }
  split.
  - intros Ht.
    assert (procesar_llegadas U s = s) as Hnada.
    { unfold procesar_llegadas. case_decide; [lia|done]. }
    split; [done|]. intros s' Hs'. pose proof (Hinv s' Hs') as HI'.
    rewrite (inv_est_ingresados s' HI'), (inv_est_ingresados s HI).
    destruct (simular_paso_marco U N s s' Hs') as (s4 & Hm & ->).
    rewrite Hnada in Hm. simpl.
    rewrite (marco_ingresados _ _ Hm), (marco_objetos _ _ Hm),
      (marco_contador _ _ Hm).
    done.
  - intros Ht Hu.
    destruct (procesar_llegadas_spec U s)
      as (_ & _ & _ & _ & _ & [(Hno & _)|(_ & _ & Hq & Ho & Hing & Hcont)]);
      [tauto|].
    split_and!; try done.
    + rewrite (inv_contador s HI), (inv_ingresados s HI). by rewrite length_seq.
    + intros s' Hs'.
      destruct (simular_paso_marco U N s s' Hs') as (s4 & Hm & ->). simpl.
      split; [by rewrite (marco_ingresados _ _ Hm)|].
      destruct (marco_ingreso _ _ Hm (length (objetos s))
                  (Cliente.nuevo (contador_clientes s) (tiempo_actual s)))
        as (c & Hc & Hing_c & Hid & _).
      { rewrite Ho, lookup_app_r by done. by rewrite Nat.sub_diag. }
      by exists c.
Qed.

Lemma corte_de_llegadas_witness :
  ∃ s0 s,
    __init__ 1 1 = Ok s0
    ∧ pasos (llegan 3) (atencion_fija 60) 2 s0 = Ok s
    ∧ (llegan 3 (pos_random s) < PROB_INGRESO s)%Q
    ∧
    (DURACION_SIMULACION s ≤ tiempo_actual s →
     procesar_llegadas (llegan 3) s = s
     ∧ ∀ s', simular_paso (llegan 3) (atencion_fija 60) s = Ok s' →
         clientes_ingresados s' = clientes_ingresados s
         ∧ length (objetos s') = length (objetos s)
         ∧ contador_clientes s' = contador_clientes s
         ∧ Est.clientes_ingresados (estadisticas s')
           = Est.clientes_ingresados (estadisticas s))
    ∧ (tiempo_actual s < DURACION_SIMULACION s →
       (llegan 3 (pos_random s) < PROB_INGRESO s)%Q →
       contador_clientes s = Z.of_nat (length (clientes_ingresados s))
       ∧ objetos (procesar_llegadas (llegan 3) s)
         = objetos s ++ [Cliente.nuevo (contador_clientes s) (tiempo_actual s)]
       ∧ cola (procesar_llegadas (llegan 3) s) = cola s ++ [length (objetos s)]
       ∧ clientes_ingresados (procesar_llegadas (llegan 3) s)
         = clientes_ingresados s ++ [length (objetos s)]
       ∧ contador_clientes (procesar_llegadas (llegan 3) s) = contador_clientes s + 1
       ∧ ∀ s', simular_paso (llegan 3) (atencion_fija 60) s = Ok s' →
           clientes_ingresados s'
           = clientes_ingresados s ++ [length (objetos s)]
           ∧ ∃ c, objetos s' !! length (objetos s) = Some c
                  ∧ Cliente.id c = contador_clientes s
                  ∧ Cliente.tiempo_ingreso c = tiempo_actual s).
Proof.
  eexists _, _. split; [reflexivity|]. split; [vm_compute; reflexivity|].
  split; [reflexivity|].
  apply (corte_de_llegadas (llegan 3) (atencion_fija 60)).
  eapply (alcanzable_pasos (llegan 3) (atencion_fija 60) 2);
    [eapply (alcanzable_init _ _ 1 1); reflexivity|vm_compute; reflexivity].
Defined.

(** ** C10: the run terminates *)

Lemma for_each_seq_rel {S} (P : nat → S → Prop) (body : S → nat → result S) :
  ∀ n a s s',
    for_each body s (seq a n) = Ok s' →
    P a s →
    (∀ k s1 s2, (a ≤ k < a + n)%nat → P k s1 → body s1 k = Ok s2 →
                P (Datatypes.S k) s2) →
    P (a + n)%nat s'.
Proof.
  induction n as [|n IH]; intros a s s' Hrun HP Hbody; simpl in Hrun.
  - injection Hrun as <-. by rewrite Nat.add_0_r.
  - apply bind_Ok in Hrun as (s1 & H1 & Hrun).
    replace (a + Datatypes.S n)%nat with (Datatypes.S a + n)%nat by lia.
    eapply IH; [exact Hrun| |].
    + eapply Hbody; [|exact HP|exact H1]. lia.
    + intros k s2 s3 Hk. apply Hbody. lia.
Qed.

Lemma pasos_app U N n m s :
  pasos U N (n + m) s = pasos U N n s ≫= pasos U N m.
Proof.
  revert s. induction n as [|n IH]; intros s; simpl; [done|].
  destruct (simular_paso U N s) as [s1|e]; simpl; [apply IH|done].
Qed.

(** After a tick, whoever is still queued has waited less than the
    threshold at that tick. *)
Lemma simular_paso_cola U N s :
  Inv s →
  ∃ s', simular_paso U N s = Ok s'
        ∧ Inv s'
        ∧ tiempo_actual s' = tiempo_actual s + 1
        ∧ config s' = config s
        ∧ ∀ r, r ∈ cola s' →
            ∃ c, objetos s' !! r = Some c
                 ∧ tiempo_actual s - Cliente.tiempo_ingreso c
                   < TIEMPO_MAX_ESPERA s.
Proof.
  intros HI.
  destruct (simular_paso_Inv U N s HI)
    as (s2 & s3 & s4 & H2 & H3 & H4 & Hs' & HI1 & HI2 & HI3 & HI4).
  destruct (procesar_abandonos_spec s3 HI3)
    as (s4' & H4' & _ & Hq4 & _ & _ & Ho4).
  rewrite H4 in H4'. injection H4' as <-.
  pose proof (marco_asignar_clientes_a_boxes _ _ _ H2) as Hm2.
  pose proof (marco_procesar_finalizacion_atencion _ _ H3) as Hm3.
  pose proof (marco_procesar_abandonos _ _ H4) as Hm4.
  pose proof (marco_trans _ _ _ Hm2 Hm3) as Hm.
  destruct (procesar_llegadas_spec U s) as (Ht1 & _).
  pose proof (marco_config _ _ Hm) as Hcfg3.
  rewrite config_procesar_llegadas in Hcfg3.
  eexists. split; [exact Hs'|]. split; [by apply Inv_set_tiempo_actual|].
  split; [|split].
  - simpl. rewrite (marco_tiempo _ _ Hm4), (marco_tiempo _ _ Hm). lia.
  - change (config s4 = config s). by rewrite (marco_config _ _ Hm4).
  - simpl. rewrite Hq4. intros r [Hnv Hr]%list_elem_of_filter.
    destruct (inv_cola s3 HI3 r Hr) as (c & Hc & _).
    exists c. split.
    + rewrite Ho4, decide_False; [done|]. by intros [? _]%list_elem_of_filter.
    + unfold vencido in Hnv. rewrite Hc in Hnv.
      rewrite (marco_tiempo _ _ Hm), Ht1 in Hnv.
      unfold config in Hcfg3. injection Hcfg3 as _ _ _ Hmax _ _ _ _.
      rewrite Hmax in Hnv. lia.
Qed.

Lemma pasos_total U N n s :
  Inv s →
  ∃ s', pasos U N n s = Ok s'
        ∧ Inv s'
        ∧ tiempo_actual s' = tiempo_actual s + Z.of_nat n
        ∧ config s' = config s.
Proof.
  revert s. induction n as [|n IH]; intros s HI.
  - exists s. simpl. split_and!; try done. lia.
  - destruct (simular_paso_cola U N s HI) as (s1 & H1 & HI1 & Ht1 & Hc1 & _).
    destruct (IH s1 HI1) as (s' & Hrun & HI' & Ht' & Hc').
    exists s'. simpl. rewrite H1. simpl. split_and!; try done; [lia|congruence].
Qed.

(** Once the clock is [TIEMPO_MAX_ESPERA - 1] past the horizon, a tick
    leaves the queue empty. *)
Lemma simular_paso_vacia_cola U N s :
  Inv s →
  DURACION_SIMULACION s + TIEMPO_MAX_ESPERA s - 1 ≤ tiempo_actual s →
  ∃ s', simular_paso U N s = Ok s'
        ∧ Inv s'
        ∧ tiempo_actual s' = tiempo_actual s + 1
        ∧ config s' = config s
        ∧ cola s' = [].
Proof.
  intros HI Ht.
  destruct (simular_paso_cola U N s HI) as (s' & Hs' & HI' & Ht' & Hcfg & Hq).
  exists s'. split_and!; try done.
  destruct (cola s') as [|r q] eqn:Hcola; [done|]. exfalso.
  destruct (Hq r) as (c & Hc & Hesp); [by left|].
  destruct (inv_cola s' HI' r) as (c' & Hc' & _ & _ & Hing);
    [rewrite Hcola; by left|].
  unfold config in Hcfg. injection Hcfg as _ HD _ _ _ _ _ _.
  rewrite HD in Hing. replace c' with c in Hing by congruence. lia.
Qed.

(** With an empty queue nothing is assigned. *)
Lemma asignar_cola_vacia N s :
  cola s = [] → asignar_clientes_a_boxes N s = Ok s.
Proof.
  intros Hq. unfold asignar_clientes_a_boxes.
  assert (∀ l, (∀ i, i ∈ l → (i < length (boxes s))%nat) →
               for_each (asignar_box N) s l = Ok s) as Hloop.
  { induction l as [|i l IH]; intros Hl; [done|]. simpl.
    assert (asignar_box N s i = Ok s) as ->.
    { unfold asignar_box.
      destruct (lookup_lt_is_Some_2 (boxes s) i) as [b ->];
        [apply Hl; by left|].
      simpl. destruct (Box.ocupado b); [done|]. by rewrite Hq. }
    simpl. apply IH. intros j Hj. apply Hl. by right. }
  apply Hloop. intros i Hi%elem_of_seq. lia.
Qed.

(** Completion only frees boxes; a box still occupied afterwards is not
    due yet. *)
Lemma finalizar_box_boxes s i s' :
  finalizar_box s i = Ok s' →
  ∀ j b', boxes s' !! j = Some b' → Box.ocupado b' = true →
    boxes s !! j = Some b'
    ∧ (j = i → ∃ fin, Box.tiempo_fin_atencion b' = Some fin
                      ∧ tiempo_actual s < fin).
Proof.
  unfold finalizar_box. intros (box & Hbox%of_option_Ok & H)%bind_Ok.
  destruct (Box.ocupado box) eqn:Hoc.
  2:{ injection H as <-. intros j b' Hb' Hoc'. split; [done|].
      intros ->. congruence. }
  apply bind_Ok in H as (fin & Hfin%of_option_Ok & H).
  case_decide as Hdue.
  2:{ injection H as <-. intros j b' Hb' Hoc'. split; [done|].
      intros ->. exists fin. replace b' with box by congruence.
      split; [done|lia]. }
  apply bind_Ok in H as (cliente & _ & H).
  apply bind_Ok in H as (s1 & (c & Hc & ->)%modificar_Ok & H).
  apply bind_Ok in H as (c1 & _ & H). injection H as <-. simpl.
  intros j b' Hb' Hoc'. destruct (decide (i = j)) as [<-|Hne].
  - rewrite list_lookup_insert_eq in Hb' by (by eapply lookup_lt_Some).
    injection Hb' as <-. done.
  - rewrite list_lookup_insert_ne in Hb' by done. split; [done|].
    intros ->. done.
Qed.

Lemma procesar_finalizacion_boxes s s' :
  procesar_finalizacion_atencion s = Ok s' →
  ∀ j b', boxes s' !! j = Some b' → Box.ocupado b' = true →
    boxes s !! j = Some b'
    ∧ ∃ fin, Box.tiempo_fin_atencion b' = Some fin ∧ tiempo_actual s < fin.
Proof.
  intros Hrun.
  pose proof (marco_procesar_finalizacion_atencion s s' Hrun) as Hmarco.
  unfold procesar_finalizacion_atencion in Hrun.
  pose proof (for_each_seq_rel
                (λ k s1, marco s s1
                         ∧ ∀ j b', boxes s1 !! j = Some b' →
                             Box.ocupado b' = true →
                             boxes s !! j = Some b'
                             ∧ ((j < k)%nat →
                                ∃ fin, Box.tiempo_fin_atencion b' = Some fin
                                       ∧ tiempo_actual s < fin))
                finalizar_box (length (boxes s)) 0 s s' Hrun) as Hloop.
  destruct Hloop as [_ Hfin].
  - split; [apply marco_refl|]. intros j b' Hb' _. split; [done|lia].
  - intros k s1 s2 Hk [Hm1 Hb1] Hpaso. split.
    + eapply marco_trans; [exact Hm1|]. by eapply marco_finalizar_box.
    + intros j b' Hb' Hoc'.
      destruct (finalizar_box_boxes s1 k s2 Hpaso j b' Hb' Hoc') as [Hj Hk'].
      destruct (Hb1 j b' Hj Hoc') as [Hj0 Hant]. split; [done|].
      intros Hlt. destruct (decide (j = k)) as [->|Hne].
      * rewrite <-(marco_tiempo _ _ Hm1). by apply Hk'.
      * apply Hant. lia.
  - intros j b' Hb' Hoc'. destruct (Hfin j b' Hb' Hoc') as [Hj Hlt].
    split; [done|]. apply Hlt. apply lookup_lt_Some in Hj. lia.
Qed.

Lemma max_fin_cota (bs : list Box.t) b fin :
  b ∈ bs → Box.tiempo_fin_atencion b = Some fin → fin ≤ max_fin bs.
Proof.
  induction bs as [|b' bs IH]; intros Hb Hfin.
  - by apply elem_of_nil in Hb.
  - simpl. apply elem_of_cons in Hb as [->|Hb].
    + rewrite Hfin. simpl. lia.
    + specialize (IH Hb Hfin). lia.
Qed.

Lemma acotado_max_fin s : acotado (max_fin (boxes s)) s.
Proof.
  intros i b fin Hb _ Hfin. eapply max_fin_cota; [|done].
  by eapply list_elem_of_lookup_2.
Qed.

(** A tick past the horizon with an empty queue: nobody arrives, nothing
    is assigned, due boxes are freed. *)
Lemma simular_paso_drenaje U N s :
  Inv s → cola s = [] →
  DURACION_SIMULACION s ≤ tiempo_actual s →
  ∃ s', simular_paso U N s = Ok s'
        ∧ Inv s'
        ∧ cola s' = []
        ∧ tiempo_actual s' = tiempo_actual s + 1
        ∧ config s' = config s
        ∧ ∀ j b', boxes s' !! j = Some b' → Box.ocupado b' = true →
            boxes s !! j = Some b'
            ∧ ∃ fin, Box.tiempo_fin_atencion b' = Some fin
                     ∧ tiempo_actual s < fin.
Proof.
  intros HI Hq Ht.
  destruct (simular_paso_cola U N s HI) as (s' & Hs' & HI' & Ht' & Hcfg & _).
  exists s'. split_and!; try done.
  - apply simular_paso_Ok in Hs' as (s2 & s3 & s4 & H2 & H3 & H4 & ->).
    assert (procesar_llegadas U s = s) as Hnada.
    { unfold procesar_llegadas. case_decide; [lia|done]. }
    rewrite Hnada, asignar_cola_vacia in H2 by done. injection H2 as <-.
    pose proof (servicio_procesar_finalizacion_atencion _ _ H3) as Hsv.
    destruct (simular_paso_Inv U N s HI)
      as (s2' & s3' & s4' & H2' & H3' & H4' & _ & _ & _ & HI3 & _).
    rewrite Hnada, asignar_cola_vacia in H2' by done. injection H2' as <-.
    rewrite H3 in H3'. injection H3' as <-.
    destruct (procesar_abandonos_spec s3 HI3) as (s4'' & H4'' & _ & Hq4 & _).
    rewrite H4 in H4''. injection H4'' as <-.
    simpl. rewrite Hq4.
    destruct (cola s3) as [|r q] eqn:Hq3; [done|].
    exfalso. assert (r ∈ cola s) as Hr.
    { apply (sv_cola _ _ Hsv). rewrite Hq3. by left. }
    rewrite Hq in Hr. by apply elem_of_nil in Hr.
  - apply simular_paso_Ok in Hs' as (s2 & s3 & s4 & H2 & H3 & H4 & ->).
    assert (procesar_llegadas U s = s) as Hnada.
    { unfold procesar_llegadas. case_decide; [lia|done]. }
    rewrite Hnada, asignar_cola_vacia in H2 by done. injection H2 as <-.
    destruct (simular_paso_Inv U N s HI)
      as (s2' & s3' & s4' & H2' & H3' & H4' & _ & _ & _ & HI3 & _).
    rewrite Hnada, asignar_cola_vacia in H2' by done. injection H2' as <-.
    rewrite H3 in H3'. injection H3' as <-.
    destruct (procesar_abandonos_spec s3 HI3)
      as (s4'' & H4'' & _ & _ & _ & Hb4 & _).
    rewrite H4 in H4''. injection H4'' as <-.
    simpl. rewrite Hb4. by apply procesar_finalizacion_boxes.
Qed.

Lemma pasos_drenaje U N B n s :
  Inv s → cola s = [] →
  DURACION_SIMULACION s ≤ tiempo_actual s →
  acotado B s →
  ∃ s', pasos U N n s = Ok s'
        ∧ Inv s'
        ∧ cola s' = []
        ∧ tiempo_actual s' = tiempo_actual s + Z.of_nat n
        ∧ config s' = config s
        ∧ acotado B s'
        ∧ ((0 < n)%nat →
           ∀ j b', boxes s' !! j = Some b' → Box.ocupado b' = true →
             ∃ fin, Box.tiempo_fin_atencion b' = Some fin
                    ∧ tiempo_actual s + Z.of_nat n - 1 < fin).
Proof.
  revert s. induction n as [|n IH]; intros s HI Hq Ht HB.
  - exists s. simpl. split_and!; try done; lia.
  - destruct (simular_paso_drenaje U N s HI Hq Ht)
      as (s1 & H1 & HI1 & Hq1 & Ht1 & Hc1 & Hb1).
    assert (DURACION_SIMULACION s1 = DURACION_SIMULACION s) as HD.
    { unfold config in Hc1. by injection Hc1 as _ -> _ _ _ _ _ _. }
    assert (acotado B s1) as HB1.
    { intros j b fin Hb Hoc Hfin. destruct (Hb1 j b Hb Hoc) as [Hj _]. eauto. }
    destruct (IH s1 HI1 Hq1) as (s' & Hrun & HI' & Hq' & Ht' & Hc' & HB' & Hb');
      [lia|done|].
    exists s'. simpl. rewrite H1. simpl.
    split_and!; try done; [lia|congruence|].
    intros _ j b' Hb Hoc.
    destruct n as [|n].
    + simpl in Hrun. injection Hrun as <-.
      destruct (Hb1 j b' Hb Hoc) as [_ (fin & Hfin & Hlt)].
      exists fin. split; [done|lia].
    + destruct (Hb' ltac:(lia) j b' Hb Hoc) as (fin & Hfin & Hlt).
      exists fin. split; [done|lia].
Qed.

(** The [while] loop of [ejecutar_simulacion_rapida] stops at the first
    state along the run where [condicion_finalizacion] holds. *)
Lemma ejecutar_desde_pasos U N n s s' :
  pasos U N n s = Ok s' → condicion_finalizacion s' = true →
  ∃ m s'',
    (m ≤ n)%nat
    ∧ pasos U N m s = Ok s''
    ∧ condicion_finalizacion s'' = true
    ∧ (∀ k sk, (k < m)%nat → pasos U N k s = Ok sk →
         condicion_finalizacion sk = false)
    ∧ ∀ fuel, (m ≤ fuel)%nat →
        ejecutar_simulacion_rapida U N fuel s
        = Some (Ok (calcular_costos s'')).
Proof.
  revert s. induction n as [|n IH]; intros s Hrun Hfin.
  - simpl in Hrun. injection Hrun as <-.
    exists 0%nat, s. split_and!; try done; [lia|].
    intros fuel _. destruct fuel; simpl; by rewrite Hfin.
  - destruct (condicion_finalizacion s) eqn:Hs.
    + exists 0%nat, s. split_and!; try done; [lia|lia|].
      intros fuel _. destruct fuel; simpl; by rewrite Hs.
    + simpl in Hrun. apply bind_Ok in Hrun as (s1 & H1 & Hrun).
      destruct (IH s1 Hrun Hfin) as (m & s'' & Hm & Hrun' & Hfin' & Hmin & Hfuel).
      exists (S m), s''. split_and!; try done.
      * lia.
      * simpl. by rewrite H1.
      * intros k sk Hk Hsk. destruct k as [|k].
        -- simpl in Hsk. by injection Hsk as <-.
        -- simpl in Hsk. rewrite H1 in Hsk. simpl in Hsk.
           apply (Hmin k); [lia|done].
      * intros fuel Hf. destruct fuel as [|fuel]; [lia|].
        simpl. rewrite Hs, H1. apply Hfuel. lia.
Qed.

Lemma Inv_termina U N s :
  Inv s → ∃ n s', pasos U N n s = Ok s' ∧ condicion_finalizacion s' = true.
Proof.
  intros HI.
  set (D := DURACION_SIMULACION s). set (M := TIEMPO_MAX_ESPERA s).
  set (n1 := Z.to_nat (Z.max 0 (Z.max D (D + M - 1) - tiempo_actual s))).
  destruct (pasos_total U N n1 s HI) as (sa & Ha & HIa & Hta & Hca).
  assert (DURACION_SIMULACION sa = D ∧ TIEMPO_MAX_ESPERA sa = M) as [HDa HMa].
  { unfold config in Hca. by injection Hca as _ -> _ -> _ _ _ _. }
  destruct (simular_paso_vacia_cola U N sa HIa)
    as (sb & Hb & HIb & Htb & Hcb & Hqb); [lia|].
  assert (DURACION_SIMULACION sb = D) as HDb.
  { unfold config in Hcb. injection Hcb as _ -> _ _ _ _ _ _. done. }
  set (B := max_fin (boxes sb)).
  set (n2 := Z.to_nat (Z.max 1 (B - tiempo_actual sb + 1))).
  destruct (pasos_drenaje U N B n2 sb HIb Hqb)
    as (sc & Hc & HIc & Hqc & Htc & Hcc & HBc & Hboxes);
    [lia|apply acotado_max_fin|].
  assert (DURACION_SIMULACION sc = D) as HDc.
  { unfold config in Hcc. injection Hcc as _ -> _ _ _ _ _ _. done. }
  exists (n1 + (1 + n2))%nat, sc. split.
  - rewrite pasos_app, Ha. simpl. rewrite Hb. simpl. exact Hc.
  - apply condicion_finalizacion_true. split_and!; [lia|done|].
    intros b [j Hj]%list_elem_of_lookup.
    destruct (Box.ocupado b) eqn:Hoc; [|done]. exfalso.
    destruct (Hboxes ltac:(lia) j b Hj Hoc) as (fin & Hfin & Hlt).
    pose proof (HBc j b fin Hj Hoc Hfin). lia.
Qed.

(** C10. From every reachable state, and whatever the draws, repeating
    [simular_paso] reaches after finitely many ticks a state where
    [condicion_finalizacion] holds; the loop of
    [ejecutar_simulacion_rapida] stops at the first such state and
    returns it with its costs computed, raising nothing. *)
Theorem la_simulacion_termina U N s :
  alcanzable U N s →
  ∃ n s',
    pasos U N n s = Ok s'
    ∧ condicion_finalizacion s' = true
    ∧ (∀ k sk, (k < n)%nat → pasos U N k s = Ok sk →
         condicion_finalizacion sk = false)
    ∧ ∀ fuel, (n ≤ fuel)%nat →
        ejecutar_simulacion_rapida U N fuel s
        = Some (Ok (calcular_costos s')).
Proof.
  intros HI%alcanzable_Inv.
  destruct (Inv_termina U N s HI) as (n & s' & Hrun & Hfin).
  destruct (ejecutar_desde_pasos U N n s s' Hrun Hfin)
    as (m & s'' & _ & Hrun' & Hfin' & Hmin & Hfuel).
  by exists m, s''.
Qed.

Lemma la_simulacion_termina_witness :
  ∃ s0 s,
    __init__ 2 1 = Ok s0
    ∧ pasos (llegan 5) (atencion_fija 700) 10 s0 = Ok s
    ∧ ∃ n s',
        pasos (llegan 5) (atencion_fija 700) n s = Ok s'
        ∧ condicion_finalizacion s' = true
        ∧ (∀ k sk, (k < n)%nat →
             pasos (llegan 5) (atencion_fija 700) k s = Ok sk →
             condicion_finalizacion sk = false)
        ∧ ∀ fuel, (n ≤ fuel)%nat →
            ejecutar_simulacion_rapida (llegan 5) (atencion_fija 700) fuel s
            = Some (Ok (calcular_costos s')).
Proof.
  eexists _, _. split; [reflexivity|]. split; [vm_compute; reflexivity|].
  apply (la_simulacion_termina (llegan 5) (atencion_fija 700)).
  eapply (alcanzable_pasos (llegan 5) (atencion_fija 700) 10);
    [eapply (alcanzable_init _ _ 2 1); reflexivity|vm_compute; reflexivity].
Defined.

(** ** C9: determinism *)

Lemma procesar_llegadas_random U s :
  (pos_random s ≤ pos_random (procesar_llegadas U s))%N.
Proof.
  unfold procesar_llegadas. case_decide; [|done].
  destruct (Qlt_le_dec _ _); simpl; lia.
Qed.

(** [procesar_llegadas] looks at no draw but the ones it consumes. *)
Lemma procesar_llegadas_ext U1 U2 s :
  coinciden_random U1 U2 (pos_random s)
    (pos_random (procesar_llegadas U1 s)) →
  procesar_llegadas U2 s = procesar_llegadas U1 s.
Proof.
  unfold procesar_llegadas. case_decide; [|done]. cbn zeta.
  intros Hco. assert (U1 (pos_random s) = U2 (pos_random s)) as <-; [|done].
  apply Hco. destruct (Qlt_le_dec _ _); simpl; lia.
Qed.

Lemma asignar_box_ext N1 N2 s i s' :
  asignar_box N1 s i = Ok s' →
  coinciden_normal N1 N2 (pos_numpy s) (pos_numpy s') →
  asignar_box N2 s i = Ok s'.
Proof.
  unfold asignar_box. intros (box & Hbox%of_option_Ok & H)%bind_Ok Hco.
  rewrite Hbox. simpl.
  destruct (Box.ocupado box); [done|].
  destruct (cola s) as [|cliente resto]; [done|].
  unfold generar_tiempo_atencion in *. cbn zeta in *.
  assert (N1 (pos_numpy s) (MEDIA_ATENCION s) (DESVIO_ATENCION s)
          = N2 (pos_numpy s) (MEDIA_ATENCION s) (DESVIO_ATENCION s)) as <-;
    [|done].
  apply Hco. simpl in H.
  apply bind_Ok in H as (s1 & (c1 & _ & ->)%modificar_Ok & H).
  apply modificar_Ok in H as (c2 & _ & ->). simpl. lia.
Qed.

Lemma for_each_asignar_box_ext N1 N2 l s s' :
  for_each (asignar_box N1) s l = Ok s' →
  coinciden_normal N1 N2 (pos_numpy s) (pos_numpy s') →
  for_each (asignar_box N2) s l = Ok s'.
Proof.
  revert s. induction l as [|i l IH]; intros s Hrun Hco; [done|].
  simpl in Hrun. apply bind_Ok in Hrun as (s1 & H1 & Hrun).
  pose proof (marco_numpy _ _ (marco_asignar_box N1 s i s1 H1)) as Hle1.
  assert (pos_numpy s1 ≤ pos_numpy s')%N as Hle2.
  { apply (marco_numpy s1 s').
    eapply (for_each_rel marco); [apply marco_refl|apply marco_trans| |exact Hrun].
    apply marco_asignar_box. }
  simpl. rewrite (asignar_box_ext N1 N2 s i s1 H1).
  - simpl. apply IH; [done|]. intros k loc scale Hk. apply Hco. lia.
  - intros k loc scale Hk. apply Hco. lia.
Qed.

(** A successful tick only depends on the draws it consumes, and the
    draw counts never decrease. *)
Lemma simular_paso_ext U1 N1 U2 N2 s s' :
  simular_paso U1 N1 s = Ok s' →
  (pos_random s ≤ pos_random s')%N
  ∧ (pos_numpy s ≤ pos_numpy s')%N
  ∧ (coinciden_random U1 U2 (pos_random s) (pos_random s') →
     coinciden_normal N1 N2 (pos_numpy s) (pos_numpy s') →
     simular_paso U2 N2 s = Ok s').
Proof.
  intros (s2 & s3 & s4 & H2 & H3 & H4 & ->)%simular_paso_Ok.
  pose proof (marco_asignar_clientes_a_boxes _ _ _ H2) as Hm2.
  pose proof (marco_procesar_finalizacion_atencion _ _ H3) as Hm3.
  pose proof (marco_procesar_abandonos _ _ H4) as Hm4.
  pose proof (marco_trans _ _ _ Hm3 Hm4) as Hm34.
  pose proof (marco_trans _ _ _ Hm2 Hm34) as Hm.
  destruct (procesar_llegadas_spec U1 s) as (_ & _ & _ & _ & Hnp & _).
  pose proof (procesar_llegadas_random U1 s) as Hrnd.
  simpl.
  assert (pos_random s4 = pos_random (procesar_llegadas U1 s)) as Hr4
    by apply (marco_random _ _ Hm).
  pose proof (marco_numpy _ _ Hm) as Hn4. rewrite Hnp in Hn4.
  split; [by rewrite Hr4|]. split; [done|].
  intros HcoU HcoN. apply simular_paso_Ok. exists s2, s3, s4.
  split_and!; try done.
  rewrite (procesar_llegadas_ext U1 U2) by (by rewrite <-Hr4).
  apply (for_each_asignar_box_ext N1 N2); [exact H2|].
  intros k loc scale Hk. apply HcoN.
  pose proof (marco_numpy _ _ Hm34). rewrite Hnp in Hk. lia.
Qed.

Lemma ejecutar_simulacion_rapida_ext U1 N1 U2 N2 fuel s sf :
  ejecutar_simulacion_rapida U1 N1 fuel s = Some (Ok sf) →
  (pos_random s ≤ pos_random sf)%N
  ∧ (pos_numpy s ≤ pos_numpy sf)%N
  ∧ (coinciden_random U1 U2 (pos_random s) (pos_random sf) →
     coinciden_normal N1 N2 (pos_numpy s) (pos_numpy sf) →
     ejecutar_simulacion_rapida U2 N2 fuel s = Some (Ok sf)).
Proof.
  revert s. induction fuel as [|fuel IH]; intros s Hrun; simpl in *.
  - destruct (condicion_finalizacion s); [|done].
    injection Hrun as <-. simpl. split_and!; try done; lia.
  - destruct (condicion_finalizacion s).
    { injection Hrun as <-. simpl. split_and!; try done; lia. }
    destruct (simular_paso U1 N1 s) as [s1|e] eqn:H1; [|done].
    destruct (simular_paso_ext U1 N1 U2 N2 s s1 H1) as (Hr1 & Hn1 & Hext1).
    destruct (IH s1 Hrun) as (Hr & Hn & Hext).
    split; [lia|]. split; [lia|]. intros HcoU HcoN.
    rewrite Hext1.
    + apply Hext; intros k; [|intros loc scale]; intros Hk;
        [apply HcoU|apply HcoN]; lia.
    + intros k Hk. apply HcoU. lia.
    + intros k loc scale Hk. apply HcoN. lia.
Qed.

(** More fuel does not change the outcome of a finished run. *)
Lemma ejecutar_simulacion_rapida_fuel U N fuel fuel' s r :
  ejecutar_simulacion_rapida U N fuel s = Some r →
  (fuel ≤ fuel')%nat →
  ejecutar_simulacion_rapida U N fuel' s = Some r.
Proof.
  revert fuel' s. induction fuel as [|fuel IH]; intros fuel' s Hrun Hle.
  - simpl in Hrun. destruct (condicion_finalizacion s) eqn:Hs; [|done].
    destruct fuel'; simpl; by rewrite Hs.
  - destruct fuel' as [|fuel']; [lia|]. simpl in *.
    destruct (condicion_finalizacion s); [done|].
    destruct (simular_paso U N s); [|done].
    apply IH; [done|lia].
Qed.

(** C9. Two runs of [ejecutar_simulacion_rapida] from the same engine
    state, fed by sources that give the same Bernoulli and service-time
    draws wherever the first run draws, finish in the same state, hence
    with the same statistics; the number of loop iterations allowed to
    each run plays no role. *)
Theorem determinismo U1 N1 U2 N2 fuel1 fuel2 s0 s1 s2 :
  ejecutar_simulacion_rapida U1 N1 fuel1 s0 = Some (Ok s1) →
  ejecutar_simulacion_rapida U2 N2 fuel2 s0 = Some (Ok s2) →
  coinciden_random U1 U2 (pos_random s0) (pos_random s1) →
  coinciden_normal N1 N2 (pos_numpy s0) (pos_numpy s1) →
  s1 = s2 ∧ estadisticas s1 = estadisticas s2.
Proof.
  intros H1 H2 HcoU HcoN.
  destruct (ejecutar_simulacion_rapida_ext U1 N1 U2 N2 fuel1 s0 s1 H1)
    as (_ & _ & Hext).
  specialize (Hext HcoU HcoN).
  apply (ejecutar_simulacion_rapida_fuel _ _ _ (fuel1 `max` fuel2)) in Hext;
    [|lia].
  apply (ejecutar_simulacion_rapida_fuel _ _ _ (fuel1 `max` fuel2)) in H2;
    [|lia].
  rewrite Hext in H2. injection H2 as <-. done.
Qed.


Lemma determinismo_witness :
  ∃ s0 s1 s2,
    __init__ 1 1 = Ok s0
    ∧ ejecutar_simulacion_rapida (llegan 3) (atencion_fija 700)
        (Z.to_nat 15000) s0 = Some (Ok s1)
    ∧ ejecutar_simulacion_rapida (llegan_y_luego 3 14400)
        (atencion_fija_hasta 700 900 3) (Z.to_nat 16000) s0 = Some (Ok s2)
    ∧ Est.clientes_atendidos (estadisticas s1) = 3
    ∧ s1 = s2 ∧ estadisticas s1 = estadisticas s2.
Proof.
  eexists _, _, _. split; [reflexivity|].
  lazymatch goal with
  | |- ejecutar_simulacion_rapida _ _ _ ?s = _ ∧ _ => set (s0 := s)
  end.
  split; [vm_compute; reflexivity|]. split; [vm_compute; reflexivity|].
  split; [reflexivity|].
  apply (determinismo (llegan 3) (atencion_fija 700)
           (llegan_y_luego 3 14400) (atencion_fija_hasta 700 900 3)
           (Z.to_nat 15000) (Z.to_nat 16000) s0).
  - vm_compute. reflexivity.
  - vm_compute. reflexivity.
  - intros k Hk. simpl in Hk. unfold llegan, llegan_y_luego.
    repeat case_decide; try reflexivity; lia.
  - intros k loc scale Hk. simpl in Hk.
    unfold atencion_fija, atencion_fija_hasta.
    case_decide; [reflexivity|lia].
Defined.

(** * Further properties of the engine *)

(** ** Effect of one loop iteration *)

Lemma asignar_box_efecto N s i s' :
  asignar_box N s i = Ok s' →
  (s' = s
   ∧ ∃ b, boxes s !! i = Some b ∧ (Box.ocupado b = true ∨ cola s = []))
  ∨ ∃ b r resto c,
      boxes s !! i = Some b ∧ Box.ocupado b = false
      ∧ cola s = r :: resto ∧ objetos s !! r = Some c
      ∧ s' = set_objetos
               (<[r := Cliente.set_box_asignado (Some (Box.id b))
                         (Cliente.set_tiempo_inicio_atencion
                            (Some (tiempo_actual s)) c)]> (objetos s))
               (set_boxes
                  (<[i := Box.mk (Box.id b) true (Some r)
                            (Some (tiempo_actual s
                                   + (generar_tiempo_atencion N s).1))]>
                     (boxes s))
                  (set_pos_numpy (N.succ (pos_numpy s)) (set_cola resto s))).
Proof.
  unfold asignar_box. intros (b & Hb%of_option_Ok & H)%bind_Ok.
  destruct (Box.ocupado b) eqn:Hoc.
  { injection H as <-. left. split; [done|]. exists b. auto. }
  destruct (cola s) as [|r resto] eqn:Hq.
  { injection H as <-. left. split; [done|]. exists b. auto. }
  right. simpl in H.
  apply bind_Ok in H as (s1 & (c & Hc & ->)%modificar_Ok & H).
  apply modificar_Ok in H as (c1 & Hc1 & ->). simpl in *.
  rewrite list_lookup_insert_eq in Hc1 by (by eapply lookup_lt_Some).
  injection Hc1 as <-. rewrite list_insert_insert_eq.
  exists b, r, resto, c. split_and!; done.
Qed.

Lemma finalizar_box_efecto s i s' :
  finalizar_box s i = Ok s' →
  s' = s
  ∨ ∃ b r fin c,
      boxes s !! i = Some b ∧ Box.ocupado b = true
      ∧ Box.tiempo_fin_atencion b = Some fin ∧ fin ≤ tiempo_actual s
      ∧ Box.cliente_actual b = Some r ∧ objetos s !! r = Some c
      ∧ s' = set_boxes
               (<[i := Box.mk (Box.id b) false None None]> (boxes s))
               (set_estadisticas
                  (registrar_espera
                     (Cliente.tiempo_espera
                        (Cliente.set_tiempo_fin_atencion
                           (Some (tiempo_actual s)) c))
                     (registrar_atencion
                        (Cliente.tiempo_atencion
                           (Cliente.set_tiempo_fin_atencion
                              (Some (tiempo_actual s)) c))
                        (Est.set_clientes_atendidos
                           (Est.clientes_atendidos (estadisticas s) + 1)
                           (estadisticas s))))
                  (set_clientes_atendidos (clientes_atendidos s ++ [r])
                     (set_objetos
                        (<[r := Cliente.set_tiempo_fin_atencion
                                  (Some (tiempo_actual s)) c]> (objetos s))
                        s))).
Proof.
  unfold finalizar_box. intros (b & Hb%of_option_Ok & H)%bind_Ok.
  destruct (Box.ocupado b) eqn:Hoc; [|injection H as <-; by left].
  apply bind_Ok in H as (fin & Hfin%of_option_Ok & H).
  case_decide as Hdue; [|injection H as <-; by left].
  apply bind_Ok in H as (r & Hr%of_option_Ok & H).
  apply bind_Ok in H as (s1 & (c & Hc & ->)%modificar_Ok & H).
  apply bind_Ok in H as (c1 & Hc1%of_option_Ok & H). injection H as <-.
  simpl in Hc1.
  rewrite list_lookup_insert_eq in Hc1 by (by eapply lookup_lt_Some).
  injection Hc1 as <-. right. exists b, r, fin, c. split_and!; done.
Qed.

(** ** Running minimum and maximum *)

Lemma resumen_nil : resumen Inf 0 [].
Proof.
  split_and!; try done.
  - intros x Hx. by apply elem_of_nil in Hx.
  - intros x Hx. by apply elem_of_nil in Hx.
Qed.

Lemma resumen_snoc lo hi l x :
  resumen lo hi l → 0 ≤ x →
  resumen (py_min lo x) (py_max hi x) (l ++ [x]).
Proof.
  intros (Hhi & Hlo & Hnil & Hcons) Hx.
  destruct l as [|y l].
  - destruct Hnil as [-> ->]; [done|]. unfold py_min, py_max. simpl.
    assert ((if decide (0 < x) then x else 0) = x) as ->
      by (case_decide; lia).
    split_and!.
    + intros z ->%list_elem_of_singleton. lia.
    + intros z ->%list_elem_of_singleton. exists x. split; [done|lia].
    + done.
    + intros _. split; [by left|]. exists x. split; [done|by left].
  - destruct Hcons as (Hin & m & -> & Hm); [done|].
    unfold py_min, py_max.
    split_and!.
    + intros z [Hz|Hz%list_elem_of_singleton]%elem_of_app.
      * specialize (Hhi z Hz). case_decide; lia.
      * subst z. case_decide; lia.
    + intros z Hz. exists (if decide (x < m) then x else m).
      split; [by case_decide|].
      apply elem_of_app in Hz as [Hz|Hz%list_elem_of_singleton].
      * destruct (Hlo z Hz) as (m' & [= <-] & Hle). case_decide; lia.
      * subst z. case_decide; lia.
    + done.
    + intros _. split.
      * case_decide; rewrite elem_of_app;
          [right; by apply list_elem_of_singleton|by left].
      * exists (if decide (x < m) then x else m). split; [by case_decide|].
        case_decide; rewrite elem_of_app;
          [right; by apply list_elem_of_singleton|by left].
Qed.

Lemma omap_ext_in {A B} (f g : A → option B) (l : list A) :
  (∀ x, x ∈ l → f x = g x) → omap f l = omap g l.
Proof.
  induction l as [|x l IH]; intros Hfg; [done|].
  cbn [omap list_omap]. rewrite (Hfg x) by (by left).
  rewrite IH; [done|]. intros y Hy. apply Hfg. by right.
Qed.

(** The two lists only look at the served records. *)
Lemma atenciones_esperas_ext s s' :
  clientes_atendidos s' = clientes_atendidos s →
  (∀ r, r ∈ clientes_atendidos s → objetos s' !! r = objetos s !! r) →
  atenciones s' = atenciones s ∧ esperas s' = esperas s.
Proof.
  unfold atenciones, esperas. intros -> Hobj.
  split; apply omap_ext_in; intros r Hr; by rewrite Hobj.
Qed.

Lemma StronglySorted_filter {A} (R : relation A) (P : A → Prop)
    `{!∀ x, Decision (P x)} (l : list A) :
  StronglySorted R l → StronglySorted R (filter P l).
Proof.
  induction 1 as [|x l Hl IH Hx]; [constructor|].
  rewrite filter_cons. case_decide; [|done].
  constructor; [done|].
  apply Forall_forall. intros y [_ Hy]%list_elem_of_filter.
  rewrite Forall_forall in Hx. by apply Hx.
Qed.

(** ** The second invariant along a tick *)

Lemma bien_formado_transfer d e d' e' s s' c :
  TIEMPO_MAX_ESPERA s' = TIEMPO_MAX_ESPERA s →
  num_boxes s' = num_boxes s →
  tiempo_actual s - d ≤ tiempo_actual s' - d' →
  tiempo_actual s' + e' ≤ tiempo_actual s + e →
  bien_formado d e s c → bien_formado d' e' s' c.
Proof.
  unfold bien_formado. intros -> -> Hd He [Hing Hc]. split; [lia|].
  destruct (Cliente.tiempo_inicio_atencion c) as [ti|],
    (Cliente.abandono c); try done.
  - destruct Hc as (? & ? & ? & ? & ? & Hfin). split_and!; try done; [lia|].
    destruct (Cliente.tiempo_fin_atencion c); [lia|done].
  - destruct Hc as (? & ? & ? & ?). split_and!; try done. lia.
  - destruct Hc as (? & ? & ? & ?). split_and!; try done. lia.
Qed.

Lemma marco_inverso s s' r c' :
  marco s s' → objetos s' !! r = Some c' →
  ∃ c, objetos s !! r = Some c ∧ evoluciona c c'.
Proof.
  intros Hm Hc'.
  destruct (lookup_lt_is_Some_2 (objetos s) r) as [c Hc].
  { rewrite <-(marco_objetos _ _ Hm). by eapply lookup_lt_Some. }
  destruct (marco_ingreso _ _ Hm r c Hc) as (c'' & Hc'' & Hev).
  exists c. split; [done|]. congruence.
Qed.

Lemma ingreso_orden_marco s s' :
  marco s s' →
  (∀ r r' c c', (r < r')%nat →
     objetos s !! r = Some c → objetos s !! r' = Some c' →
     Cliente.tiempo_ingreso c < Cliente.tiempo_ingreso c') →
  ∀ r r' c c', (r < r')%nat →
    objetos s' !! r = Some c → objetos s' !! r' = Some c' →
    Cliente.tiempo_ingreso c < Cliente.tiempo_ingreso c'.
Proof.
  intros Hm Hord r r' c c' Hlt Hc Hc'.
  destruct (marco_inverso s s' r c Hm Hc) as (c0 & Hc0 & -> & _).
  destruct (marco_inverso s s' r' c' Hm Hc') as (c0' & Hc0' & -> & _).
  eauto.
Qed.

Lemma registrar_costo te ta e :
  Est.costo_total (registrar_espera te (registrar_atencion ta e))
  = Est.costo_total e.
Proof.
  unfold registrar_espera, registrar_atencion.
  destruct te, ta; try case_decide; done.
Qed.

Lemma resumen_atencion_marco s s' :
  clientes_atendidos s' = clientes_atendidos s →
  (∀ r, r ∈ clientes_atendidos s → objetos s' !! r = objetos s !! r) →
  Est.tiempo_min_atencion (estadisticas s')
  = Est.tiempo_min_atencion (estadisticas s) →
  Est.tiempo_max_atencion (estadisticas s')
  = Est.tiempo_max_atencion (estadisticas s) →
  resumen (Est.tiempo_min_atencion (estadisticas s))
    (Est.tiempo_max_atencion (estadisticas s)) (atenciones s) →
  resumen (Est.tiempo_min_atencion (estadisticas s'))
    (Est.tiempo_max_atencion (estadisticas s')) (atenciones s').
Proof.
  intros Hat Hobj -> ->.
  by destruct (atenciones_esperas_ext s s' Hat Hobj) as [-> _].
Qed.

Lemma resumen_espera_marco s s' :
  clientes_atendidos s' = clientes_atendidos s →
  (∀ r, r ∈ clientes_atendidos s → objetos s' !! r = objetos s !! r) →
  Est.tiempo_min_espera (estadisticas s')
  = Est.tiempo_min_espera (estadisticas s) →
  Est.tiempo_max_espera (estadisticas s')
  = Est.tiempo_max_espera (estadisticas s) →
  resumen (Est.tiempo_min_espera (estadisticas s))
    (Est.tiempo_max_espera (estadisticas s)) (esperas s) →
  resumen (Est.tiempo_min_espera (estadisticas s'))
    (Est.tiempo_max_espera (estadisticas s')) (esperas s').
Proof.
  intros Hat Hobj -> ->.
  by destruct (atenciones_esperas_ext s s' Hat Hobj) as [_ ->].
Qed.

Lemma Inv2___init__ n v s : __init__ n v = Ok s → Inv2 1 0 s.
Proof.
  unfold __init__. case_decide as Hn; [|done]. intros [= <-].
  split; simpl; try done.
  - intros i b Hb. apply list_lookup_fmap_Some in Hb as (z & -> & Hz).
    apply lookup_seqZ in Hz. simpl. lia.
  - rewrite length_fmap, length_seqZ. lia.
  - constructor.
  - apply resumen_nil.
  - apply resumen_nil.
  - by rewrite en_boxes_nuevo.
Qed.

Lemma Inv2_procesar_llegadas U s :
  Inv s → Inv2 1 0 s → Inv2 0 0 (procesar_llegadas U s).
Proof.
  intros HI H2.
  assert (∀ s', tiempo_actual s' = tiempo_actual s →
                TIEMPO_MAX_ESPERA s' = TIEMPO_MAX_ESPERA s →
                num_boxes s' = num_boxes s →
                ∀ c, bien_formado 1 0 s c → bien_formado 0 0 s' c) as Htr.
  { intros s' Ht Hm Hn c. apply bien_formado_transfer; try done; lia. }
  pose proof (λ r, Inv_valido s r HI) as Hval.
  destruct H2 as [Ht Hmax Hids Hnum Hord Hing Hreg Hbox Hat Hes Hcosto Hrnd Hnp].
  unfold procesar_llegadas. case_decide as Hhor.
  2:{ split; try done.
      - intros r c Hc. eapply Htr; eauto.
      - lia. }
  cbn zeta. destruct (Qlt_le_dec _ _) as [Hu|Hu].
  2:{ split; simpl; try done.
      - intros r c Hc. eapply Htr; eauto.
      - lia. }
  assert (∀ r, r ∈ clientes_atendidos s →
               (objetos s
                  ++ [Cliente.nuevo (contador_clientes s) (tiempo_actual s)])
               !! r = objetos s !! r) as Hservidos.
  { intros r Hr. destruct (inv_atendidos s HI r Hr) as (c & Hc & _).
    by rewrite Hc, (lookup_app_l_Some _ _ _ _ Hc). }
  split; try (simpl; done).
  - simpl. apply StronglySorted_app. split_and!; [|done|repeat constructor].
    intros x1 x2 Hx1 ->%list_elem_of_singleton.
    apply Hval. rewrite elem_of_app. by left.
  - simpl. intros r r' c c' Hlt Hc Hc'.
    apply lookup_app_Some in Hc' as [Hc'|[Hlen Hc']].
    + apply lookup_lt_Some in Hc' as Hr'.
      rewrite lookup_app_l in Hc by lia. eauto.
    + apply list_lookup_singleton_Some in Hc' as [Hr' <-]. simpl.
      rewrite lookup_app_l in Hc by lia.
      destruct (Hreg r c Hc) as [? _]. lia.
  - simpl. intros r c Hc. apply lookup_app_Some in Hc as [Hc|[Hlen Hc]].
    + by apply (Htr _ eq_refl eq_refl eq_refl c (Hreg r c Hc)).
    + apply list_lookup_singleton_Some in Hc as [_ <-].
      unfold bien_formado. simpl. split_and!; try done; lia.
  - simpl. intros i b r c Hb Hr Hc.
    pose proof (inv_boxes s HI i b Hb) as Hok. unfold box_ok in Hok.
    destruct (Box.ocupado b); [|destruct Hok; congruence].
    destruct Hok as (r' & fin & c' & Hr' & _ & Hc' & _).
    assert (r' = r) as -> by congruence.
    rewrite (lookup_app_l_Some _ _ _ _ Hc') in Hc. injection Hc as <-.
    by eapply Hbox.
  - by apply (resumen_atencion_marco s).
  - by apply (resumen_espera_marco s).
  - simpl. lia.
Qed.

Lemma Inv2_asignar_box N s i s' :
  Inv s → Inv2 0 0 s → asignar_box N s i = Ok s' → Inv2 0 0 s'.
Proof.
  intros HI H2 Hrun.
  pose proof (marco_asignar_box N s i s' Hrun) as Hmarco.
  destruct (asignar_box_efecto N s i s' Hrun)
    as [[-> _]|(b & r & resto & c & Hb & Hoc & Hq & Hc & ->)]; [done|].
  pose proof (Inv_disjuntos s r HI) as (Hfuera & _).
  destruct Hfuera as (Hr_box & Hr_at & _); [rewrite Hq; by left|].
  destruct (inv_cola s HI r) as (c0 & Hc0 & Hini & Habn & _);
    [rewrite Hq; by left|].
  assert (c0 = c) as -> by congruence.
  pose proof (inv_boxes s HI i b Hb) as Hok. unfold box_ok in Hok.
  rewrite Hoc in Hok. destruct Hok as [Hbcli _].
  assert (r < length (objetos s))%nat as Hr by (by eapply lookup_lt_Some).
  assert (i < length (boxes s))%nat as Hi by (by eapply lookup_lt_Some).
  pose proof H2 as
    [Ht Hmax Hids Hnum Hord Hing Hreg Hbox Hat Hes Hcosto Hrnd Hnp].
  pose proof (Hreg r c Hc) as Hbf. unfold bien_formado in Hbf.
  rewrite Hini, Habn in Hbf.
  destruct Hbf as (Hing_c & Hbox_c & Hfin_c & Hta_c & Hesp_c).
  split; try (simpl; done).
  - simpl. intros j b' Hb'. destruct (decide (i = j)) as [<-|Hne].
    + rewrite list_lookup_insert_eq in Hb' by done. injection Hb' as <-.
      simpl. eauto.
    + rewrite list_lookup_insert_ne in Hb' by done. eauto.
  - simpl. by rewrite length_insert.
  - simpl. rewrite Hq in Hord. by apply StronglySorted_cons in Hord as [_ ?].
  - by apply (ingreso_orden_marco s).
  - simpl. intros r' c' Hc'. destruct (decide (r' = r)) as [->|Hne].
    + rewrite list_lookup_insert_eq in Hc' by done. injection Hc' as <-.
      unfold bien_formado. simpl. rewrite Habn.
      rewrite Hfin_c. split_and!; try done; try lia.
      exists (Box.id b). split; [done|]. rewrite (Hids i b Hb). lia.
    + rewrite list_lookup_insert_ne in Hc' by done.
      apply (bien_formado_transfer 0 0 0 0 s);
        [done|done|simpl; lia|simpl; lia|eauto].
  - simpl. intros j b' r' c' Hb' Hr' Hc'.
    destruct (decide (i = j)) as [<-|Hne].
    + rewrite list_lookup_insert_eq in Hb' by done. injection Hb' as <-.
      simpl in Hr'. injection Hr' as <-.
      rewrite list_lookup_insert_eq in Hc' by done. injection Hc' as <-.
      simpl. rewrite (Hids i b Hb). done.
    + rewrite list_lookup_insert_ne in Hb' by done.
      assert (r' ≠ r) as Hrr.
      { intros ->. apply Hr_box. by eapply elem_of_en_boxes. }
      rewrite list_lookup_insert_ne in Hc' by done. eauto.
  - apply (resumen_atencion_marco s); try done.
    intros r' Hr'. simpl. rewrite list_lookup_insert_ne; [done|].
    by intros <-.
  - apply (resumen_espera_marco s); try done.
    intros r' Hr'. simpl. rewrite list_lookup_insert_ne; [done|].
    by intros <-.
  - simpl.
    pose proof (en_boxes_ocupar (boxes s) i b
                  (Box.mk (Box.id b) true (Some r)
                     (Some (tiempo_actual s
                            + (generar_tiempo_atencion N s).1)))
                  r Hb Hbcli eq_refl) as Hp.
    apply Permutation_length in Hp. simpl in Hp. rewrite Hp, Hnp. lia.
Qed.

Lemma Inv2_finalizar_box s i s' :
  Inv s → Inv2 0 0 s → finalizar_box s i = Ok s' → Inv2 0 0 s'.
Proof.
  intros HI H2 Hrun.
  pose proof (marco_finalizar_box s i s' Hrun) as Hmarco.
  destruct (finalizar_box_efecto s i s' Hrun)
    as [->|(b & r & fin & c & Hb & Hoc & Hfin & Hdue & Hbcli & Hc & ->)];
    [done|].
  pose proof (Inv_NoDup s HI) as Hnd.
  apply NoDup_app in Hnd as (_ & _ & Hnd).
  apply NoDup_app in Hnd as (Hnd_boxes & _ & _).
  assert (r ∈ en_boxes (boxes s)) as Hr_box by (by eapply elem_of_en_boxes).
  pose proof (Inv_disjuntos s r HI) as (_ & Hfuera & _).
  destruct (Hfuera Hr_box) as [Hr_at _].
  pose proof (inv_boxes s HI i b Hb) as Hok. unfold box_ok in Hok.
  rewrite Hoc in Hok.
  destruct Hok as (r0 & fin0 & c0 & Hr0 & Hfin0 & Hc0 & ti & Hini & Hdur & Habn).
  assert (r0 = r) as -> by congruence.
  assert (fin0 = fin) as -> by congruence.
  assert (c0 = c) as -> by congruence.
  assert (r < length (objetos s))%nat as Hr by (by eapply lookup_lt_Some).
  assert (i < length (boxes s))%nat as Hi by (by eapply lookup_lt_Some).
  pose proof H2 as
    [Ht Hmax Hids Hnum Hord Hing Hreg Hbox Hat Hes Hcosto Hrnd Hnp].
  pose proof (Hreg r c Hc) as Hbf. unfold bien_formado in Hbf.
  rewrite Hini, Habn in Hbf.
  destruct Hbf as (Hing_c & Hti1 & Hti2 & Hti3 & Hta_c & Hk & _).
  assert (∀ r', r' ∈ clientes_atendidos s →
                <[r := Cliente.set_tiempo_fin_atencion
                         (Some (tiempo_actual s)) c]> (objetos s) !! r'
                = objetos s !! r') as Hservidos.
  { intros r' Hr'. rewrite list_lookup_insert_ne; [done|]. by intros <-. }
  assert (Cliente.tiempo_atencion
            (Cliente.set_tiempo_fin_atencion (Some (tiempo_actual s)) c)
          = Some (tiempo_actual s - ti)) as Hta.
  { unfold Cliente.tiempo_atencion. simpl. by rewrite Hini. }
  assert (Cliente.tiempo_espera
            (Cliente.set_tiempo_fin_atencion (Some (tiempo_actual s)) c)
          = Some (ti - Cliente.tiempo_ingreso c)) as Hte.
  { unfold Cliente.tiempo_espera. simpl. by rewrite Hini. }
  split; try (simpl; done).
  - simpl. intros j b' Hb'. destruct (decide (i = j)) as [<-|Hne].
    + rewrite list_lookup_insert_eq in Hb' by done. injection Hb' as <-.
      simpl. eauto.
    + rewrite list_lookup_insert_ne in Hb' by done. eauto.
  - simpl. by rewrite length_insert.
  - by apply (ingreso_orden_marco s).
  - simpl. intros r' c' Hc'. destruct (decide (r' = r)) as [->|Hne].
    + rewrite list_lookup_insert_eq in Hc' by done. injection Hc' as <-.
      unfold bien_formado. simpl. rewrite Hini, Habn.
      split_and!; try done; lia.
    + rewrite list_lookup_insert_ne in Hc' by done.
      apply (bien_formado_transfer 0 0 0 0 s);
        [done|done|simpl; lia|simpl; lia|eauto].
  - simpl. intros j b' r' c' Hb' Hr' Hc'.
    destruct (decide (i = j)) as [<-|Hne].
    + rewrite list_lookup_insert_eq in Hb' by done. by injection Hb' as <-.
    + rewrite list_lookup_insert_ne in Hb' by done.
      assert (r' ≠ r) as Hrr.
      { intros ->.
        by eapply (en_boxes_NoDup_distintos (boxes s) i j b b' r). }
      rewrite list_lookup_insert_ne in Hc' by done. eauto.
  - unfold atenciones. simpl. rewrite omap_app. simpl.
    rewrite list_lookup_insert_eq by done. simpl. rewrite Hta.
    rewrite (omap_ext_in _ (λ r, objetos s !! r ≫= Cliente.tiempo_atencion))
      by (intros r' Hr'; by rewrite Hservidos).
    rewrite Hte. unfold registrar_espera, registrar_atencion.
    rewrite decide_False by lia. simpl.
    apply resumen_snoc; [done|lia].
  - unfold esperas. simpl. rewrite omap_app. simpl.
    rewrite list_lookup_insert_eq by done. simpl. rewrite Hte.
    rewrite (omap_ext_in _ (λ r, objetos s !! r ≫= Cliente.tiempo_espera))
      by (intros r' Hr'; by rewrite Hservidos).
    rewrite Hta. unfold registrar_espera, registrar_atencion.
    rewrite decide_False by lia. simpl.
    apply resumen_snoc; [done|lia].
  - simpl. by rewrite registrar_costo.
  - simpl. rewrite length_app. simpl.
    pose proof (en_boxes_liberar (boxes s) i b
                  (Box.mk (Box.id b) false None None) r Hb Hbcli eq_refl) as Hp.
    apply Permutation_length in Hp. simpl in Hp. rewrite Hnp. lia.
Qed.

Lemma Inv2_asignar_clientes_a_boxes N s s' :
  Inv s → Inv2 0 0 s → asignar_clientes_a_boxes N s = Ok s' →
  Inv s' ∧ Inv2 0 0 s'.
Proof.
  intros HI H2 Hrun. unfold asignar_clientes_a_boxes in Hrun.
  pose proof (for_each_seq_rel
                (λ _ s1, Inv s1 ∧ Inv2 0 0 s1
                         ∧ length (boxes s1) = length (boxes s))
                (asignar_box N) (length (boxes s)) 0 s s' Hrun) as Hloop.
  destruct Hloop as (? & ? & _); [done| |done].
  intros k s1 s2 Hk (HI1 & H21 & Hlen) Hpaso.
  destruct (Inv_asignar_box N s1 k HI1) as (s2' & Hs2' & HI2); [lia|].
  assert (s2' = s2) as -> by congruence.
  split; [done|]. split; [exact (Inv2_asignar_box N s1 k s2 HI1 H21 Hpaso)|].
  by rewrite (marco_boxes _ _ (marco_asignar_box N s1 k s2 Hpaso)).
Qed.

Lemma Inv2_procesar_finalizacion_atencion s s' :
  Inv s → Inv2 0 0 s → procesar_finalizacion_atencion s = Ok s' →
  Inv s' ∧ Inv2 0 0 s'.
Proof.
  intros HI H2 Hrun. unfold procesar_finalizacion_atencion in Hrun.
  pose proof (for_each_seq_rel
                (λ _ s1, Inv s1 ∧ Inv2 0 0 s1
                         ∧ length (boxes s1) = length (boxes s))
                finalizar_box (length (boxes s)) 0 s s' Hrun) as Hloop.
  destruct Hloop as (? & ? & _); [done| |done].
  intros k s1 s2 Hk (HI1 & H21 & Hlen) Hpaso.
  destruct (Inv_finalizar_box s1 k HI1) as (s2' & Hs2' & HI2); [lia|].
  assert (s2' = s2) as -> by congruence.
  split; [done|]. split; [exact (Inv2_finalizar_box s1 k s2 HI1 H21 Hpaso)|].
  by rewrite (marco_boxes _ _ (marco_finalizar_box s1 k s2 Hpaso)).
Qed.

Lemma ajeno_procesar_abandonos s s' :
  procesar_abandonos s = Ok s' → ajeno_al_abandono s' = ajeno_al_abandono s.
Proof.
  unfold procesar_abandonos. intros ([s1 rem] & H1 & H2)%bind_Ok.
  transitivity (ajeno_al_abandono s1).
  - eapply (for_each_rel (λ t t', ajeno_al_abandono t' = ajeno_al_abandono t));
      [done|congruence| |exact H2].
    intros t x t'. unfold remover_de_cola.
    by intros (q & _ & [= <-])%bind_Ok.
  - eapply (for_each_rel
              (λ t t', ajeno_al_abandono t'.1 = ajeno_al_abandono t.1)) in H1;
      [exact H1|done|congruence|].
    intros [t rem0] x [t' rem']. unfold marcar_abandono.
    intros (c & _ & H)%bind_Ok. case_decide; [|by injection H as <- <-].
    apply bind_Ok in H as (t1 & (c1 & _ & ->)%modificar_Ok & H).
    apply bind_Ok in H as (t2 & (c2 & _ & ->)%modificar_Ok & H).
    by injection H as <- <-.
Qed.

Lemma Inv2_procesar_abandonos s s' :
  Inv s → Inv2 0 0 s → procesar_abandonos s = Ok s' → Inv2 0 1 s'.
Proof.
  intros HI H2 Hrun.
  destruct (procesar_abandonos_spec s HI)
    as (s'' & Hrun' & HI' & Hq & Hab & Hbs & Hobj).
  assert (s'' = s') as -> by congruence.
  pose proof (marco_procesar_abandonos s s' Hrun) as Hmarco.
  pose proof (ajeno_procesar_abandonos s s' Hrun) as Haj.
  unfold ajeno_al_abandono in Haj.
  injection Haj as Hat _ Hnp _ _ Hmin_at Hmax_at Hmin_es Hmax_es Hcosto.
  pose proof (marco_config _ _ Hmarco) as Hcfg. unfold config in Hcfg.
  injection Hcfg as Hnb HD _ Hmax _ _ _ _.
  pose proof (marco_tiempo _ _ Hmarco) as Ht.
  pose proof H2 as
    [Ht0 Hmax0 Hids Hnum Hord Hing Hreg Hbox Hres_at Hres_es Hcosto0 Hrnd Hnp0].
  assert (∀ r c, r ∉ cola s → objetos s !! r = Some c →
                 objetos s' !! r = Some c) as Hmismo.
  { intros r c Hr Hc. rewrite Hobj, decide_False; [done|].
    by intros [_ ?]%list_elem_of_filter. }
  split.
  - by rewrite Ht.
  - by rewrite Hmax.
  - by rewrite Hbs.
  - by rewrite Hbs, Hnb.
  - rewrite Hq. by apply StronglySorted_filter.
  - by apply (ingreso_orden_marco s).
  - intros r c' Hc'. rewrite Hobj in Hc'. case_decide as Hven.
    + apply list_elem_of_filter in Hven as [Hven Hr].
      destruct (inv_cola s HI r Hr) as (c & Hc & Hini & Habn & _).
      rewrite Hc in Hc'. injection Hc' as <-.
      unfold vencido in Hven. rewrite Hc in Hven.
      pose proof (Hreg r c Hc) as Hbf. unfold bien_formado in Hbf |- *.
      rewrite Hini, Habn in Hbf. simpl. rewrite Hini, Ht, Hmax.
      destruct Hbf as (? & ? & ? & ? & ?).
      split_and!; try done; try lia. f_equal. lia.
    + pose proof (Hreg r c' Hc') as Hbf.
      assert (bien_formado 0 0 s' c') as Hbf'.
      { apply (bien_formado_transfer 0 0 0 0 s); [done|done|lia|lia|done]. }
      unfold bien_formado in Hbf' |- *.
      destruct Hbf' as [Hing' Hcaso]. split; [done|].
      destruct (Cliente.tiempo_inicio_atencion c') as [ti|] eqn:Hini,
        (Cliente.abandono c') eqn:Habn; try done.
      destruct Hcaso as (? & ? & ? & _). split_and!; try done.
      assert (r ∈ cola s) as Hr.
      { destruct (Inv_clasificacion s r c' HI Hc')
          as [[Hr _]|[[_ (fin & ti & Hi & _)]
             |[[_ (ti & tf & Hi & _)]|[_ (_ & Ha & _)]]]];
          [done|congruence..]. }
      assert (¬ vencido s r) as Hnv.
      { intros Hv. apply Hven. by apply list_elem_of_filter. }
      unfold vencido in Hnv. rewrite Hc' in Hnv. rewrite Ht, Hmax. lia.
  - rewrite Hbs. intros i b r c' Hb Hr Hc'.
    pose proof (inv_boxes s HI i b Hb) as Hok. unfold box_ok in Hok.
    destruct (Box.ocupado b); [|destruct Hok; congruence].
    destruct Hok as (r0 & fin & c & Hr0 & _ & Hc & _).
    assert (r0 = r) as -> by congruence.
    assert (r ∉ cola s) as Hfuera.
    { intros Hq'. destruct (proj1 (Inv_disjuntos s r HI) Hq') as (Hno & _).
      apply Hno. by eapply elem_of_en_boxes. }
    rewrite (Hmismo r c Hfuera Hc) in Hc'. injection Hc' as <-.
    by eapply Hbox.
  - apply (resumen_atencion_marco s); try done.
    intros r Hr. destruct (inv_atendidos s HI r Hr) as (c & Hc & _).
    rewrite Hc. apply Hmismo; [|done].
    intros Hq'. by destruct (proj1 (Inv_disjuntos s r HI) Hq') as (_ & ? & _).
  - apply (resumen_espera_marco s); try done.
    intros r Hr. destruct (inv_atendidos s HI r Hr) as (c & Hc & _).
    rewrite Hc. apply Hmismo; [|done].
    intros Hq'. by destruct (proj1 (Inv_disjuntos s r HI) Hq') as (_ & ? & _).
  - by rewrite Hcosto.
  - rewrite (marco_random _ _ Hmarco), Ht, HD. done.
  - by rewrite Hnp, Hbs, Hat.
Qed.

Lemma Inv2_set_tiempo_actual s :
  Inv2 0 1 s → Inv2 1 0 (set_tiempo_actual (tiempo_actual s + 1) s).
Proof.
  intros [Ht Hmax Hids Hnum Hord Hing Hreg Hbox Hat Hes Hcosto Hrnd Hnp].
  split; try (simpl; done).
  - simpl. lia.
  - simpl. intros r c Hc.
    apply (bien_formado_transfer 0 1 1 0 s); [done|done|simpl; lia..|eauto].
  - simpl. rewrite Hrnd. f_equal. lia.
Qed.

Lemma simular_paso_Inv2 U N s s' :
  Inv s → Inv2 1 0 s → simular_paso U N s = Ok s' → Inv2 1 0 s'.
Proof.
  intros HI H2 (s2 & s3 & s4 & Hs2 & Hs3 & Hs4 & ->)%simular_paso_Ok.
  pose proof (Inv_procesar_llegadas U s HI) as HI1.
  pose proof (Inv2_procesar_llegadas U s HI H2) as H21.
  destruct (Inv2_asignar_clientes_a_boxes N _ s2 HI1 H21 Hs2) as [HI2 H22].
  destruct (Inv2_procesar_finalizacion_atencion s2 s3 HI2 H22 Hs3)
    as [HI3 H23].
  apply Inv2_set_tiempo_actual. by apply (Inv2_procesar_abandonos s3).
Qed.

Lemma alcanzable_Inv2 U N s : alcanzable U N s → Inv2 1 0 s.
Proof.
  induction 1 as [n v s Hinit|s s' Halc IH Hpaso].
  - by eapply Inv2___init__.
  - eapply simular_paso_Inv2; [|exact IH|exact Hpaso].
    by eapply alcanzable_Inv.
Qed.

(** The stages of a tick keep both invariants. *)
Lemma simular_paso_etapas U N s :
  Inv s → Inv2 1 0 s →
  ∃ s2 s3 s4,
    asignar_clientes_a_boxes N (procesar_llegadas U s) = Ok s2
    ∧ procesar_finalizacion_atencion s2 = Ok s3
    ∧ procesar_abandonos s3 = Ok s4
    ∧ simular_paso U N s = Ok (set_tiempo_actual (tiempo_actual s4 + 1) s4)
    ∧ (Inv (procesar_llegadas U s) ∧ Inv2 0 0 (procesar_llegadas U s))
    ∧ (Inv s2 ∧ Inv2 0 0 s2)
    ∧ (Inv s3 ∧ Inv2 0 0 s3)
    ∧ (Inv s4 ∧ Inv2 0 1 s4).
Proof.
  intros HI H2.
  destruct (simular_paso_Inv U N s HI)
    as (s2 & s3 & s4 & Hs2 & Hs3 & Hs4 & Hs' & HI1 & HI2 & HI3 & HI4).
  pose proof (Inv2_procesar_llegadas U s HI H2) as H21.
  destruct (Inv2_asignar_clientes_a_boxes N _ s2 HI1 H21 Hs2) as [_ H22].
  destruct (Inv2_procesar_finalizacion_atencion s2 s3 HI2 H22 Hs3)
    as [_ H23].
  pose proof (Inv2_procesar_abandonos s3 s4 HI3 H23 Hs4) as H24.
  exists s2, s3, s4. split_and!; done.
Qed.

(** ** Queue order and arrival stamps *)

Lemma StronglySorted_lookup_lt {A} (R : relation A) (l : list A) i j x y :
  StronglySorted R l → (i < j)%nat →
  l !! i = Some x → l !! j = Some y → R x y.
Proof.
  intros Hs. revert i j. induction Hs as [|z l Hl IH Hz]; intros i j Hij Hx Hy.
  - done.
  - destruct j as [|j]; [lia|]. simpl in Hy. destruct i as [|i].
    + simpl in Hx. injection Hx as ->.
      rewrite Forall_forall in Hz. apply Hz.
      by eapply list_elem_of_lookup_2.
    + simpl in Hx. apply (IH i j); [lia|done..].
Qed.

(** The queue holds the customers in the order they arrived: identifiers
    and arrival ticks strictly increase from head to tail. *)
Theorem cola_en_orden_de_llegada U N s :
  alcanzable U N s →
  ∀ i j ri rj,
    (i < j)%nat → cola s !! i = Some ri → cola s !! j = Some rj →
    (ri < rj)%nat
    ∧ ∃ ci cj,
        objetos s !! ri = Some ci ∧ objetos s !! rj = Some cj
        ∧ Cliente.id ci < Cliente.id cj
        ∧ Cliente.tiempo_ingreso ci < Cliente.tiempo_ingreso cj.
Proof.
  intros Halc i j ri rj Hij Hi Hj.
  pose proof (alcanzable_Inv _ _ _ Halc) as HI.
  pose proof (alcanzable_Inv2 _ _ _ Halc) as H2.
  assert (ri < rj)%nat as Hlt.
  { by apply (StronglySorted_lookup_lt lt (cola s) i j ri rj
                (i2_cola_orden _ _ _ H2)). }
  split; [done|].
  destruct (inv_cola s HI ri) as (ci & Hci & _);
    [by eapply list_elem_of_lookup_2|].
  destruct (inv_cola s HI rj) as (cj & Hcj & _);
    [by eapply list_elem_of_lookup_2|].
  exists ci, cj. split_and!; try done.
  - rewrite (inv_ids s HI ri ci Hci), (inv_ids s HI rj cj Hcj). lia.
  - by apply (i2_ingreso_orden _ _ _ H2 ri rj).
Qed.

Lemma cola_en_orden_de_llegada_witness :
  ∃ s0 s,
    __init__ 1 1 = Ok s0
    ∧ pasos (llegan 4) (atencion_fija 600) 10 s0 = Ok s
    ∧ cola s = [1%nat; 2%nat; 3%nat]
    ∧ ∀ i j ri rj,
        (i < j)%nat → cola s !! i = Some ri → cola s !! j = Some rj →
        (ri < rj)%nat
        ∧ ∃ ci cj,
            objetos s !! ri = Some ci ∧ objetos s !! rj = Some cj
            ∧ Cliente.id ci < Cliente.id cj
            ∧ Cliente.tiempo_ingreso ci < Cliente.tiempo_ingreso cj.
Proof.
  eexists _, _. split; [reflexivity|]. split; [vm_compute; reflexivity|].
  split; [reflexivity|].
  apply (cola_en_orden_de_llegada (llegan 4) (atencion_fija 600)).
  eapply (alcanzable_pasos (llegan 4) (atencion_fija 600) 10);
    [eapply (alcanzable_init _ _ 1 1); reflexivity|vm_compute; reflexivity].
Defined.

Lemma alcanzable_ingreso_horizonte U N s :
  alcanzable U N s →
  ∀ r c, objetos s !! r = Some c →
    Cliente.tiempo_ingreso c < DURACION_SIMULACION s.
Proof.
  induction 1 as [n v s Hinit|s s' Halc IH Hpaso].
  - unfold __init__ in Hinit. case_decide; [|done]. by injection Hinit as <-.
  - intros r c' Hc'.
    destruct (simular_paso_marco U N s s' Hpaso) as (s4 & Hm & ->).
    simpl in *.
    destruct (marco_inverso _ _ r c' Hm Hc') as (c & Hc & -> & _).
    pose proof (marco_config _ _ Hm) as Hcfg.
    rewrite config_procesar_llegadas in Hcfg. unfold config in Hcfg.
    injection Hcfg as _ -> _ _ _ _ _ _.
    destruct (procesar_llegadas_spec U s)
      as (_ & _ & _ & _ & _ & [(_ & _ & Ho & _)|(Ht & _ & _ & Ho & _)]);
      rewrite Ho in Hc; [eauto|].
    apply lookup_app_Some in Hc as [Hc|[_ Hc]]; [eauto|].
    apply list_lookup_singleton_Some in Hc as [_ <-]. done.
Qed.

Lemma ingreso_al_menos_indice (objs : list Cliente.t) :
  (∀ r c, objs !! r = Some c → 0 ≤ Cliente.tiempo_ingreso c) →
  (∀ r r' c c', (r < r')%nat → objs !! r = Some c → objs !! r' = Some c' →
     Cliente.tiempo_ingreso c < Cliente.tiempo_ingreso c') →
  ∀ r c, objs !! r = Some c → Z.of_nat r ≤ Cliente.tiempo_ingreso c.
Proof.
  intros Hpos Hord r. induction r as [|r IH]; intros c Hc.
  - by eapply Hpos.
  - destruct (lookup_lt_is_Some_2 objs r) as [c0 Hc0].
    { apply lookup_lt_Some in Hc. lia. }
    specialize (IH c0 Hc0).
    specialize (Hord r (S r) c0 c ltac:(lia) Hc0 Hc). lia.
Qed.

(** At most one customer arrives per tick: arrival ticks strictly
    increase with the identifier, every arrival is before both the clock
    and the horizon, and the number of customers never exceeds the number
    of ticks elapsed nor the 14400 ticks of the horizon. *)
Theorem una_llegada_por_tick U N s :
  alcanzable U N s →
  (∀ r r' c c',
     (r < r')%nat → objetos s !! r = Some c → objetos s !! r' = Some c' →
     Cliente.tiempo_ingreso c < Cliente.tiempo_ingreso c')
  ∧ (∀ r c, objetos s !! r = Some c →
       0 ≤ Cliente.tiempo_ingreso c < Z.min (tiempo_actual s) 14400)
  ∧ contador_clientes s ≤ Z.min (tiempo_actual s) 14400
  ∧ Est.clientes_ingresados (estadisticas s) = contador_clientes s.
Proof.
  intros Halc.
  pose proof (alcanzable_Inv _ _ _ Halc) as HI.
  pose proof (alcanzable_Inv2 _ _ _ Halc) as H2.
  pose proof (alcanzable_ingreso_horizonte _ _ _ Halc) as Hhor.
  pose proof (alcanzable_config _ _ _ Halc) as Hcfg.
  unfold config, config_inicial in Hcfg. injection Hcfg as HD _ _ _ _ _.
  rewrite HD in Hhor.
  assert (∀ r c, objetos s !! r = Some c →
            0 ≤ Cliente.tiempo_ingreso c < Z.min (tiempo_actual s) 14400)
    as Hrango.
  { intros r c Hc. destruct (i2_registro _ _ _ H2 r c Hc) as [? _].
    specialize (Hhor r c Hc). lia. }
  split; [apply (i2_ingreso_orden _ _ _ H2)|]. split; [done|].
  split.
  - rewrite (inv_contador s HI).
    destruct (decide (length (objetos s) = 0%nat)) as [Hz|Hnz].
    + rewrite Hz. pose proof (i2_tiempo _ _ _ H2). simpl. lia.
    + destruct (lookup_lt_is_Some_2 (objetos s) (length (objetos s) - 1))
        as [c0 Hc0]; [lia|].
      pose proof (ingreso_al_menos_indice (objetos s)
                    (λ r c Hc, proj1 (Hrango r c Hc))
                    (i2_ingreso_orden _ _ _ H2) _ _ Hc0) as Hidx.
      specialize (Hrango _ _ Hc0). lia.
  - rewrite (inv_est_ingresados s HI), (inv_contador s HI),
      (inv_ingresados s HI). by rewrite length_seq.
Qed.

Lemma una_llegada_por_tick_witness :
  ∃ s0 s,
    __init__ 1 1 = Ok s0
    ∧ pasos (llegan 4) (atencion_fija 600) 10 s0 = Ok s
    ∧ contador_clientes s = 4
    ∧ (∀ r r' c c',
         (r < r')%nat → objetos s !! r = Some c → objetos s !! r' = Some c' →
         Cliente.tiempo_ingreso c < Cliente.tiempo_ingreso c')
    ∧ (∀ r c, objetos s !! r = Some c →
         0 ≤ Cliente.tiempo_ingreso c < Z.min (tiempo_actual s) 14400)
    ∧ contador_clientes s ≤ Z.min (tiempo_actual s) 14400
    ∧ Est.clientes_ingresados (estadisticas s) = contador_clientes s.
Proof.
  eexists _, _. split; [reflexivity|]. split; [vm_compute; reflexivity|].
  split; [reflexivity|].
  apply (una_llegada_por_tick (llegan 4) (atencion_fija 600)).
  eapply (alcanzable_pasos (llegan 4) (atencion_fija 600) 10);
    [eapply (alcanzable_init _ _ 1 1); reflexivity|vm_compute; reflexivity].
Defined.

(** ** Boxes and the customers they hold *)

Lemma alcanzable_num_boxes U N s : alcanzable U N s → 1 ≤ num_boxes s ≤ 10.
Proof.
  induction 1 as [n v s Hinit|s s' Halc IH Hpaso].
  - unfold __init__ in Hinit. case_decide; [|done]. injection Hinit as <-.
    simpl. lia.
  - pose proof (config_simular_paso U N s s' Hpaso) as Hcfg.
    unfold config in Hcfg. by injection Hcfg as -> _ _ _ _ _ _ _.
Qed.

(** The boxes created by the constructor are never added, removed or
    renumbered: there are [num_boxes] of them, between 1 and 10, and the
    box at position [i] has [id = i]. *)
Theorem boxes_fijos U N s :
  alcanzable U N s →
  1 ≤ num_boxes s ≤ 10
  ∧ Z.of_nat (length (boxes s)) = num_boxes s
  ∧ Box.id <$> boxes s = seqZ 0 (num_boxes s)
  ∧ (boxes_ocupados s ≤ length (boxes s))%nat.
Proof.
  intros Halc. pose proof (alcanzable_Inv2 _ _ _ Halc) as H2.
  pose proof (alcanzable_num_boxes _ _ _ Halc) as Hn.
  pose proof (i2_num_boxes _ _ _ H2) as Hlen.
  split; [done|]. split; [done|]. split.
  - apply list_eq. intros i. rewrite list_lookup_fmap.
    destruct (boxes s !! i) as [b|] eqn:Hb; simpl.
    + rewrite (i2_box_ids _ _ _ H2 i b Hb). symmetry.
      apply lookup_seqZ. split; [lia|].
      apply lookup_lt_Some in Hb. lia.
    + symmetry. apply lookup_seqZ_ge. apply lookup_ge_None in Hb. lia.
  - unfold boxes_ocupados. apply length_filter.
Qed.

Lemma boxes_fijos_witness :
  ∃ s0 s,
    __init__ 3 1 = Ok s0
    ∧ pasos (llegan 5) (atencion_fija 60) 70 s0 = Ok s
    ∧ 1 ≤ num_boxes s ≤ 10
    ∧ Z.of_nat (length (boxes s)) = num_boxes s
    ∧ Box.id <$> boxes s = seqZ 0 (num_boxes s)
    ∧ (boxes_ocupados s ≤ length (boxes s))%nat.
Proof.
  eexists _, _. split; [reflexivity|]. split; [vm_compute; reflexivity|].
  apply (boxes_fijos (llegan 5) (atencion_fija 60)).
  eapply (alcanzable_pasos (llegan 5) (atencion_fija 60) 70);
    [eapply (alcanzable_init _ _ 3 1); reflexivity|vm_compute; reflexivity].
Defined.

(** [box_asignado] is set exactly when service started, always names an
    existing box, and while the customer is being served it names the box
    that holds it; that customer has no end-of-service stamp yet. *)
Theorem box_asignado_coherente U N s :
  alcanzable U N s →
  (∀ r c, objetos s !! r = Some c →
     (is_Some (Cliente.box_asignado c)
      ↔ is_Some (Cliente.tiempo_inicio_atencion c))
     ∧ ∀ k, Cliente.box_asignado c = Some k → 0 ≤ k < num_boxes s)
  ∧ (∀ i b r,
       boxes s !! i = Some b → Box.cliente_actual b = Some r →
       Box.ocupado b = true
       ∧ ∃ c ti fin,
           objetos s !! r = Some c
           ∧ Cliente.box_asignado c = Some (Box.id b)
           ∧ Cliente.tiempo_inicio_atencion c = Some ti
           ∧ Cliente.tiempo_fin_atencion c = None
           ∧ Box.tiempo_fin_atencion b = Some fin
           ∧ ti + 60 ≤ fin).
Proof.
  intros Halc.
  pose proof (alcanzable_Inv _ _ _ Halc) as HI.
  pose proof (alcanzable_Inv2 _ _ _ Halc) as H2.
  split.
  - intros r c Hc. pose proof (i2_registro _ _ _ H2 r c Hc) as [_ Hbf].
    destruct (Cliente.tiempo_inicio_atencion c) as [ti|],
      (Cliente.abandono c); try done.
    + destruct Hbf as (_ & _ & _ & _ & (k & Hk & ?) & _). rewrite Hk.
      split; [split; eauto|]. by intros k' [= <-].
    + destruct Hbf as (_ & _ & -> & _).
      split; [split; intros [? [=]]|]. done.
    + destruct Hbf as (-> & _).
      split; [split; intros [? [=]]|]. done.
  - intros i b r Hb Hr.
    pose proof (inv_boxes s HI i b Hb) as Hok. unfold box_ok in Hok.
    destruct (Box.ocupado b); [|destruct Hok; congruence].
    destruct Hok as (r0 & fin & c & Hr0 & Hfin & Hc & ti & Hini & Hdur & _).
    assert (r0 = r) as -> by congruence.
    destruct (i2_box_cliente _ _ _ H2 i b r c Hb Hr Hc) as [Hbox Hnofin].
    split; [done|]. exists c, ti, fin.
    rewrite (i2_box_ids _ _ _ H2 i b Hb). by split_and!.
Qed.

Lemma box_asignado_coherente_witness :
  ∃ s0 s,
    __init__ 3 1 = Ok s0
    ∧ pasos (llegan 5) (atencion_fija 60) 70 s0 = Ok s
    ∧ (∀ r c, objetos s !! r = Some c →
         (is_Some (Cliente.box_asignado c)
          ↔ is_Some (Cliente.tiempo_inicio_atencion c))
         ∧ ∀ k, Cliente.box_asignado c = Some k → 0 ≤ k < num_boxes s)
    ∧ (∀ i b r,
         boxes s !! i = Some b → Box.cliente_actual b = Some r →
         Box.ocupado b = true
         ∧ ∃ c ti fin,
             objetos s !! r = Some c
             ∧ Cliente.box_asignado c = Some (Box.id b)
             ∧ Cliente.tiempo_inicio_atencion c = Some ti
             ∧ Cliente.tiempo_fin_atencion c = None
             ∧ Box.tiempo_fin_atencion b = Some fin
             ∧ ti + 60 ≤ fin).
Proof.
  eexists _, _. split; [reflexivity|]. split; [vm_compute; reflexivity|].
  apply (box_asignado_coherente (llegan 5) (atencion_fija 60)).
  eapply (alcanzable_pasos (llegan 5) (atencion_fija 60) 70);
    [eapply (alcanzable_init _ _ 3 1); reflexivity|vm_compute; reflexivity].
Defined.

(** ** Waiting times *)

(** Nobody waits longer than the threshold: a customer whose service has
    started waited between 0 and 1800 seconds, and a customer still in
    the queue has been there for at most 1800 seconds. *)
Theorem espera_acotada U N s :
  alcanzable U N s →
  (∀ r c ti,
     objetos s !! r = Some c → Cliente.tiempo_inicio_atencion c = Some ti →
     Cliente.tiempo_espera c = Some (ti - Cliente.tiempo_ingreso c)
     ∧ 0 ≤ ti - Cliente.tiempo_ingreso c ≤ 1800
     ∧ ti < tiempo_actual s)
  ∧ (∀ r, r ∈ cola s →
       ∃ c, objetos s !! r = Some c
            ∧ Cliente.tiempo_espera c = None
            ∧ 0 < tiempo_actual s - Cliente.tiempo_ingreso c ≤ 1800).
Proof.
  intros Halc.
  pose proof (alcanzable_Inv _ _ _ Halc) as HI.
  pose proof (alcanzable_Inv2 _ _ _ Halc) as H2.
  pose proof (alcanzable_config _ _ _ Halc) as Hcfg.
  unfold config, config_inicial in Hcfg. injection Hcfg as _ _ Hmax _ _ _ _.
  split.
  - intros r c ti Hc Hini.
    pose proof (i2_registro _ _ _ H2 r c Hc) as [_ Hbf].
    unfold Cliente.tiempo_espera. rewrite Hini in Hbf |- *.
    destruct (Cliente.abandono c); [done|]. rewrite Hmax in Hbf.
    destruct Hbf as (? & ? & ? & _). split_and!; try done; lia.
  - intros r Hr. destruct (inv_cola s HI r Hr) as (c & Hc & Hini & Habn & _).
    pose proof (i2_registro _ _ _ H2 r c Hc) as [Hing Hbf].
    exists c. unfold Cliente.tiempo_espera. rewrite Hini, Habn in Hbf |- *.
    rewrite Hmax in Hbf. destruct Hbf as (_ & _ & _ & ?).
    split_and!; try done; lia.
Qed.

Lemma espera_acotada_witness :
  ∃ s0 s,
    __init__ 1 1 = Ok s0
    ∧ pasos (llegan 3) (atencion_fija 1800) 1805 s0 = Ok s
    ∧ Cliente.tiempo_espera <$> objetos s = [Some 0; Some 1800; Some 1800]
    ∧ Cliente.abandono <$> objetos s = [false; false; true]
    ∧ (∀ r c ti,
         objetos s !! r = Some c →
         Cliente.tiempo_inicio_atencion c = Some ti →
         Cliente.tiempo_espera c = Some (ti - Cliente.tiempo_ingreso c)
         ∧ 0 ≤ ti - Cliente.tiempo_ingreso c ≤ 1800
         ∧ ti < tiempo_actual s)
    ∧ (∀ r, r ∈ cola s →
         ∃ c, objetos s !! r = Some c
              ∧ Cliente.tiempo_espera c = None
              ∧ 0 < tiempo_actual s - Cliente.tiempo_ingreso c ≤ 1800).
Proof.
  eexists _, _. split; [reflexivity|]. split; [vm_compute; reflexivity|].
  split; [reflexivity|]. split; [reflexivity|].
  apply (espera_acotada (llegan 3) (atencion_fija 1800)).
  eapply (alcanzable_pasos (llegan 3) (atencion_fija 1800) 1805);
    [eapply (alcanzable_init _ _ 1 1); reflexivity|vm_compute; reflexivity].
Defined.

(** A customer abandons exactly 1800 seconds after arriving, never later:
    its abandonment stamp is [tiempo_ingreso + 1800], its waiting time
    reads 1800, and it has neither a box nor any service stamp. *)
Theorem abandono_exacto U N s :
  alcanzable U N s →
  ∀ r c,
    objetos s !! r = Some c → Cliente.abandono c = true →
    r ∈ clientes_abandonaron s
    ∧ Cliente.tiempo_abandono c = Some (Cliente.tiempo_ingreso c + 1800)
    ∧ Cliente.tiempo_espera c = Some 1800
    ∧ Cliente.tiempo_atencion c = None
    ∧ Cliente.box_asignado c = None
    ∧ Cliente.tiempo_ingreso c + 1800 < tiempo_actual s.
Proof.
  intros Halc r c Hc Habn.
  pose proof (alcanzable_Inv _ _ _ Halc) as HI.
  pose proof (alcanzable_Inv2 _ _ _ Halc) as H2.
  pose proof (alcanzable_config _ _ _ Halc) as Hcfg.
  unfold config, config_inicial in Hcfg. injection Hcfg as _ _ Hmax _ _ _ _.
  destruct (Inv_abandonado s r c HI Hc Habn) as (Hini & Hr & _).
  pose proof (i2_registro _ _ _ H2 r c Hc) as [_ Hbf].
  rewrite Hini, Habn, Hmax in Hbf. destruct Hbf as (Hta & ? & ? & ?).
  unfold Cliente.tiempo_espera, Cliente.tiempo_atencion.
  rewrite Hini, Habn, Hta. split_and!; try done; [f_equal|]; lia.
Qed.

Lemma abandono_exacto_witness :
  ∃ s0 s c,
    __init__ 1 1 = Ok s0
    ∧ pasos (llegan 3) (atencion_fija 1800) 1805 s0 = Ok s
    ∧ objetos s !! 2%nat = Some c
    ∧ 2%nat ∈ clientes_abandonaron s
    ∧ Cliente.tiempo_abandono c = Some (Cliente.tiempo_ingreso c + 1800)
    ∧ Cliente.tiempo_espera c = Some 1800
    ∧ Cliente.tiempo_atencion c = None
    ∧ Cliente.box_asignado c = None
    ∧ Cliente.tiempo_ingreso c + 1800 < tiempo_actual s.
Proof.
  eexists _, _, _. split; [reflexivity|]. split; [vm_compute; reflexivity|].
  split; [reflexivity|].
  apply (abandono_exacto (llegan 3) (atencion_fija 1800)).
  - eapply (alcanzable_pasos (llegan 3) (atencion_fija 1800) 1805);
      [eapply (alcanzable_init _ _ 1 1); reflexivity|vm_compute; reflexivity].
  - reflexivity.
  - reflexivity.
Defined.

(** ** Statistics of the served customers *)

Lemma atendido_tiempos U N s r :
  alcanzable U N s → r ∈ clientes_atendidos s →
  ∃ c ta te,
    objetos s !! r = Some c
    ∧ Cliente.tiempo_atencion c = Some ta
    ∧ Cliente.tiempo_espera c = Some te
    ∧ 60 ≤ ta ∧ 0 ≤ te ≤ 1800
    ∧ ta ∈ atenciones s ∧ te ∈ esperas s.
Proof.
  intros Halc Hr.
  pose proof (alcanzable_Inv _ _ _ Halc) as HI.
  pose proof (alcanzable_Inv2 _ _ _ Halc) as H2.
  pose proof (alcanzable_config _ _ _ Halc) as Hcfg.
  unfold config, config_inicial in Hcfg. injection Hcfg as _ _ Hmax _ _ _ _.
  destruct (inv_atendidos s HI r Hr) as (c & Hc & ti & tf & Hti & Htf & ? & Hab).
  pose proof (i2_registro _ _ _ H2 r c Hc) as [_ Hbf].
  rewrite Hti, Hab, Hmax in Hbf. destruct Hbf as (? & ? & _).
  assert (Cliente.tiempo_atencion c = Some (tf - ti)) as Hta
    by (unfold Cliente.tiempo_atencion; by rewrite Hti, Htf).
  assert (Cliente.tiempo_espera c = Some (ti - Cliente.tiempo_ingreso c))
    as Hte by (unfold Cliente.tiempo_espera; by rewrite Hti).
  exists c, (tf - ti), (ti - Cliente.tiempo_ingreso c).
  split_and!; try done; try lia.
  - apply list_elem_of_omap. exists r. split; [done|]. by rewrite Hc.
  - apply list_elem_of_omap. exists r. split; [done|]. by rewrite Hc.
Qed.

Lemma atenciones_origen s x :
  x ∈ atenciones s →
  ∃ r c, r ∈ clientes_atendidos s ∧ objetos s !! r = Some c
         ∧ Cliente.tiempo_atencion c = Some x.
Proof.
  intros (r & Hr & Hx)%list_elem_of_omap.
  destruct (objetos s !! r) as [c|] eqn:Hc; [|done]. by exists r, c.
Qed.

Lemma esperas_origen s x :
  x ∈ esperas s →
  ∃ r c, r ∈ clientes_atendidos s ∧ objetos s !! r = Some c
         ∧ Cliente.tiempo_espera c = Some x.
Proof.
  intros (r & Hr & Hx)%list_elem_of_omap.
  destruct (objetos s !! r) as [c|] eqn:Hc; [|done]. by exists r, c.
Qed.

(** The service-time statistics are the minimum and the maximum of
    [tiempo_atencion] over the served customers: both bound every served
    customer, both are attained by one of them, the minimum is at least 60,
    and they keep their initial values [inf] and 0 exactly while nobody has
    been served.  In particular the test [if tiempo_atencion:] never skips
    a customer. *)
Theorem estadisticas_de_atencion U N s :
  alcanzable U N s →
  (clientes_atendidos s = [] →
     Est.tiempo_min_atencion (estadisticas s) = Inf
     ∧ Est.tiempo_max_atencion (estadisticas s) = 0)
  ∧ (∀ r, r ∈ clientes_atendidos s →
       ∃ c ta lo,
         objetos s !! r = Some c
         ∧ Cliente.tiempo_atencion c = Some ta
         ∧ Est.tiempo_min_atencion (estadisticas s) = Ent lo
         ∧ 60 ≤ lo ≤ ta
         ∧ ta ≤ Est.tiempo_max_atencion (estadisticas s))
  ∧ (clientes_atendidos s ≠ [] →
       ∃ r1 c1 r2 c2,
         r1 ∈ clientes_atendidos s ∧ objetos s !! r1 = Some c1
         ∧ Ent <$> Cliente.tiempo_atencion c1
           = Some (Est.tiempo_min_atencion (estadisticas s))
         ∧ r2 ∈ clientes_atendidos s ∧ objetos s !! r2 = Some c2
         ∧ Cliente.tiempo_atencion c2
           = Some (Est.tiempo_max_atencion (estadisticas s))).
Proof.
  intros Halc. pose proof (alcanzable_Inv2 _ _ _ Halc) as H2.
  destruct (i2_atencion _ _ _ H2) as (Hhi & Hlo & Hnil & Hcons).
  assert (∀ r, r ∈ clientes_atendidos s → atenciones s ≠ []) as Hne.
  { intros r Hr Hl.
    destruct (atendido_tiempos U N s r Halc Hr) as (c0 & ta & te0 & _ & _ & _ & _ & _ & Hin & _).
    rewrite Hl in Hin. by apply elem_of_nil in Hin. }
  split_and!.
  - intros Hl. apply Hnil. unfold atenciones. by rewrite Hl.
  - intros r Hr.
    destruct (atendido_tiempos U N s r Halc Hr)
      as (c & ta & te & Hc & Hta & _ & ? & _ & Hin & _).
    destruct (Hcons (Hne r Hr)) as (_ & lo & Hmin & Hloin).
    destruct (atenciones_origen s lo Hloin) as (r' & c' & Hr' & Hc' & Hta').
    destruct (atendido_tiempos U N s r' Halc Hr')
      as (c'' & ta' & te' & Hc'' & Hta'' & _ & ? & _).
    assert (ta' = lo) as -> by congruence.
    destruct (Hlo ta Hin) as (m & Hm & ?).
    assert (m = lo) as -> by congruence.
    exists c, ta, lo. split_and!; try done. by apply Hhi.
  - intros Hl.
    assert (∃ r, r ∈ clientes_atendidos s) as [r Hr].
    { destruct (clientes_atendidos s) as [|r l]; [done|]. exists r. left. }
    destruct (Hcons (Hne r Hr)) as (Hhiin & lo & Hmin & Hloin).
    destruct (atenciones_origen s lo Hloin) as (r1 & c1 & Hr1 & Hc1 & Hta1).
    destruct (atenciones_origen s _ Hhiin) as (r2 & c2 & Hr2 & Hc2 & Hta2).
    exists r1, c1, r2, c2.
    split_and!; try done. by rewrite Hta1, Hmin.
Qed.

Lemma estadisticas_de_atencion_witness :
  ∃ s0 s,
    __init__ 2 1 = Ok s0
    ∧ pasos (llegan 5) (atencion_fija 90) 400 s0 = Ok s
    ∧ length (clientes_atendidos s) = 5%nat
    ∧ (clientes_atendidos s = [] →
         Est.tiempo_min_atencion (estadisticas s) = Inf
         ∧ Est.tiempo_max_atencion (estadisticas s) = 0)
    ∧ (∀ r, r ∈ clientes_atendidos s →
         ∃ c ta lo,
           objetos s !! r = Some c
           ∧ Cliente.tiempo_atencion c = Some ta
           ∧ Est.tiempo_min_atencion (estadisticas s) = Ent lo
           ∧ 60 ≤ lo ≤ ta
           ∧ ta ≤ Est.tiempo_max_atencion (estadisticas s))
    ∧ (clientes_atendidos s ≠ [] →
         ∃ r1 c1 r2 c2,
           r1 ∈ clientes_atendidos s ∧ objetos s !! r1 = Some c1
           ∧ Ent <$> Cliente.tiempo_atencion c1
             = Some (Est.tiempo_min_atencion (estadisticas s))
           ∧ r2 ∈ clientes_atendidos s ∧ objetos s !! r2 = Some c2
           ∧ Cliente.tiempo_atencion c2
             = Some (Est.tiempo_max_atencion (estadisticas s))).
Proof.
  eexists _, _. split; [reflexivity|]. split; [vm_compute; reflexivity|].
  split; [reflexivity|].
  apply (estadisticas_de_atencion (llegan 5) (atencion_fija 90)).
  eapply (alcanzable_pasos (llegan 5) (atencion_fija 90) 400);
    [eapply (alcanzable_init _ _ 2 1); reflexivity|vm_compute; reflexivity].
Defined.

(** The waiting-time statistics are the minimum and the maximum of
    [tiempo_espera] over the served customers only (customers who abandon
    are not counted): both bound every served customer, both are attained,
    they lie between 0 and 1800, and they keep their initial values [inf]
    and 0 while nobody has been served. *)
Theorem estadisticas_de_espera U N s :
  alcanzable U N s →
  (clientes_atendidos s = [] →
     Est.tiempo_min_espera (estadisticas s) = Inf
     ∧ Est.tiempo_max_espera (estadisticas s) = 0)
  ∧ (∀ r, r ∈ clientes_atendidos s →
       ∃ c te lo,
         objetos s !! r = Some c
         ∧ Cliente.tiempo_espera c = Some te
         ∧ Est.tiempo_min_espera (estadisticas s) = Ent lo
         ∧ 0 ≤ lo ≤ te
         ∧ te ≤ Est.tiempo_max_espera (estadisticas s) ≤ 1800)
  ∧ (clientes_atendidos s ≠ [] →
       ∃ r1 c1 r2 c2,
         r1 ∈ clientes_atendidos s ∧ objetos s !! r1 = Some c1
         ∧ Ent <$> Cliente.tiempo_espera c1
           = Some (Est.tiempo_min_espera (estadisticas s))
         ∧ r2 ∈ clientes_atendidos s ∧ objetos s !! r2 = Some c2
         ∧ Cliente.tiempo_espera c2
           = Some (Est.tiempo_max_espera (estadisticas s))).
Proof.
  intros Halc. pose proof (alcanzable_Inv2 _ _ _ Halc) as H2.
  destruct (i2_espera _ _ _ H2) as (Hhi & Hlo & Hnil & Hcons).
  assert (∀ r, r ∈ clientes_atendidos s → esperas s ≠ []) as Hne.
  { intros r Hr Hl.
    destruct (atendido_tiempos U N s r Halc Hr) as (c0 & ta0 & te & _ & _ & _ & _ & _ & _ & Hin).
    rewrite Hl in Hin. by apply elem_of_nil in Hin. }
  assert (∀ x, x ∈ esperas s → 0 ≤ x ≤ 1800) as Hcota.
  { intros x (r' & c' & Hr' & Hc' & Hte')%esperas_origen.
    destruct (atendido_tiempos U N s r' Halc Hr')
      as (c'' & ta' & te' & Hc'' & _ & Hte'' & _ & ? & _).
    assert (te' = x) as -> by congruence. done. }
  split_and!.
  - intros Hl. apply Hnil. unfold esperas. by rewrite Hl.
  - intros r Hr.
    destruct (atendido_tiempos U N s r Halc Hr)
      as (c & ta & te & Hc & _ & Hte & _ & _ & _ & Hin).
    destruct (Hcons (Hne r Hr)) as (Hhiin & lo & Hmin & Hloin).
    destruct (Hlo te Hin) as (m & Hm & ?).
    assert (m = lo) as -> by congruence.
    pose proof (Hcota lo Hloin). pose proof (Hcota _ Hhiin).
    pose proof (Hhi te Hin).
    exists c, te, lo. split_and!; try done; lia.
  - intros Hl.
    assert (∃ r, r ∈ clientes_atendidos s) as [r Hr].
    { destruct (clientes_atendidos s) as [|r l]; [done|]. exists r. left. }
    destruct (Hcons (Hne r Hr)) as (Hhiin & lo & Hmin & Hloin).
    destruct (esperas_origen s lo Hloin) as (r1 & c1 & Hr1 & Hc1 & Hte1).
    destruct (esperas_origen s _ Hhiin) as (r2 & c2 & Hr2 & Hc2 & Hte2).
    exists r1, c1, r2, c2.
    split_and!; try done. by rewrite Hte1, Hmin.
Qed.

Lemma estadisticas_de_espera_witness :
  ∃ s0 s,
    __init__ 2 1 = Ok s0
    ∧ pasos (llegan 5) (atencion_fija 90) 400 s0 = Ok s
    ∧ length (clientes_atendidos s) = 5%nat
    ∧ (clientes_atendidos s = [] →
         Est.tiempo_min_espera (estadisticas s) = Inf
         ∧ Est.tiempo_max_espera (estadisticas s) = 0)
    ∧ (∀ r, r ∈ clientes_atendidos s →
         ∃ c te lo,
           objetos s !! r = Some c
           ∧ Cliente.tiempo_espera c = Some te
           ∧ Est.tiempo_min_espera (estadisticas s) = Ent lo
           ∧ 0 ≤ lo ≤ te
           ∧ te ≤ Est.tiempo_max_espera (estadisticas s) ≤ 1800)
    ∧ (clientes_atendidos s ≠ [] →
         ∃ r1 c1 r2 c2,
           r1 ∈ clientes_atendidos s ∧ objetos s !! r1 = Some c1
           ∧ Ent <$> Cliente.tiempo_espera c1
             = Some (Est.tiempo_min_espera (estadisticas s))
           ∧ r2 ∈ clientes_atendidos s ∧ objetos s !! r2 = Some c2
           ∧ Cliente.tiempo_espera c2
             = Some (Est.tiempo_max_espera (estadisticas s))).
Proof.
  eexists _, _. split; [reflexivity|]. split; [vm_compute; reflexivity|].
  split; [reflexivity|].
  apply (estadisticas_de_espera (llegan 5) (atencion_fija 90)).
  eapply (alcanzable_pasos (llegan 5) (atencion_fija 90) 400);
    [eapply (alcanzable_init _ _ 2 1); reflexivity|vm_compute; reflexivity].
Defined.

(** ** Assignment of waiting customers *)

Lemma ocupados_insert (bs : list Box.t) i b b' :
  bs !! i = Some b → Box.ocupado b = false → Box.ocupado b' = true →
  length (filter (λ b, Box.ocupado b = true) (<[i := b']> bs))
  = S (length (filter (λ b, Box.ocupado b = true) bs)).
Proof.
  intros Hb Hlibre Hocupado.
  rewrite insert_take_drop by (by eapply lookup_lt_Some).
  rewrite <- (take_drop_middle bs i b Hb) at 3.
  rewrite !filter_app, !filter_cons, !length_app.
  rewrite decide_True by done.
  rewrite decide_False by (rewrite Hlibre; done).
  simpl. lia.
Qed.

(** [asignar_clientes_a_boxes] serves a prefix of the queue, in order
    (servidos), one customer per free box and one normal draw per customer;
    boxes that were occupied are left alone, and afterwards nobody waits
    while a box is free. *)
Theorem asignacion_sin_ocio N s s' :
  asignar_clientes_a_boxes N s = Ok s' →
  ∃ servidos,
    cola s = servidos ++ cola s'
    ∧ boxes_ocupados s' = (boxes_ocupados s + length servidos)%nat
    ∧ pos_numpy s' = (pos_numpy s + N.of_nat (length servidos))%N
    ∧ (cola s' = [] ∨ ∀ b, b ∈ boxes s' → Box.ocupado b = true)
    ∧ (∀ i b, boxes s !! i = Some b → Box.ocupado b = true →
         boxes s' !! i = Some b).
Proof.
  intros Hrun. unfold asignar_clientes_a_boxes in Hrun.
  pose (P := λ (k : nat) (s1 : Simulador),
    length (boxes s1) = length (boxes s)
    ∧ (∀ j, (k ≤ j)%nat → boxes s1 !! j = boxes s !! j)
    ∧ (cola s1 = []
       ∨ ∀ j b, (j < k)%nat → boxes s1 !! j = Some b → Box.ocupado b = true)
    ∧ (∃ servidos,
         cola s = servidos ++ cola s1
         ∧ boxes_ocupados s1 = (boxes_ocupados s + length servidos)%nat
         ∧ pos_numpy s1 = (pos_numpy s + N.of_nat (length servidos))%N)
    ∧ (∀ i b, boxes s !! i = Some b → Box.ocupado b = true →
         boxes s1 !! i = Some b)).
  assert (P (0 + length (boxes s))%nat s') as (Hlen & _ & Hocio & Hserv & Hfijos).
  { eapply (for_each_seq_rel P); [exact Hrun| |].
    - unfold P. split_and!; try done.
      + right. intros j b Hj. lia.
      + exists []. simpl. split_and!; [done|lia|by rewrite N.add_0_r].
    - intros k s1 s2 Hk (Hlen1 & Hresto & Hocio & (servidos & Hq & Hoc & Hnp) & Hfijos) Hpaso.
      apply asignar_box_efecto in Hpaso
        as [[-> (b & Hb & Hcaso)]
           |(b & r & resto & c & Hb & Hlibre & Hcola & Hc & ->)].
      + unfold P. split_and!; try done.
        * intros j Hj. apply Hresto. lia.
        * destruct Hcaso as [Hocupado|Hvacia]; [|by left].
          destruct Hocio as [Hvacia|Hocio]; [by left|]. right.
          intros j b' Hj Hb'. destruct (decide (j = k)) as [->|Hne].
          -- congruence.
          -- eapply Hocio; [|exact Hb']. lia.
        * by exists servidos.
      + unfold P. simpl.
        assert (boxes s !! k = Some b) as Hb0 by (rewrite <- Hresto; [done|lia]).
        split_and!.
        * by rewrite length_insert.
        * intros j Hj. rewrite list_lookup_insert_ne by lia. apply Hresto. lia.
        * right. intros j b' Hj Hb'.
          destruct (decide (j = k)) as [->|Hne].
          -- rewrite list_lookup_insert_eq in Hb' by (by eapply lookup_lt_Some).
             by injection Hb' as <-.
          -- rewrite list_lookup_insert_ne in Hb' by done.
             destruct Hocio as [Hvacia|Hocio]; [congruence|].
             eapply Hocio; [|exact Hb']. lia.
        * exists (servidos ++ [r]). rewrite <- app_assoc. simpl.
          rewrite <- Hcola. split; [done|].
          unfold boxes_ocupados in *. simpl.
          rewrite (ocupados_insert _ _ b) by done.
          rewrite length_app. simpl. split; [lia|]. lia.
        * intros i b' Hb' Hocupado.
          rewrite list_lookup_insert_ne by congruence. by apply Hfijos. }
  destruct Hserv as (servidos & Hq & Hoc & Hnp).
  exists servidos. split_and!; try done.
  destruct Hocio as [Hvacia|Hocio]; [by left|]. right.
  intros b (j & Hj)%list_elem_of_lookup_1. eapply Hocio; [|exact Hj].
  apply lookup_lt_Some in Hj. lia.
Qed.

Lemma asignacion_sin_ocio_witness :
  ∃ s0 s s',
    __init__ 2 1 = Ok s0
    ∧ pasos (llegan 5) (atencion_fija 90) 91 s0 = Ok s
    ∧ asignar_clientes_a_boxes (atencion_fija 90)
        (procesar_llegadas (llegan 5) s) = Ok s'
    ∧ cola (procesar_llegadas (llegan 5) s) = [2; 3; 4]%nat
    ∧ cola s' = [3; 4]%nat
    ∧ ∃ servidos,
        cola (procesar_llegadas (llegan 5) s) = servidos ++ cola s'
        ∧ boxes_ocupados s'
          = (boxes_ocupados (procesar_llegadas (llegan 5) s)
             + length servidos)%nat
        ∧ pos_numpy s'
          = (pos_numpy (procesar_llegadas (llegan 5) s)
             + N.of_nat (length servidos))%N
        ∧ (cola s' = [] ∨ ∀ b, b ∈ boxes s' → Box.ocupado b = true)
        ∧ (∀ i b,
             boxes (procesar_llegadas (llegan 5) s) !! i = Some b →
             Box.ocupado b = true → boxes s' !! i = Some b).
Proof.
  eexists _, _, _. split; [reflexivity|]. split; [vm_compute; reflexivity|].
  split; [vm_compute; reflexivity|].
  split; [vm_compute; reflexivity|]. split; [reflexivity|].
  apply (asignacion_sin_ocio (atencion_fija 90)). vm_compute; reflexivity.
Defined.

(** ** Use of the two random sources *)

(** Up to any reachable state the engine has drawn exactly one uniform
    number per tick before the horizon, none after it, and exactly one
    normal number per customer whose service has started. *)
Theorem sorteos_consumidos U N s :
  alcanzable U N s →
  Z.of_N (pos_random s) = Z.min (tiempo_actual s) 14400
  ∧ pos_numpy s
    = N.of_nat (boxes_ocupados s + length (clientes_atendidos s)).
Proof.
  intros Halc.
  pose proof (alcanzable_Inv _ _ _ Halc) as HI.
  pose proof (alcanzable_Inv2 _ _ _ Halc) as H2.
  pose proof (alcanzable_config _ _ _ Halc) as Hcfg.
  unfold config, config_inicial in Hcfg. injection Hcfg as HD _ _ _ _ _ _.
  split.
  - rewrite (i2_random _ _ _ H2), HD. lia.
  - rewrite (i2_numpy _ _ _ H2). unfold boxes_ocupados.
    by rewrite (length_en_boxes (objetos s)) by apply (inv_boxes s HI).
Qed.

Lemma sorteos_consumidos_witness :
  ∃ s0 s,
    __init__ 2 1 = Ok s0
    ∧ pasos (llegan 5) (atencion_fija 90) 91 s0 = Ok s
    ∧ pos_random s = 91%N ∧ pos_numpy s = 2%N
    ∧ Z.of_N (pos_random s) = Z.min (tiempo_actual s) 14400
    ∧ pos_numpy s
      = N.of_nat (boxes_ocupados s + length (clientes_atendidos s)).
Proof.
  eexists _, _. split; [reflexivity|]. split; [vm_compute; reflexivity|].
  split; [reflexivity|]. split; [reflexivity|].
  apply (sorteos_consumidos (llegan 5) (atencion_fija 90)).
  eapply (alcanzable_pasos (llegan 5) (atencion_fija 90) 91);
    [eapply (alcanzable_init _ _ 2 1); reflexivity|vm_compute; reflexivity].
Defined.

(** ** The result of a run *)

Lemma ejecutar_simulacion_rapida_pasos U N fuel s r :
  Inv s →
  ejecutar_simulacion_rapida U N fuel s = Some r →
  ∃ n s', (n ≤ fuel)%nat
          ∧ pasos U N n s = Ok s'
          ∧ condicion_finalizacion s' = true
          ∧ r = Ok (calcular_costos s').
Proof.
  revert s. induction fuel as [|fuel IH]; intros s HI Hrun; simpl in Hrun.
  - destruct (condicion_finalizacion s) eqn:Hfin; [|done].
    injection Hrun as <-. by exists 0%nat, s.
  - destruct (condicion_finalizacion s) eqn:Hfin.
    + injection Hrun as <-. exists 0%nat, s. split_and!; try done. lia.
    + destruct (simular_paso_total U N s HI) as (s1 & H1 & HI1).
      rewrite H1 in Hrun.
      destruct (IH s1 HI1 Hrun) as (n & s' & Hn & Hpasos & Hfin' & ->).
      exists (S n), s'. simpl. rewrite H1. simpl. split_and!; try done. lia.
Qed.

(** While the engine runs the cost field stays at 0: only
    [calcular_costos], called once the loop is over, assigns it.  What it
    assigns is at least 1000, so a total of 0 is seen exactly as long as
    the costs have not been computed; calling it again changes nothing. *)
Theorem costo_nulo_durante_la_corrida U N s :
  alcanzable U N s →
  Est.costo_total (estadisticas s) = 0
  ∧ 1000 ≤ Est.costo_total (estadisticas (calcular_costos s))
  ∧ calcular_costos (calcular_costos s) = calcular_costos s.
Proof.
  intros Halc.
  pose proof (alcanzable_Inv2 _ _ _ Halc) as H2.
  pose proof (alcanzable_num_boxes _ _ _ Halc) as Hn.
  pose proof (alcanzable_config _ _ _ Halc) as Hcfg.
  unfold config, config_inicial in Hcfg.
  injection Hcfg as _ _ _ _ _ Hcosto Hperdida.
  split; [apply (i2_costo _ _ _ H2)|]. split.
  - simpl. rewrite Hcosto, Hperdida. lia.
  - reflexivity.
Qed.

Lemma costo_nulo_durante_la_corrida_witness :
  ∃ s0 s,
    __init__ 1 1 = Ok s0
    ∧ pasos (llegan 3) (atencion_fija 1800) 1805 s0 = Ok s
    ∧ length (clientes_abandonaron s) = 1%nat
    ∧ Est.costo_total (estadisticas (calcular_costos s)) = 11000
    ∧ Est.costo_total (estadisticas s) = 0
    ∧ 1000 ≤ Est.costo_total (estadisticas (calcular_costos s))
    ∧ calcular_costos (calcular_costos s) = calcular_costos s.
Proof.
  eexists _, _. split; [reflexivity|]. split; [vm_compute; reflexivity|].
  split; [reflexivity|]. split; [reflexivity|].
  apply (costo_nulo_durante_la_corrida (llegan 3) (atencion_fija 1800)).
  eapply (alcanzable_pasos (llegan 3) (atencion_fija 1800) 1805);
    [eapply (alcanzable_init _ _ 1 1); reflexivity|vm_compute; reflexivity].
Defined.

(** Whatever [ejecutar_simulacion_rapida] returns from a reachable state
    is a state, never an exception.  In it the clock is at or past the
    horizon, the queue and the boxes are empty, every customer created has
    either been served to the end or has abandoned, the counters of served
    and abandoned customers add up to the arrivals, all 14400 uniform draws
    have been made, and the cost is 1000 per box plus 10000 per abandoned
    customer. *)
Theorem resultado_de_la_corrida U N fuel s r :
  alcanzable U N s →
  ejecutar_simulacion_rapida U N fuel s = Some r →
  ∃ sf,
    r = Ok sf
    ∧ 14400 ≤ tiempo_actual sf
    ∧ cola sf = []
    ∧ (∀ b, b ∈ boxes sf →
         Box.ocupado b = false ∧ Box.cliente_actual b = None
         ∧ Box.tiempo_fin_atencion b = None)
    ∧ (∀ ref c, objetos sf !! ref = Some c →
         (ref ∈ clientes_atendidos sf
          ∧ is_Some (Cliente.tiempo_fin_atencion c)
          ∧ Cliente.abandono c = false)
         ∨ (ref ∈ clientes_abandonaron sf
            ∧ Cliente.tiempo_fin_atencion c = None
            ∧ Cliente.abandono c = true))
    ∧ Est.clientes_atendidos (estadisticas sf)
      + Est.clientes_abandonaron (estadisticas sf)
      = Est.clientes_ingresados (estadisticas sf)
    ∧ pos_random sf = 14400%N
    ∧ pos_numpy sf = N.of_nat (length (clientes_atendidos sf))
    ∧ Est.costo_total (estadisticas sf)
      = num_boxes s * 1000
        + Est.clientes_abandonaron (estadisticas sf) * 10000.
Proof.
  intros Halc Hrun.
  destruct (ejecutar_simulacion_rapida_pasos U N fuel s r
              (alcanzable_Inv _ _ _ Halc) Hrun)
    as (n & s' & _ & Hpasos & Hfin & ->).
  pose proof (alcanzable_pasos U N n s s' Halc Hpasos) as Halc'.
  pose proof (alcanzable_Inv _ _ _ Halc') as HI.
  pose proof (alcanzable_Inv2 _ _ _ Halc') as H2.
  pose proof (alcanzable_config _ _ _ Halc') as Hcfg'.
  pose proof (alcanzable_config _ _ _ Halc) as Hcfg.
  assert (num_boxes s' = num_boxes s) as Hnb.
  { clear -Hpasos. revert s Hpasos. induction n as [|n IH]; intros s Hpasos.
    - simpl in Hpasos. by injection Hpasos as <-.
    - simpl in Hpasos. apply bind_Ok in Hpasos as (s1 & H1 & Hpasos).
      rewrite (IH s1 Hpasos).
      pose proof (config_simular_paso U N s s1 H1) as Hc.
      unfold config in Hc. by injection Hc as -> _ _ _ _ _ _ _. }
  unfold config, config_inicial in Hcfg'.
  injection Hcfg' as HD _ Hmax _ _ Hcb Hpc.
  apply condicion_finalizacion_true in Hfin as (Hhor & Hq & Hlibres).
  assert (en_boxes (boxes s') = []) as Hen.
  { apply length_zero_iff_nil.
    rewrite (length_en_boxes (objetos s')) by apply (inv_boxes s' HI).
    clear -Hlibres. induction (boxes s') as [|b bs IH]; [done|].
    rewrite filter_cons, decide_False.
    - apply IH. intros b' Hb'. apply Hlibres. by right.
    - rewrite (Hlibres b); [done|by left]. }
  exists (calcular_costos s'). simpl. split_and!; try done.
  - lia.
  - intros b Hb. pose proof (Hlibres b Hb) as Hoc.
    apply list_elem_of_lookup_1 in Hb as [i Hi].
    pose proof (inv_boxes s' HI i b Hi) as Hok. unfold box_ok in Hok.
    rewrite Hoc in Hok. by destruct Hok.
  - intros ref c Hc.
    assert (ref ∈ clientes_atendidos s' ++ clientes_abandonaron s') as Hin.
    { pose proof (inv_particion s' HI) as Hperm. rewrite Hq, Hen in Hperm.
      simpl in Hperm. rewrite Hperm. apply elem_of_seq.
      apply lookup_lt_Some in Hc. lia. }
    apply elem_of_app in Hin as [Hin|Hin].
    + left. destruct (inv_atendidos s' HI ref Hin)
        as (c' & Hc' & ti & tf & _ & Htf & _ & Hab).
      assert (c' = c) as -> by congruence. rewrite Htf. eauto.
    + right. destruct (inv_abandonaron s' HI ref Hin)
        as (c' & Hc' & Hini & Hab & _).
      assert (c' = c) as -> by congruence.
      pose proof (i2_registro _ _ _ H2 ref c Hc) as [_ Hbf].
      rewrite Hini, Hab in Hbf. by destruct Hbf as (_ & _ & _ & ?).
  - rewrite (inv_est_atendidos s' HI), (inv_est_abandonaron s' HI),
      (inv_est_ingresados s' HI), (inv_ingresados s' HI), length_seq.
    pose proof (inv_particion s' HI) as Hperm. rewrite Hq, Hen in Hperm.
    apply Permutation_length in Hperm. simpl in Hperm.
    rewrite length_app, length_seq in Hperm. lia.
  - pose proof (i2_random _ _ _ H2) as Hr. rewrite HD in Hr. lia.
  - rewrite (i2_numpy _ _ _ H2), Hen. done.
  - rewrite (inv_est_abandonaron s' HI), Hnb, Hcb, Hpc. done.
Qed.

Lemma resultado_de_la_corrida_witness :
  ∃ s0 r,
    __init__ 2 1 = Ok s0
    ∧ ejecutar_simulacion_rapida (llegan 5) (atencion_fija 700)
        (Z.to_nat 15000) s0 = Some r
    ∧ ∃ sf,
        r = Ok sf
        ∧ 14400 ≤ tiempo_actual sf
        ∧ cola sf = []
        ∧ (∀ b, b ∈ boxes sf →
             Box.ocupado b = false ∧ Box.cliente_actual b = None
             ∧ Box.tiempo_fin_atencion b = None)
        ∧ (∀ ref c, objetos sf !! ref = Some c →
             (ref ∈ clientes_atendidos sf
              ∧ is_Some (Cliente.tiempo_fin_atencion c)
              ∧ Cliente.abandono c = false)
             ∨ (ref ∈ clientes_abandonaron sf
                ∧ Cliente.tiempo_fin_atencion c = None
                ∧ Cliente.abandono c = true))
        ∧ Est.clientes_atendidos (estadisticas sf)
          + Est.clientes_abandonaron (estadisticas sf)
          = Est.clientes_ingresados (estadisticas sf)
        ∧ pos_random sf = 14400%N
        ∧ pos_numpy sf = N.of_nat (length (clientes_atendidos sf))
        ∧ Est.costo_total (estadisticas sf)
          = num_boxes s0 * 1000
            + Est.clientes_abandonaron (estadisticas sf) * 10000.
Proof.
  eexists _, _. split; [reflexivity|]. split; [vm_compute; reflexivity|].
  lazymatch goal with
  | |- ∃ sf, _ ∧ _ ∧ _ ∧ _ ∧ _ ∧ _ ∧ _ ∧ _ ∧ _ = num_boxes ?s * _ + _ =>
      set (s0 := s)
  end.
  apply (resultado_de_la_corrida (llegan 5) (atencion_fija 700)
           (Z.to_nat 15000) s0).
  - apply (alcanzable_init _ _ 2 1). reflexivity.
  - vm_compute; reflexivity.
Defined.

(** ** The animated run *)

Lemma for_each_cuadros (f : Simulador → result Simulador) n a s :
  for_each (λ s (_ : nat), f s) s (seq a n) = cuadros f n s.
Proof.
  revert a s. induction n as [|n IH]; intros a s; simpl; [done|].
  destruct (f s) as [s1|e]; simpl; [apply IH|done].
Qed.

Lemma actualizar_optimizado_cuadros U N p s :
  actualizar_optimizado U N p s
  = cuadros (actualizar_animacion U N) (Z.to_nat p) s.
Proof. unfold actualizar_optimizado. apply (for_each_cuadros (actualizar_animacion U N)). Qed.

Lemma cuadros_app f a b s :
  cuadros f (a + b) s = cuadros f a s ≫= cuadros f b.
Proof.
  revert s. induction a as [|a IH]; intros s; simpl; [done|].
  destruct (f s) as [s1|e]; simpl; [apply IH|done].
Qed.

Lemma cuadros_ext f g n s :
  (∀ s, f s = g s) → cuadros f n s = cuadros g n s.
Proof.
  intros Hfg. revert s. induction n as [|n IH]; intros s; simpl; [done|].
  rewrite Hfg. destruct (g s) as [s1|e]; simpl; [apply IH|done].
Qed.

Lemma cuadros_cuadros f p k s :
  cuadros (cuadros f p) k s = cuadros f (k * p) s.
Proof.
  revert s. induction k as [|k IH]; intros s; simpl; [done|].
  rewrite cuadros_app. destruct (cuadros f p s) as [s1|e]; simpl; [apply IH|done].
Qed.

Lemma actualizar_animacion_fin U N s :
  condicion_finalizacion s = true → actualizar_animacion U N s = Ok s.
Proof. intros Hfin. unfold actualizar_animacion. by rewrite Hfin. Qed.

Lemma actualizar_animacion_sigue U N s :
  condicion_finalizacion s = false →
  actualizar_animacion U N s = simular_paso U N s.
Proof. intros Hfin. unfold actualizar_animacion. by rewrite Hfin. Qed.

Lemma cuadros_S f k s :
  cuadros f (S k) s = f s ≫= cuadros f k.
Proof. done. Qed.

Lemma pasos_S U N k s :
  pasos U N (S k) s = simular_paso U N s ≫= pasos U N k.
Proof. done. Qed.

Lemma cuadros_detenido U N k s :
  condicion_finalizacion s = true →
  cuadros (actualizar_animacion U N) k s = Ok s.
Proof.
  intros Hfin. induction k as [|k IH]; [done|].
  rewrite cuadros_S, (actualizar_animacion_fin U N s Hfin). exact IH.
Qed.

Lemma cuadros_pasos U N n s sn :
  pasos U N n s = Ok sn →
  condicion_finalizacion sn = true →
  (∀ j sj, (j < n)%nat → pasos U N j s = Ok sj →
     condicion_finalizacion sj = false) →
  ∀ k, cuadros (actualizar_animacion U N) k s
       = if decide (k ≤ n)%nat then pasos U N k s else Ok sn.
Proof.
  revert s. induction n as [|n IH]; intros s Hrun Hfin Hmin k.
  - simpl in Hrun. injection Hrun as <-.
    rewrite (cuadros_detenido U N k s Hfin).
    case_decide; [|done]. by replace k with 0%nat by lia.
  - rewrite pasos_S in Hrun. apply bind_Ok in Hrun as (s1 & H1 & Hrun).
    assert (condicion_finalizacion s = false) as Hs
      by (apply (Hmin 0%nat); [lia|done]).
    destruct k as [|k].
    { by rewrite decide_True by lia. }
    rewrite cuadros_S, pasos_S, (actualizar_animacion_sigue U N s Hs), H1.
    change (Ok s1 ≫= ?f) with (f s1).
    rewrite (IH s1 Hrun Hfin).
    + repeat case_decide; try done; lia.
    + intros j sj Hj Hpj. apply (Hmin (S j)); [lia|].
      rewrite pasos_S, H1. exact Hpj.
Qed.

(** The animated run and the fast run compute the same thing.  From a
    reachable state the fast run stops after some number [n] of ticks in a
    state [sf]; the animated run, at any speed, never raises, ends in that
    same [sf] as soon as its update function has been called often enough
    to cover [n] ticks, and otherwise ends in the state reached after the
    ticks it did execute, which is not a final state, with the costs
    computed on it. *)
Theorem animacion_y_corrida_rapida U N s :
  alcanzable U N s →
  ∃ n sf,
    (∀ fuel, (n ≤ fuel)%nat →
       ejecutar_simulacion_rapida U N fuel s = Some (Ok sf))
    ∧ ∀ velocidad llamadas,
        let pasos_por_frame := Z.to_nat (velocidad_variable velocidad).2 in
        ((n ≤ llamadas * pasos_por_frame)%nat →
           ejecutar_simulacion_con_animacion U N velocidad llamadas s = Ok sf)
        ∧ ((llamadas * pasos_por_frame < n)%nat →
           ∃ sk,
             pasos U N (llamadas * pasos_por_frame) s = Ok sk
             ∧ condicion_finalizacion sk = false
             ∧ ejecutar_simulacion_con_animacion U N velocidad llamadas s
               = Ok (calcular_costos sk)).
Proof.
  intros HI%alcanzable_Inv.
  destruct (Inv_termina U N s HI) as (n0 & s0 & Hrun0 & Hfin0).
  destruct (ejecutar_desde_pasos U N n0 s s0 Hrun0 Hfin0)
    as (n & sn & _ & Hrun & Hfin & Hmin & Hfuel).
  exists n, (calcular_costos sn). split; [exact Hfuel|].
  intros velocidad llamadas pasos_por_frame.
  assert (ejecutar_simulacion_con_animacion U N velocidad llamadas s
          = cuadros (actualizar_animacion U N) (llamadas * pasos_por_frame) s
            ≫= λ s, Ok (calcular_costos s)) as ->.
  { unfold ejecutar_simulacion_con_animacion, pasos_por_frame.
    destruct (velocidad_variable velocidad) as [intervalo ppf] eqn:Hv.
    simpl. case_decide as Hppf.
    - rewrite (cuadros_ext _ (cuadros (actualizar_animacion U N) (Z.to_nat ppf)))
        by (intros s'; apply actualizar_optimizado_cuadros).
      by rewrite cuadros_cuadros.
    - assert (ppf = 1) as ->.
      { unfold velocidad_variable in Hv.
        repeat case_decide; injection Hv as <- <-; lia. }
      by rewrite Nat.mul_1_r. }
  rewrite (cuadros_pasos U N n s sn Hrun Hfin Hmin). split.
  - intros Hk. case_decide as Hle; [|done].
    assert (llamadas * pasos_por_frame = n)%nat as -> by lia.
    by rewrite Hrun.
  - intros Hk. rewrite decide_True by lia.
    destruct (pasos_total U N (llamadas * pasos_por_frame) s HI)
      as (sk & Hsk & _).
    exists sk. rewrite Hsk. split_and!; try done.
    by apply (Hmin (llamadas * pasos_por_frame)%nat).
Qed.

Lemma animacion_y_corrida_rapida_witness :
  ∃ s0 s,
    __init__ 2 1 = Ok s0
    ∧ pasos (llegan 5) (atencion_fija 700) 10 s0 = Ok s
    ∧ ∃ n sf,
        (∀ fuel, (n ≤ fuel)%nat →
           ejecutar_simulacion_rapida (llegan 5) (atencion_fija 700) fuel s
           = Some (Ok sf))
        ∧ ∀ velocidad llamadas,
            let pasos_por_frame := Z.to_nat (velocidad_variable velocidad).2 in
            ((n ≤ llamadas * pasos_por_frame)%nat →
               ejecutar_simulacion_con_animacion (llegan 5) (atencion_fija 700)
                 velocidad llamadas s = Ok sf)
            ∧ ((llamadas * pasos_por_frame < n)%nat →
               ∃ sk,
                 pasos (llegan 5) (atencion_fija 700)
                   (llamadas * pasos_por_frame) s = Ok sk
                 ∧ condicion_finalizacion sk = false
                 ∧ ejecutar_simulacion_con_animacion (llegan 5)
                     (atencion_fija 700) velocidad llamadas s
                   = Ok (calcular_costos sk)).
Proof.
  eexists _, _. split; [reflexivity|]. split; [vm_compute; reflexivity|].
  apply (animacion_y_corrida_rapida (llegan 5) (atencion_fija 700)).
  eapply (alcanzable_pasos (llegan 5) (atencion_fija 700) 10);
    [eapply (alcanzable_init _ _ 2 1); reflexivity|vm_compute; reflexivity].
Defined.

(** ** Speed table *)

Lemma intervalo_lento velocidad :
  velocidad < 10 →
  velocidad_variable velocidad = (Z.max 100 (1000 / Z.max 1 velocidad), 1).
Proof.
  intros Hv. unfold velocidad_variable.
  rewrite !decide_False by lia. f_equal. f_equal.
  unfold py_int. simpl. rewrite Z2Pos.id by lia.
  apply Z.quot_div_nonneg; lia.
Qed.

Lemma pasos_por_frame_cotas velocidad :
  1 ≤ (velocidad_variable velocidad).2
  ∧ (1 < (velocidad_variable velocidad).2 ↔ 70 ≤ velocidad)
  ∧ (velocidad ≤ 100 → (velocidad_variable velocidad).2 ≤ 10).
Proof.
  unfold velocidad_variable. repeat case_decide; simpl; try lia.
  - pose proof (Z.div_le_lower_bound velocidad 10 9 ltac:(lia) ltac:(lia)).
    pose proof (Z.div_le_upper_bound velocidad 10 10 ltac:(lia)).
    split_and!; try done; lia.
  - pose proof (Z.div_le_lower_bound velocidad 20 3 ltac:(lia) ltac:(lia)).
    pose proof (Z.div_lt_upper_bound velocidad 20 5 ltac:(lia) ltac:(lia)).
    split_and!; try done; lia.
Qed.

(** For every integer speed, inside or outside the range 1-100 that the
    prompt suggests, the table yields an interval between 1 and 1000
    milliseconds, at least one step per frame, more than one exactly from
    speed 70 on, and a frame rate of at least 10. *)
Theorem velocidad_variable_rangos velocidad :
  1 ≤ (velocidad_variable velocidad).1 ≤ 1000
  ∧ 1 ≤ (velocidad_variable velocidad).2
  ∧ (1 < (velocidad_variable velocidad).2 ↔ 70 ≤ velocidad)
  ∧ (velocidad ≤ 100 → (velocidad_variable velocidad).2 ≤ 10)
  ∧ (velocidad ≤ 1 → (velocidad_variable velocidad).1 = 1000)
  ∧ 10 ≤ fps velocidad.
Proof.
  destruct (pasos_por_frame_cotas velocidad) as (Hpos & Hvarios & Hdiez).
  assert (10 ≤ fps velocidad) as Hfps by (unfold fps; lia).
  assert (1 ≤ (velocidad_variable velocidad).1 ≤ 1000
          ∧ (velocidad ≤ 1 → (velocidad_variable velocidad).1 = 1000))
    as [Hintervalo Hlento].
  { destruct (decide (velocidad < 10)) as [Hv|Hv].
    - rewrite (intervalo_lento velocidad Hv). simpl.
      assert (0 ≤ 1000 / Z.max 1 velocidad ≤ 1000).
      { split; [apply Z.div_pos; lia|]. apply Z.div_le_upper_bound; lia. }
      split; [lia|]. intros Huno.
      replace (Z.max 1 velocidad) with 1 by lia. by rewrite Z.div_1_r.
    - unfold velocidad_variable. repeat case_decide; simpl; lia. }
  destruct Hintervalo. split_and!; done.
Qed.

Lemma velocidad_variable_rangos_witness :
  velocidad_variable (-3) = (1000, 1)
  ∧ 1 ≤ (velocidad_variable (-3)).1 ≤ 1000
  ∧ 1 ≤ (velocidad_variable (-3)).2
  ∧ (1 < (velocidad_variable (-3)).2 ↔ 70 ≤ -3)
  ∧ (-3 ≤ 100 → (velocidad_variable (-3)).2 ≤ 10)
  ∧ (-3 ≤ 1 → (velocidad_variable (-3)).1 = 1000)
  ∧ 10 ≤ fps (-3).
Proof. split; [reflexivity|]. apply (velocidad_variable_rangos (-3)). Defined.

(** A higher speed never slows the animation down: the interval between
    frames does not grow, and neither the steps per frame nor the frame
    rate shrink. *)
Theorem velocidad_variable_monotona v1 v2 :
  v1 ≤ v2 →
  (velocidad_variable v2).1 ≤ (velocidad_variable v1).1
  ∧ (velocidad_variable v1).2 ≤ (velocidad_variable v2).2
  ∧ fps v1 ≤ fps v2.
Proof.
  intros Hle.
  assert (fps v1 ≤ fps v2) as Hfps.
  { unfold fps. pose proof (Z.div_le_mono v1 v2 2 ltac:(lia) Hle). lia. }
  destruct (decide (v2 < 10)) as [H2|H2].
  - rewrite (intervalo_lento v1), (intervalo_lento v2) by lia. simpl.
    split_and!; try done.
    pose proof (Z.div_le_compat_l 1000 (Z.max 1 v1) (Z.max 1 v2)
                  ltac:(lia) ltac:(lia)).
    lia.
  - destruct (decide (v1 < 10)) as [H1|H1].
    + rewrite (intervalo_lento v1) by lia. simpl.
      destruct (pasos_por_frame_cotas v2) as (? & _).
      split_and!; try done.
      unfold velocidad_variable. repeat case_decide; simpl; lia.
    + pose proof (Z.div_le_mono v1 v2 10 ltac:(lia) Hle).
      pose proof (Z.div_le_mono v1 v2 20 ltac:(lia) Hle).
      pose proof (Z.div_le_lower_bound v2 10 9).
      pose proof (Z.div_lt_upper_bound v1 20 5).
      unfold velocidad_variable. repeat case_decide; simpl;
        split_and!; try done; lia.
Qed.

Lemma velocidad_variable_monotona_witness :
  velocidad_variable 5 = (200, 1)
  ∧ velocidad_variable 95 = (1, 9)
  ∧ (velocidad_variable 95).1 ≤ (velocidad_variable 5).1
  ∧ (velocidad_variable 5).2 ≤ (velocidad_variable 95).2
  ∧ fps 5 ≤ fps 95.
Proof.
  split; [reflexivity|]. split; [reflexivity|].
  apply (velocidad_variable_monotona 5 95). lia.
Defined.

(** The frame estimate covers the horizon plus one hour: multiplied by
    the steps per frame it stays within [DURACION_SIMULACION + 3600] =
    18000 ticks and falls short of it by less than one frame.  It is 18000
    below speed 70 and at least 1800 up to speed 100. *)
Theorem frames_estimados_cubre U N s velocidad :
  alcanzable U N s →
  let pasos_por_frame := (velocidad_variable velocidad).2 in
  let frames := frames_estimados s pasos_por_frame in
  0 ≤ frames
  ∧ frames * pasos_por_frame ≤ 18000 < (frames + 1) * pasos_por_frame
  ∧ (velocidad < 70 → frames = 18000)
  ∧ (velocidad ≤ 100 → 1800 ≤ frames).
Proof.
  intros Hcfg%alcanzable_config. unfold config, config_inicial in Hcfg.
  injection Hcfg as HD _ _ _ _ _ _. intros ppf frames.
  destruct (pasos_por_frame_cotas velocidad) as (Hpos & Hvarios & Hdiez).
  fold ppf in Hpos, Hvarios, Hdiez. unfold frames, frames_estimados.
  rewrite HD. change (14400 + 3600) with 18000.
  case_decide as Hppf; [|split_and!; lia].
  pose proof (Z.div_mod 18000 ppf ltac:(lia)).
  pose proof (Z.mod_pos_bound 18000 ppf ltac:(lia)).
  pose proof (Z.div_pos 18000 ppf ltac:(lia) ltac:(lia)).
  split_and!; try nia;
    intros Hv; specialize (Hdiez Hv); apply Z.div_le_lower_bound; lia.
Qed.

Lemma frames_estimados_cubre_witness :
  ∃ s0 s,
    __init__ 2 1 = Ok s0
    ∧ pasos (llegan 5) (atencion_fija 90) 91 s0 = Ok s
    ∧ frames_estimados s (velocidad_variable 95).2 = 2000
    ∧ 0 ≤ frames_estimados s (velocidad_variable 95).2
    ∧ frames_estimados s (velocidad_variable 95).2 * (velocidad_variable 95).2
      ≤ 18000
      < (frames_estimados s (velocidad_variable 95).2 + 1)
        * (velocidad_variable 95).2
    ∧ (95 < 70 → frames_estimados s (velocidad_variable 95).2 = 18000)
    ∧ (95 ≤ 100 → 1800 ≤ frames_estimados s (velocidad_variable 95).2).
Proof.
  eexists _, _. split; [reflexivity|]. split; [vm_compute; reflexivity|].
  split; [reflexivity|].
  apply (frames_estimados_cubre (llegan 5) (atencion_fija 90)).
  eapply (alcanzable_pasos (llegan 5) (atencion_fija 90) 91);
    [eapply (alcanzable_init _ _ 2 1); reflexivity|vm_compute; reflexivity].
Defined.

(** ** Geometry of the figure *)

Lemma configurar_animacion_lookup s i r :
  configurar_animacion s !! i = Some r →
  r = rectangulo_box (Z.of_nat i) ∧ (i < length (boxes s))%nat.
Proof.
  unfold configurar_animacion. rewrite list_lookup_fmap.
  destruct (seqZ 0 (Z.of_nat (length (boxes s))) !! i) as [z|] eqn:Hz; [|done].
  apply lookup_seqZ in Hz as [-> Hi]. intros [= <-]. split; [f_equal|]; lia.
Qed.

Lemma alcanzable_diez_boxes U N s :
  alcanzable U N s → (length (boxes s) ≤ 10)%nat.
Proof.
  intros Halc. pose proof (alcanzable_Inv2 _ _ _ Halc) as H2.
  pose proof (alcanzable_num_boxes _ _ _ Halc).
  pose proof (i2_num_boxes _ _ _ H2). lia.
Qed.

Ltac caso_por_box i :=
  do 10 (destruct i as [|i]; [vm_compute; intuition congruence|]); lia.

(** [configurar_animacion] draws one rectangle per box.  Because there
    are at most ten boxes, the rectangles lie inside the axes, no two of
    them overlap, and none reaches into the waiting area; an eleventh box
    would be drawn over the waiting area. *)
Theorem boxes_dibujados_sin_solapar U N s :
  alcanzable U N s →
  length (configurar_animacion s) = length (boxes s)
  ∧ (∀ i r, configurar_animacion s !! i = Some r →
       dentro r ejes ∧ ¬ solapan r area_de_espera)
  ∧ (∀ i j ri rj,
       i ≠ j →
       configurar_animacion s !! i = Some ri →
       configurar_animacion s !! j = Some rj →
       ¬ solapan ri rj)
  ∧ solapan (rectangulo_box 10) area_de_espera.
Proof.
  intros Hdiez%alcanzable_diez_boxes. split_and!.
  - unfold configurar_animacion. rewrite length_fmap, length_seqZ. lia.
  - intros i r [-> Hi]%configurar_animacion_lookup.
    assert (i < 10)%nat as Hi10 by lia. clear -Hi10.
    caso_por_box i.
  - intros i j ri rj Hij [-> Hi]%configurar_animacion_lookup
      [-> Hj]%configurar_animacion_lookup.
    assert (i < 10)%nat as Hi10 by lia.
    assert (j < 10)%nat as Hj10 by lia. clear -Hij Hi10 Hj10.
    do 10 (destruct i as [|i];
           [do 10 (destruct j as [|j];
                   [first [done|vm_compute; intuition congruence]|]); lia|]).
    lia.
  - vm_compute. done.
Qed.

Lemma boxes_dibujados_sin_solapar_witness :
  ∃ s,
    __init__ 10 1 = Ok s
    ∧ length (configurar_animacion s) = length (boxes s)
    ∧ (∀ i r, configurar_animacion s !! i = Some r →
         dentro r ejes ∧ ¬ solapan r area_de_espera)
    ∧ (∀ i j ri rj,
         i ≠ j →
         configurar_animacion s !! i = Some ri →
         configurar_animacion s !! j = Some rj →
         ¬ solapan ri rj)
    ∧ solapan (rectangulo_box 10) area_de_espera.
Proof.
  eexists. split; [reflexivity|].
  apply (boxes_dibujados_sin_solapar (llegan 0) (atencion_fija 60)).
  apply (alcanzable_init _ _ 10 1). reflexivity.
Defined.

(** The clock of the information panel is the simulated time cut down to
    the minute, counted from 08:00: the minutes are between 0 and 59, the
    hour is 8 to 11 before the horizon, and the horizon itself reads
    12:00. *)
Theorem reloj_coherente U N s :
  alcanzable U N s →
  8 ≤ (reloj s).1
  ∧ 0 ≤ (reloj s).2 < 60
  ∧ ((reloj s).1 - 8) * 3600 + (reloj s).2 * 60 ≤ tiempo_actual s
  ∧ tiempo_actual s < ((reloj s).1 - 8) * 3600 + (reloj s).2 * 60 + 60
  ∧ (tiempo_actual s < 14400 → (reloj s).1 ≤ 11)
  ∧ (tiempo_actual s = 14400 → reloj s = (12, 0)).
Proof.
  intros H2%alcanzable_Inv2. pose proof (i2_tiempo _ _ _ H2) as Ht.
  unfold reloj. simpl.
  pose proof (Z.div_mod (tiempo_actual s) 60 ltac:(lia)).
  pose proof (Z.mod_pos_bound (tiempo_actual s) 60 ltac:(lia)).
  pose proof (Z.div_mod (tiempo_actual s / 60) 60 ltac:(lia)).
  pose proof (Z.mod_pos_bound (tiempo_actual s / 60) 60 ltac:(lia)).
  split_and!; try lia.
  intros ->. reflexivity.
Qed.

Lemma reloj_coherente_witness :
  ∃ s0 s,
    __init__ 2 1 = Ok s0
    ∧ pasos (llegan 5) (atencion_fija 90) 3725 s0 = Ok s
    ∧ reloj s = (9, 2)
    ∧ 8 ≤ (reloj s).1
    ∧ 0 ≤ (reloj s).2 < 60
    ∧ ((reloj s).1 - 8) * 3600 + (reloj s).2 * 60 ≤ tiempo_actual s
    ∧ tiempo_actual s < ((reloj s).1 - 8) * 3600 + (reloj s).2 * 60 + 60
    ∧ (tiempo_actual s < 14400 → (reloj s).1 ≤ 11)
    ∧ (tiempo_actual s = 14400 → reloj s = (12, 0)).
Proof.
  eexists _, _. split; [reflexivity|]. split; [vm_compute; reflexivity|].
  split; [reflexivity|].
  apply (reloj_coherente (llegan 5) (atencion_fija 90)).
  eapply (alcanzable_pasos (llegan 5) (atencion_fija 90) 3725);
    [eapply (alcanzable_init _ _ 2 1); reflexivity|vm_compute; reflexivity].
Defined.

(** ** The dialogue of [main.py] *)

Lemma pedir_aceptado lo hi entradas n resto :
  Main.pedir lo hi entradas = Some (n, resto) →
  lo ≤ n ≤ hi
  ∧ ∃ antes,
      entradas = antes ++ Main.Entero n :: resto
      ∧ Forall (Main.rechazada lo hi) antes.
Proof.
  induction entradas as [|l entradas IH]; [done|]. simpl.
  destruct l as [|z|]; simpl.
  - intros (Hn & antes & -> & Hantes)%IH. split; [done|].
    exists (Main.Vacia :: antes). split; [done|]. by constructor.
  - case_decide as Hz.
    + intros [= <- <-]. split; [lia|]. by exists [].
    + intros (Hn & antes & -> & Hantes)%IH. split; [done|].
      exists (Main.Entero z :: antes). split; [done|]. by constructor.
  - intros (Hn & antes & -> & Hantes)%IH. split; [done|].
    exists (Main.Invalida :: antes). split; [done|]. by constructor.
Qed.

Lemma pedir_rechazadas lo hi antes entradas :
  Forall (Main.rechazada lo hi) antes →
  Main.pedir lo hi (antes ++ entradas) = Main.pedir lo hi entradas.
Proof.
  induction 1 as [|l antes Hl _ IH]; [done|]. simpl.
  unfold Main.rechazada in Hl. destruct (Main.int_input l) as [n|]; [|done].
  by rewrite decide_False.
Qed.

(** [main] never lets the constructor raise: the box count it passes has
    gone through the prompt loop, so it is between 1 and 10, it is the
    first acceptable entry typed, and the engine handed to the run is a
    freshly built one.  The dialogue can only break off on the end of the
    input or on a speed that is not a number. *)
Theorem main_construye entradas :
  (∀ e, Main.main entradas ≠ Main.Falla e)
  ∧ ∀ s resto,
      (Main.main entradas = Main.Rapida s resto
       ∨ ∃ guardar_video velocidad,
           Main.main entradas = Main.Animada s guardar_video velocidad resto) →
      ∃ n antes despues,
        1 ≤ n ≤ 10
        ∧ __init__ n 1 = Ok s
        ∧ entradas = antes ++ Main.Entero n :: despues
        ∧ Forall (Main.rechazada 1 10) antes.
Proof.
  unfold Main.main.
  destruct (Main.pedir 1 10 entradas) as [[n e1]|] eqn:Hn.
  2:{ split; [done|]. intros s resto [?|(? & ? & ?)]; done. }
  apply pedir_aceptado in Hn as (Hn & antes & -> & Hantes).
  destruct (Main.pedir 1 3 e1) as [[opcion e2]|] eqn:Ho.
  2:{ split; [done|]. intros s resto [?|(? & ? & ?)]; done. }
  assert (∃ s0, __init__ n 1 = Ok s0) as [s0 Hs0].
  { unfold __init__. rewrite decide_True by lia. eauto. }
  rewrite Hs0.
  assert (∀ g d e, Main.pedir_velocidad s0 g d e2 ≠ Main.Falla e) as Hv.
  { intros g d e. unfold Main.pedir_velocidad.
    destruct e2 as [|[|z|] e2]; done. }
  assert (∀ g d s resto,
            (Main.pedir_velocidad s0 g d e2 = Main.Rapida s resto
             ∨ ∃ g' v, Main.pedir_velocidad s0 g d e2 = Main.Animada s g' v resto)
            → s = s0) as Hs.
  { intros g d s resto. unfold Main.pedir_velocidad.
    destruct e2 as [|[|z|] e2]; intros [?|(? & ? & ?)]; congruence. }
  split.
  - intros e. repeat case_decide; try done; apply Hv.
  - intros s resto Hfin. exists n, antes, e1.
    assert (s = s0) as ->; [|done].
    repeat case_decide.
    + by eapply Hs.
    + destruct Hfin as [?|(? & ? & ?)]; congruence.
    + by eapply Hs.
Qed.

Lemma main_construye_witness :
  Main.main [Main.Entero 0; Main.Invalida; Main.Entero 4; Main.Entero 7;
             Main.Entero 3; Main.Vacia]
  = match __init__ 4 1 with
    | Ok s => Main.Animada s false 50 []
    | Raise e => Main.Falla e
    end
  ∧ (∀ e, Main.main [Main.Entero 0; Main.Invalida; Main.Entero 4;
                     Main.Entero 7; Main.Entero 3; Main.Vacia]
          ≠ Main.Falla e).
Proof.
  split; [reflexivity|].
  apply (main_construye [Main.Entero 0; Main.Invalida; Main.Entero 4;
                         Main.Entero 7; Main.Entero 3; Main.Vacia]).
Defined.

(** Entries that the first prompt refuses (not a number, or a number
    outside 1-10) change nothing: [main] behaves as if they had not been
    typed. *)
Theorem main_reintenta antes entradas :
  Forall (Main.rechazada 1 10) antes →
  Main.main (antes ++ entradas) = Main.main entradas.
Proof.
  intros Hantes. unfold Main.main. by rewrite pedir_rechazadas.
Qed.

Lemma main_reintenta_witness :
  Main.main ([Main.Invalida; Main.Entero 0; Main.Entero 11; Main.Vacia]
             ++ [Main.Entero 3; Main.Entero 2])
  = Main.main [Main.Entero 3; Main.Entero 2].
Proof.
  apply (main_reintenta [Main.Invalida; Main.Entero 0; Main.Entero 11; Main.Vacia]).
  repeat constructor; unfold Main.rechazada; simpl; lia.
Defined.

(** ** Turns and scheduled completions *)

Lemma iniciados_take_ext (l l' : list Cliente.t) k :
  (∀ i, (i < k)%nat →
     Cliente.tiempo_inicio_atencion <$> l !! i
     = Cliente.tiempo_inicio_atencion <$> l' !! i) →
  length (filter iniciado (take k l)) = length (filter iniciado (take k l')).
Proof.
  revert l l'. induction k as [|k IH]; intros l l' Hext; [by rewrite !take_0|].
  pose proof (Hext 0%nat ltac:(lia)) as H0.
  destruct l as [|c l], l' as [|c' l']; simpl in H0; try done.
  injection H0 as H0. simpl. rewrite !filter_cons.
  assert (length (filter iniciado (take k l))
          = length (filter iniciado (take k l'))) as Hresto.
  { apply IH. intros i Hi. apply (Hext (S i)). lia. }
  destruct (decide (iniciado c)) as [Hc|Hc],
    (decide (iniciado c')) as [Hc'|Hc']; simpl;
    try (by rewrite Hresto); exfalso; unfold iniciado in *;
    rewrite H0 in *; done.
Qed.

Lemma iniciados_ext (l l' : list Cliente.t) :
  length l = length l' →
  (∀ i, Cliente.tiempo_inicio_atencion <$> l !! i
        = Cliente.tiempo_inicio_atencion <$> l' !! i) →
  length (filter iniciado l) = length (filter iniciado l').
Proof.
  intros Hlen Hext.
  pose proof (iniciados_take_ext l l' (length l) (λ i _, Hext i)) as H.
  rewrite !take_ge in H by lia. exact H.
Qed.

Lemma filter_ninguno {A} (P : A → Prop) `{∀ x, Decision (P x)} (l : list A) :
  (∀ x, x ∈ l → ¬ P x) → filter P l = [].
Proof.
  induction l as [|x l IH]; intros Hl; [done|].
  rewrite filter_cons, decide_False by (apply Hl; left).
  apply IH. intros y Hy. apply Hl. by right.
Qed.

Lemma iniciados_desde (l : list Cliente.t) r :
  (∀ i c, (r ≤ i)%nat → l !! i = Some c → ¬ iniciado c) →
  length (filter iniciado l) = length (filter iniciado (take r l)).
Proof.
  intros Hdesde. rewrite <- (take_drop r l) at 1.
  rewrite filter_app, length_app.
  rewrite (filter_ninguno iniciado (drop r l)); [simpl; lia|].
  intros x (j & Hj)%list_elem_of_lookup_1. rewrite lookup_drop in Hj.
  apply (Hdesde (r + j)%nat); [lia|done].
Qed.

Lemma iniciados_insert (l : list Cliente.t) r c c' :
  l !! r = Some c → ¬ iniciado c → iniciado c' →
  (∀ i x, (r < i)%nat → l !! i = Some x → ¬ iniciado x) →
  length (filter iniciado (take r l)) = length (filter iniciado l)
  ∧ length (filter iniciado (<[r := c']> l))
    = S (length (filter iniciado l)).
Proof.
  intros Hc Hno Hsi Hdespues.
  assert (length (filter iniciado l) = length (filter iniciado (take r l)))
    as Htodos.
  { apply iniciados_desde. intros i x Hi Hx.
    destruct (decide (i = r)) as [->|Hne]; [congruence|].
    apply (Hdespues i); [lia|done]. }
  split; [done|].
  rewrite (iniciados_desde (<[r := c']> l) (S r)).
  - rewrite (take_S_r _ _ c')
      by (apply list_lookup_insert_eq; by eapply lookup_lt_Some).
    rewrite take_insert_ge by lia.
    rewrite filter_app, length_app, filter_cons, decide_True by done.
    simpl. lia.
  - intros i x Hi. rewrite list_lookup_insert_ne by lia.
    apply Hdespues. lia.
Qed.

Lemma duracion_del_turno_config N s s' k :
  config s' = config s →
  duracion_del_turno N s' k = duracion_del_turno N s k.
Proof.
  unfold config, duracion_del_turno. by intros [= _ _ _ _ -> -> _ _].
Qed.

Lemma inicio_previo (l l' : list Cliente.t) r c' :
  Cliente.tiempo_inicio_atencion <$> l' !! r
  = Cliente.tiempo_inicio_atencion <$> l !! r →
  l' !! r = Some c' →
  ∃ c, l !! r = Some c
       ∧ Cliente.tiempo_inicio_atencion c = Cliente.tiempo_inicio_atencion c'.
Proof.
  intros Heq Hc'. rewrite Hc' in Heq. destruct (l !! r) as [c|]; [|done].
  injection Heq as Heq. by exists c.
Qed.

(** States that agree on the boxes, the clock, the draws and the service
    stamps, the second with no newcomer in its queue. *)
Lemma Inv3_transfer N k s s' :
  Inv3 N k s →
  config s' = config s →
  tiempo_actual s' = tiempo_actual s →
  pos_numpy s' = pos_numpy s →
  boxes s' = boxes s →
  length (objetos s') = length (objetos s) →
  (∀ r, Cliente.tiempo_inicio_atencion <$> objetos s' !! r
        = Cliente.tiempo_inicio_atencion <$> objetos s !! r) →
  (∀ r, Cliente.tiempo_fin_atencion <$> objetos s' !! r
        = Cliente.tiempo_fin_atencion <$> objetos s !! r) →
  (∀ r, r ∈ cola s' → r ∈ cola s) →
  Inv3 N k s'.
Proof.
  intros H3 Hcfg Ht Hnp Hbx Hlen Hini Hfin Hq.
  assert (∀ r, turno s' r = turno s r) as Hturno.
  { intros r. unfold turno. apply iniciados_take_ext. intros i _. apply Hini. }
  split.
  - intros r r' c' Hr Hlt Hc'.
    destruct (inicio_previo _ _ r' c' (Hini r') Hc') as (c & Hc & Heq).
    unfold iniciado. rewrite <- Heq.
    apply (i3_fifo _ _ _ H3 r r' c); auto.
  - intros r r' c c' ti ti' Hlt Hc Hc' Hti Hti'.
    destruct (inicio_previo _ _ r c (Hini r) Hc) as (d & Hd & Heq).
    destruct (inicio_previo _ _ r' c' (Hini r') Hc') as (d' & Hd' & Heq').
    apply (i3_orden _ _ _ H3 r r' d d'); congruence.
  - rewrite Hnp, (i3_numpy _ _ _ H3). f_equal. symmetry.
    by apply iniciados_ext.
  - intros r c ti tf Hc Hti Htf.
    destruct (inicio_previo _ _ r c (Hini r) Hc) as (d & Hd & Heq).
    pose proof (Hfin r) as Hf. rewrite Hc, Hd in Hf. injection Hf as Hf.
    rewrite Hturno, (duracion_del_turno_config N s s' _ Hcfg).
    apply (i3_fin _ _ _ H3 r d); congruence.
  - intros i b r c ti fin Hb Hr Hc Hti Hfinb.
    destruct (inicio_previo _ _ r c (Hini r) Hc) as (d & Hd & Heq).
    rewrite Hbx in Hb.
    rewrite Hturno, (duracion_del_turno_config N s s' _ Hcfg), Ht.
    apply (i3_box _ _ _ H3 i b r d); congruence.
Qed.

Lemma Inv3___init__ N n v s : __init__ n v = Ok s → Inv3 N 0 s.
Proof.
  unfold __init__. case_decide; [|done]. intros [= <-]. split; simpl.
  - intros r r' c' Hr. by apply elem_of_nil in Hr.
  - intros r r' c c' ti ti' _ Hc. done.
  - done.
  - intros r c ti tf Hc. done.
  - intros i b r c ti fin Hb Hr.
    rewrite list_lookup_fmap in Hb.
    destruct (seqZ 0 n !! i); [|done]. injection Hb as <-. done.
Qed.

Lemma lookup_snoc_iniciado (l : list Cliente.t) a b r c :
  (l ++ [Cliente.nuevo a b]) !! r = Some c → iniciado c → l !! r = Some c.
Proof.
  intros Hc Hini. destruct (decide (r < length l)%nat) as [Hlt|Hge].
  - by rewrite lookup_app_l in Hc.
  - rewrite lookup_app_r in Hc by lia.
    destruct (r - length l)%nat; [|done].
    injection Hc as <-. by destruct Hini.
Qed.

Lemma Inv3_procesar_llegadas U N s :
  Inv s → Inv3 N 0 s → Inv3 N 0 (procesar_llegadas U s).
Proof.
  intros HI H3.
  destruct (procesar_llegadas_spec U s)
    as (Ht & Hab & Hat & Hbx & Hnp
        & [(_ & Hq & Hobj & _)|(_ & _ & Hq & Hobj & _)]).
  - apply (Inv3_transfer N 0%nat s); try done.
    + apply config_procesar_llegadas.
    + by rewrite Hobj.
    + intros r. by rewrite Hobj.
    + intros r. by rewrite Hobj.
    + intros r. by rewrite Hq.
  - pose proof (config_procesar_llegadas U s) as Hcfg.
    assert (∀ r c, objetos (procesar_llegadas U s) !! r = Some c →
                   iniciado c → objetos s !! r = Some c) as Hprevio.
    { intros r c. rewrite Hobj. apply lookup_snoc_iniciado. }
    assert (∀ r c, objetos s !! r = Some c →
                   turno (procesar_llegadas U s) r = turno s r) as Hturno.
    { intros r c Hc%lookup_lt_Some. unfold turno. rewrite Hobj.
      by rewrite take_app_le by lia. }
    split.
    + intros r r' c' Hr Hlt Hc' Hini.
      pose proof (Hprevio r' c' Hc' Hini) as Hc.
      rewrite Hq in Hr. apply elem_of_app in Hr as [Hr|Hr].
      * by apply (i3_fifo _ _ _ H3 r r' c').
      * apply list_elem_of_singleton in Hr. subst r.
        apply lookup_lt_Some in Hc. lia.
    + intros r r' c c' ti ti' Hlt Hc Hc' Hti Hti'.
      apply (i3_orden _ _ _ H3 r r' c c'); try done.
      * apply Hprevio; [done|]. unfold iniciado. by rewrite Hti.
      * apply Hprevio; [done|]. unfold iniciado. by rewrite Hti'.
    + rewrite Hnp, (i3_numpy _ _ _ H3), Hobj, filter_app, length_app.
      rewrite (filter_ninguno iniciado [_]); [simpl; f_equal; lia|].
      intros x ->%list_elem_of_singleton [? Hx]. done.
    + intros r c ti tf Hc Hti Htf.
      assert (objetos s !! r = Some c) as Hc0.
      { apply Hprevio; [done|]. unfold iniciado. by rewrite Hti. }
      rewrite (Hturno r c Hc0), (duracion_del_turno_config N s _ _ Hcfg).
      by apply (i3_fin _ _ _ H3 r c).
    + intros i b r c ti fin Hb Hr Hc Hti Hfin.
      assert (objetos s !! r = Some c) as Hc0.
      { apply Hprevio; [done|]. unfold iniciado. by rewrite Hti. }
      rewrite Hbx in Hb.
      rewrite (Hturno r c Hc0), (duracion_del_turno_config N s _ _ Hcfg), Ht.
      by apply (i3_box _ _ _ H3 i b r c).
Qed.

Lemma Inv3_asignar_box N s i s' :
  Inv s → Inv2 0 0 s → Inv3 N 0 s →
  asignar_box N s i = Ok s' → Inv3 N 0 s'.
Proof.
  intros HI H2 H3 Hpaso.
  apply asignar_box_efecto in Hpaso
    as [[-> _]|(b & r & resto & c & Hb & Hlibre & Hcola & Hc & ->)]; [done|].
  assert (r ∈ cola s) as Hr by (rewrite Hcola; left).
  destruct (inv_cola s HI r Hr) as (c0 & Hc0 & Hnoini & Hnoab & _).
  assert (c0 = c) as -> by congruence.
  assert (¬ iniciado c) as Hno by (unfold iniciado; rewrite Hnoini; by intros [? ?]).
  assert (Cliente.tiempo_fin_atencion c = None) as Hnofin.
  { pose proof (i2_registro _ _ _ H2 r c Hc) as [_ Hbf].
    rewrite Hnoini, Hnoab in Hbf. by destruct Hbf as (_ & ? & _). }
  assert (∀ j x, (r < j)%nat → objetos s !! j = Some x → ¬ iniciado x)
    as Hdespues.
  { intros j x Hj Hx. by apply (i3_fifo _ _ _ H3 r j x). }
  set (c2 := Cliente.set_box_asignado (Some (Box.id b))
               (Cliente.set_tiempo_inicio_atencion
                  (Some (tiempo_actual s)) c)).
  assert (iniciado c2) as Hsi by (unfold iniciado; simpl; eauto).
  destruct (iniciados_insert (objetos s) r c c2 Hc Hno Hsi Hdespues)
    as [Htake Hcuenta].
  assert (∀ r1, r1 ∈ resto → (r < r1)%nat) as Hmenor.
  { pose proof (i2_cola_orden _ _ _ H2) as Hs. rewrite Hcola in Hs.
    apply StronglySorted_inv in Hs as [_ Hall].
    intros r1 Hr1. by apply (proj1 (Forall_forall _ _) Hall). }
  assert (∀ r0 x, r0 ≠ r → objetos s !! r0 = Some x → iniciado x →
                  (r0 < r)%nat) as Hantes.
  { intros r0 x Hne Hx Hini.
    destruct (decide (r0 < r)%nat); [done|].
    exfalso. apply (Hdespues r0 x); [lia|done|done]. }
  assert (∀ r0, (r0 ≤ r)%nat →
                length (filter iniciado (take r0 (<[r := c2]> (objetos s))))
                = turno s r0) as Hturno.
  { intros r0 Hr0. unfold turno. by rewrite take_insert_ge by lia. }
  assert (60 ≤ (generar_tiempo_atencion N s).1) as Hdur.
  { unfold generar_tiempo_atencion, py_max. simpl. case_decide; lia. }
  assert ((generar_tiempo_atencion N s).1 = duracion_del_turno N s (turno s r))
    as Hgen.
  { unfold generar_tiempo_atencion, duracion_del_turno. simpl.
    rewrite (i3_numpy _ _ _ H3). unfold turno. by rewrite Htake. }
  split; simpl.
  - intros r1 r' c' Hr1 Hlt Hc'.
    pose proof (Hmenor r1 Hr1).
    rewrite list_lookup_insert_ne in Hc' by lia.
    apply (i3_fifo _ _ _ H3 r1 r' c'); [|done|done].
    rewrite Hcola. by right.
  - intros a a' x x' ti ti' Hlt Hx Hx' Hti Hti'.
    destruct (decide (a = r)) as [->|Ha].
    { exfalso. rewrite list_lookup_insert_ne in Hx' by lia.
      apply (Hdespues a' x'); [done|done|]. unfold iniciado. by rewrite Hti'. }
    rewrite list_lookup_insert_ne in Hx by done.
    destruct (decide (a' = r)) as [->|Ha'].
    + rewrite list_lookup_insert_eq in Hx' by (by eapply lookup_lt_Some).
      injection Hx' as <-. simpl in Hti'. injection Hti' as <-.
      pose proof (i2_registro _ _ _ H2 a x Hx) as [_ Hbf].
      rewrite Hti in Hbf. destruct (Cliente.abandono x); [done|].
      destruct Hbf as (_ & _ & ? & _). lia.
    + rewrite list_lookup_insert_ne in Hx' by done.
      by apply (i3_orden _ _ _ H3 a a' x x').
  - rewrite Hcuenta, (i3_numpy _ _ _ H3). lia.
  - intros r0 x ti tf Hx Hti Htf.
    destruct (decide (r0 = r)) as [->|Hne].
    { rewrite list_lookup_insert_eq in Hx by (by eapply lookup_lt_Some).
      injection Hx as <-. simpl in Htf. congruence. }
    rewrite list_lookup_insert_ne in Hx by done.
    assert (r0 < r)%nat as Hlt.
    { apply (Hantes r0 x); [done|done|]. unfold iniciado. by rewrite Hti. }
    unfold turno at 1. simpl. rewrite Hturno by lia.
    by apply (i3_fin _ _ _ H3 r0 x).
  - intros i0 b0 r0 x ti fin Hb0 Hr0 Hx Hti Hfin.
    unfold turno at 1. simpl.
    destruct (decide (i0 = i)) as [->|Hi].
    + rewrite list_lookup_insert_eq in Hb0 by (by eapply lookup_lt_Some).
      injection Hb0 as <-. simpl in Hr0, Hfin.
      injection Hr0 as <-. injection Hfin as <-.
      rewrite list_lookup_insert_eq in Hx by (by eapply lookup_lt_Some).
      injection Hx as <-. simpl in Hti. injection Hti as <-.
      rewrite Hturno by lia.
      split; [exact (f_equal (Z.add (tiempo_actual s)) Hgen)|].
      change (tiempo_actual s + 0
              ≤ tiempo_actual s + (generar_tiempo_atencion N s).1).
      lia.
    + rewrite list_lookup_insert_ne in Hb0 by done.
      destruct (decide (r0 = r)) as [->|Hne].
      { exfalso.
        destruct (Inv_disjuntos s r HI) as (Hdis & _).
        destruct (Hdis Hr) as (Hnobox & _). apply Hnobox.
        by eapply elem_of_en_boxes. }
      rewrite list_lookup_insert_ne in Hx by done.
      assert (r0 < r)%nat as Hlt.
      { apply (Hantes r0 x); [done|done|]. unfold iniciado. by rewrite Hti. }
      rewrite Hturno by lia.
      by apply (i3_box _ _ _ H3 i0 b0 r0 x).
Qed.

Lemma Inv3_asignar_clientes_a_boxes N s s' :
  Inv s → Inv2 0 0 s → Inv3 N 0 s →
  asignar_clientes_a_boxes N s = Ok s' → Inv3 N 0 s'.
Proof.
  intros HI H2 H3 Hrun. unfold asignar_clientes_a_boxes in Hrun.
  pose proof (for_each_seq_rel
                (λ _ s1, Inv s1 ∧ Inv2 0 0 s1 ∧ Inv3 N 0 s1
                         ∧ length (boxes s1) = length (boxes s))
                (asignar_box N) (length (boxes s)) 0 s s' Hrun) as Hloop.
  destruct Hloop as (_ & _ & ? & _); [done| |done].
  intros k s1 s2 Hk (HI1 & H21 & H31 & Hlen) Hpaso.
  destruct (Inv_asignar_box N s1 k HI1) as (s2' & Hs2' & HI2); [lia|].
  assert (s2' = s2) as -> by congruence.
  split; [done|]. split; [exact (Inv2_asignar_box N s1 k s2 HI1 H21 Hpaso)|].
  split; [exact (Inv3_asignar_box N s1 k s2 HI1 H21 H31 Hpaso)|].
  by rewrite (marco_boxes _ _ (marco_asignar_box N s1 k s2 Hpaso)).
Qed.

Lemma finalizar_box_casos s i s' :
  finalizar_box s i = Ok s' →
  ∃ b,
    boxes s !! i = Some b
    ∧ ((Box.ocupado b = false ∧ s' = s)
       ∨ ∃ fin,
           Box.ocupado b = true
           ∧ Box.tiempo_fin_atencion b = Some fin
           ∧ ((tiempo_actual s < fin ∧ s' = s)
              ∨ (fin ≤ tiempo_actual s
                 ∧ ∃ r c,
                     Box.cliente_actual b = Some r
                     ∧ objetos s !! r = Some c
                     ∧ cola s' = cola s
                     ∧ pos_numpy s' = pos_numpy s
                     ∧ tiempo_actual s' = tiempo_actual s
                     ∧ config s' = config s
                     ∧ objetos s'
                       = <[r := Cliente.set_tiempo_fin_atencion
                                 (Some (tiempo_actual s)) c]> (objetos s)
                     ∧ boxes s'
                       = <[i := Box.mk (Box.id b) false None None]>
                           (boxes s)))).
Proof.
  unfold finalizar_box. intros (b & Hb%of_option_Ok & H)%bind_Ok.
  exists b. split; [done|].
  destruct (Box.ocupado b) eqn:Hoc; [|injection H as <-; by left].
  apply bind_Ok in H as (fin & Hfin%of_option_Ok & H).
  right. exists fin. split; [done|]. split; [done|].
  case_decide as Hdue; [|injection H as <-; left; split; [lia|done]].
  apply bind_Ok in H as (r & Hr%of_option_Ok & H).
  apply bind_Ok in H as (s1 & (c & Hc & ->)%modificar_Ok & H).
  apply bind_Ok in H as (c1 & Hc1%of_option_Ok & H). injection H as <-.
  right. split; [done|]. exists r, c. split_and!; done.
Qed.

Lemma Inv3_avanza_frontera N k s :
  Inv3 N k s →
  (∀ b r fin,
     boxes s !! k = Some b → Box.cliente_actual b = Some r →
     Box.tiempo_fin_atencion b = Some fin → tiempo_actual s < fin) →
  Inv3 N (S k) s.
Proof.
  intros H3 Hk. split; try apply H3.
  intros i b r c ti fin Hb Hr Hc Hti Hfin.
  destruct (i3_box _ _ _ H3 i b r c ti fin Hb Hr Hc Hti Hfin) as [Heq Hcota].
  split; [done|].
  destruct (decide (i = k)) as [->|Hne].
  - pose proof (Hk b r fin Hb Hr Hfin). repeat case_decide; lia.
  - repeat case_decide; lia.
Qed.

Lemma Inv3_finalizar_box N s k s' :
  Inv s → Inv3 N k s → finalizar_box s k = Ok s' → Inv3 N (S k) s'.
Proof.
  intros HI H3 Hpaso.
  apply finalizar_box_casos in Hpaso
    as (b & Hb & [[Hlibre ->]
                 |(fin & Hoc & Hfin
                   & [[Hpend ->]
                     |(Hdue & r & c & Hr & Hc & Hq & Hnp & Ht & Hcfg
                       & Hobj & Hbx)])]).
  - apply Inv3_avanza_frontera; [done|]. intros b' r fin Hb' Hr.
    assert (b' = b) as -> by congruence.
    pose proof (inv_boxes s HI k b Hb) as Hok. unfold box_ok in Hok.
    rewrite Hlibre in Hok. destruct Hok. congruence.
  - apply Inv3_avanza_frontera; [done|]. intros b' r fin' Hb' Hr Hfin'.
    congruence.
  - assert (∀ r0, Cliente.tiempo_inicio_atencion <$> objetos s' !! r0
                  = Cliente.tiempo_inicio_atencion <$> objetos s !! r0)
      as Hini.
    { intros r0. rewrite Hobj. destruct (decide (r0 = r)) as [->|Hne].
      - rewrite list_lookup_insert_eq by (by eapply lookup_lt_Some).
        by rewrite Hc.
      - by rewrite list_lookup_insert_ne by done. }
    assert (∀ r0, turno s' r0 = turno s r0) as Hturno.
    { intros r0. unfold turno. apply iniciados_take_ext. intros j _.
      apply Hini. }
    split.
    + intros r0 r' c' Hr0 Hlt Hc'.
      destruct (inicio_previo _ _ r' c' (Hini r') Hc') as (d & Hd & Heq).
      unfold iniciado. rewrite <- Heq. rewrite Hq in Hr0.
      apply (i3_fifo _ _ _ H3 r0 r' d); auto.
    + intros r0 r' x x' ti ti' Hlt Hx Hx' Hti Hti'.
      destruct (inicio_previo _ _ r0 x (Hini r0) Hx) as (d & Hd & Heq).
      destruct (inicio_previo _ _ r' x' (Hini r') Hx') as (d' & Hd' & Heq').
      apply (i3_orden _ _ _ H3 r0 r' d d'); congruence.
    + rewrite Hnp, (i3_numpy _ _ _ H3). f_equal. symmetry.
      apply iniciados_ext; [|done]. by rewrite Hobj, length_insert.
    + intros r0 x ti tf Hx Hti Htf.
      rewrite Hturno, (duracion_del_turno_config N s s' _ Hcfg).
      rewrite Hobj in Hx. destruct (decide (r0 = r)) as [->|Hne].
      * rewrite list_lookup_insert_eq in Hx by (by eapply lookup_lt_Some).
        injection Hx as <-. simpl in Hti, Htf. injection Htf as <-.
        destruct (i3_box _ _ _ H3 k b r c ti fin Hb Hr Hc Hti Hfin)
          as [Heq Hcota].
        rewrite decide_False in Hcota by lia. lia.
      * rewrite list_lookup_insert_ne in Hx by done.
        by apply (i3_fin _ _ _ H3 r0 x).
    + intros i0 b0 r0 x ti fin0 Hb0 Hr0 Hx Hti Hfin0.
      rewrite Hbx in Hb0. destruct (decide (i0 = k)) as [->|Hne].
      { rewrite list_lookup_insert_eq in Hb0 by (by eapply lookup_lt_Some).
        injection Hb0 as <-. done. }
      rewrite list_lookup_insert_ne in Hb0 by done.
      destruct (inicio_previo _ _ r0 x (Hini r0) Hx) as (d & Hd & Heq).
      rewrite Hturno, (duracion_del_turno_config N s s' _ Hcfg), Ht.
      destruct (i3_box _ _ _ H3 i0 b0 r0 d ti fin0) as [Hfin1 Hcota];
        try done; [congruence|].
      split; [done|]. repeat case_decide; lia.
Qed.

Lemma Inv3_procesar_finalizacion_atencion N s s' :
  Inv s → Inv2 0 0 s → Inv3 N 0 s →
  procesar_finalizacion_atencion s = Ok s' →
  Inv3 N (length (boxes s')) s'.
Proof.
  intros HI H2 H3 Hrun. unfold procesar_finalizacion_atencion in Hrun.
  pose proof (for_each_seq_rel
                (λ k s1, Inv s1 ∧ Inv3 N k s1
                         ∧ length (boxes s1) = length (boxes s))
                finalizar_box (length (boxes s)) 0 s s' Hrun) as Hloop.
  destruct Hloop as (_ & ? & Hlen); [done| |by rewrite Hlen].
  intros k s1 s2 Hk (HI1 & H31 & Hlen) Hpaso.
  destruct (Inv_finalizar_box s1 k HI1) as (s2' & Hs2' & HI2); [lia|].
  assert (s2' = s2) as -> by congruence.
  split; [done|]. split; [exact (Inv3_finalizar_box N s1 k s2 HI1 H31 Hpaso)|].
  by rewrite (marco_boxes _ _ (marco_finalizar_box s1 k s2 Hpaso)).
Qed.

Lemma Inv3_procesar_abandonos N k s s' :
  Inv s → Inv3 N k s → procesar_abandonos s = Ok s' → Inv3 N k s'.
Proof.
  intros HI H3 Hrun.
  destruct (procesar_abandonos_spec s HI)
    as (s'' & Hrun' & _ & Hq & _ & Hbx & Hobj).
  assert (s'' = s') as -> by congruence.
  pose proof (marco_procesar_abandonos s s' Hrun) as Hm.
  pose proof (ajeno_procesar_abandonos s s' Hrun) as Haj.
  unfold ajeno_al_abandono in Haj. injection Haj as _ _ Hnp _.
  apply (Inv3_transfer N k s); try done; try apply Hm.
  - intros r. rewrite Hobj. case_decide; [|done].
    by destruct (objetos s !! r).
  - intros r. rewrite Hobj. case_decide; [|done].
    by destruct (objetos s !! r).
  - intros r. rewrite Hq. by intros [_ ?]%list_elem_of_filter.
Qed.

Lemma Inv3_set_tiempo_actual N s :
  Inv3 N (length (boxes s)) s →
  Inv3 N 0 (set_tiempo_actual (tiempo_actual s + 1) s).
Proof.
  intros H3. split; try apply H3.
  intros i b r c ti fin Hb Hr Hc Hti Hfin. simpl in *.
  destruct (i3_box _ _ _ H3 i b r c ti fin Hb Hr Hc Hti Hfin) as [Heq Hcota].
  split; [done|]. apply lookup_lt_Some in Hb.
  rewrite decide_True in Hcota by done. rewrite ?decide_False by lia. lia.
Qed.

Lemma simular_paso_Inv3 U N s s' :
  Inv s → Inv2 1 0 s → Inv3 N 0 s →
  simular_paso U N s = Ok s' → Inv3 N 0 s'.
Proof.
  intros HI H2 H3 Hpaso.
  destruct (simular_paso_etapas U N s HI H2)
    as (s2 & s3 & s4 & Hs2 & Hs3 & Hs4 & Hs'
        & [HI1 H21] & [HI2 H22] & [HI3 H23] & _).
  assert (s' = set_tiempo_actual (tiempo_actual s4 + 1) s4) as ->
    by congruence.
  pose proof (Inv3_procesar_llegadas U N s HI H3) as H31.
  pose proof (Inv3_asignar_clientes_a_boxes N _ s2 HI1 H21 H31 Hs2) as H32.
  pose proof (Inv3_procesar_finalizacion_atencion N s2 s3 HI2 H22 H32 Hs3)
    as H33.
  pose proof (Inv3_procesar_abandonos N _ s3 s4 HI3 H33 Hs4) as H34.
  apply Inv3_set_tiempo_actual.
  by rewrite (marco_boxes _ _ (marco_procesar_abandonos s3 s4 Hs4)).
Qed.

Lemma alcanzable_Inv3 U N s : alcanzable U N s → Inv3 N 0 s.
Proof.
  induction 1 as [n v s Hinit|s s' Halc IH Hpaso].
  - by eapply Inv3___init__.
  - eapply (simular_paso_Inv3 U N s); [|  |exact IH|exact Hpaso].
    + by eapply alcanzable_Inv.
    + by eapply alcanzable_Inv2.
Qed.

Lemma turno_menor (l : list Cliente.t) r c :
  l !! r = Some c → iniciado c →
  (length (filter iniciado (take r l)) < length (filter iniciado l))%nat.
Proof.
  intros Hc Hini. rewrite <- (take_drop_middle l r c Hc) at 2.
  rewrite filter_app, length_app, filter_cons, decide_True by done.
  simpl. lia.
Qed.

Lemma en_boxes_box bs r :
  r ∈ en_boxes bs → ∃ i b, bs !! i = Some b ∧ Box.cliente_actual b = Some r.
Proof.
  intros (b & Hb & Hr)%list_elem_of_omap.
  apply list_elem_of_lookup_1 in Hb as [i Hi]. by exists i, b.
Qed.

(** The service time of a customer is the one drawn for it.  Customers
    take the draws of [np.random.normal] in the order in which they were
    created: the customer with [turno] [k] is served for
    [max(60, int(x))] seconds, [x] being the [k]-th draw.  Once served, its
    end stamp is the start stamp plus that time; until then it sits in a
    box scheduled to complete at exactly that tick, which has not yet
    passed. *)
Theorem servicio_segun_sorteo U N s :
  alcanzable U N s →
  ∀ r c ti,
    objetos s !! r = Some c →
    Cliente.tiempo_inicio_atencion c = Some ti →
    (N.of_nat (turno s r) < pos_numpy s)%N
    ∧ match Cliente.tiempo_fin_atencion c with
      | Some tf =>
          tf = ti + py_max 60 (py_int (N (N.of_nat (turno s r)) 600 300))
          ∧ Cliente.tiempo_atencion c
            = Some (py_max 60 (py_int (N (N.of_nat (turno s r)) 600 300)))
          ∧ r ∈ clientes_atendidos s
      | None =>
          ∃ i b,
            boxes s !! i = Some b
            ∧ Box.cliente_actual b = Some r
            ∧ Box.tiempo_fin_atencion b
              = Some (ti + py_max 60
                             (py_int (N (N.of_nat (turno s r)) 600 300)))
            ∧ tiempo_actual s
              ≤ ti + py_max 60 (py_int (N (N.of_nat (turno s r)) 600 300))
      end.
Proof.
  intros Halc r c ti Hc Hti.
  pose proof (alcanzable_Inv _ _ _ Halc) as HI.
  pose proof (alcanzable_Inv2 _ _ _ Halc) as H2.
  pose proof (alcanzable_Inv3 _ _ _ Halc) as H3.
  pose proof (alcanzable_config _ _ _ Halc) as Hcfg.
  unfold config, config_inicial in Hcfg.
  injection Hcfg as _ _ _ Hmedia Hdesvio _ _.
  assert (∀ k, duracion_del_turno N s k
               = py_max 60 (py_int (N (N.of_nat k) 600 300))) as Hdur.
  { intros k. unfold duracion_del_turno. by rewrite Hmedia, Hdesvio. }
  assert (iniciado c) as Hini by (unfold iniciado; rewrite Hti; eauto).
  split.
  { rewrite (i3_numpy _ _ _ H3). unfold turno.
    pose proof (turno_menor (objetos s) r c Hc Hini). lia. }
  destruct (Cliente.tiempo_fin_atencion c) as [tf|] eqn:Htf.
  - pose proof (i3_fin _ _ _ H3 r c ti tf Hc Hti Htf) as Heq.
    rewrite Hdur in Heq. split; [done|]. split.
    { unfold Cliente.tiempo_atencion. rewrite Hti, Htf. f_equal. lia. }
    destruct (Inv_clasificacion s r c HI Hc)
      as [[_ (Hno & _)]|[[Hbox _]|[[Hat _]|[_ (Hno & _)]]]];
      [congruence| |done|congruence].
    apply en_boxes_box in Hbox as (i & b & Hb & Hr).
    destruct (i2_box_cliente _ _ _ H2 i b r c Hb Hr Hc) as [_ Hnofin].
    congruence.
  - destruct (Inv_clasificacion s r c HI Hc)
      as [[_ (Hno & _)]|[[Hbox _]|[[_ Hat]|[_ (Hno & _)]]]];
      [congruence| | |congruence].
    + apply en_boxes_box in Hbox as (i & b & Hb & Hr).
      pose proof (inv_boxes s HI i b Hb) as Hok. unfold box_ok in Hok.
      destruct (Box.ocupado b); [|destruct Hok; congruence].
      destruct Hok as (r0 & fin & c0 & Hr0 & Hfin & _).
      destruct (i3_box _ _ _ H3 i b r c ti fin Hb Hr Hc Hti Hfin)
        as [Heq Hcota].
      rewrite Hdur in Heq. rewrite decide_False in Hcota by lia.
      exists i, b. rewrite Hfin, Heq. split_and!; try done. lia.
    + destruct Hat as (ti' & tf' & _ & Htf' & _). congruence.
Qed.

Lemma servicio_segun_sorteo_witness :
  ∃ s0 s c,
    __init__ 1 1 = Ok s0
    ∧ pasos (llegan 3) (atencion_fija_hasta 100 250 1) 120 s0 = Ok s
    ∧ objetos s !! 1%nat = Some c
    ∧ Cliente.tiempo_inicio_atencion c = Some 101
    ∧ (N.of_nat (turno s 1) < pos_numpy s)%N
    ∧ match Cliente.tiempo_fin_atencion c with
      | Some tf =>
          tf = 101 + py_max 60
                       (py_int (atencion_fija_hasta 100 250 1
                                  (N.of_nat (turno s 1)) 600 300))
          ∧ Cliente.tiempo_atencion c
            = Some (py_max 60
                      (py_int (atencion_fija_hasta 100 250 1
                                 (N.of_nat (turno s 1)) 600 300)))
          ∧ 1%nat ∈ clientes_atendidos s
      | None =>
          ∃ i b,
            boxes s !! i = Some b
            ∧ Box.cliente_actual b = Some 1%nat
            ∧ Box.tiempo_fin_atencion b
              = Some (101 + py_max 60
                              (py_int (atencion_fija_hasta 100 250 1
                                         (N.of_nat (turno s 1)) 600 300)))
            ∧ tiempo_actual s
              ≤ 101 + py_max 60
                        (py_int (atencion_fija_hasta 100 250 1
                                   (N.of_nat (turno s 1)) 600 300))
      end.
Proof.
  eexists _, _, _. split; [reflexivity|]. split; [vm_compute; reflexivity|].
  split; [reflexivity|]. split; [reflexivity|].
  apply (servicio_segun_sorteo (llegan 3) (atencion_fija_hasta 100 250 1)).
  - eapply (alcanzable_pasos (llegan 3) (atencion_fija_hasta 100 250 1) 120);
      [eapply (alcanzable_init _ _ 1 1); reflexivity|vm_compute; reflexivity].
  - reflexivity.
  - reflexivity.
Defined.

(** Service is given in order of arrival.  Of two customers whose
    service has started, the one created first started first; and every
    customer created after one who is still waiting is waiting too: it has
    neither been served nor has it abandoned. *)
Theorem atencion_por_orden_de_llegada U N s :
  alcanzable U N s →
  (∀ r r' c c' ti ti',
     (r < r')%nat → objetos s !! r = Some c → objetos s !! r' = Some c' →
     Cliente.tiempo_inicio_atencion c = Some ti →
     Cliente.tiempo_inicio_atencion c' = Some ti' →
     ti ≤ ti')
  ∧ (∀ r r' c',
       r ∈ cola s → (r < r')%nat → objetos s !! r' = Some c' →
       r' ∈ cola s
       ∧ Cliente.tiempo_inicio_atencion c' = None
       ∧ Cliente.abandono c' = false).
Proof.
  intros Halc.
  pose proof (alcanzable_Inv _ _ _ Halc) as HI.
  pose proof (alcanzable_Inv2 _ _ _ Halc) as H2.
  pose proof (alcanzable_Inv3 _ _ _ Halc) as H3.
  split; [apply (i3_orden _ _ _ H3)|].
  intros r r' c' Hr Hlt Hc'.
  pose proof (i3_fifo _ _ _ H3 r r' c' Hr Hlt Hc') as Hno.
  destruct (inv_cola s HI r Hr) as (c & Hc & Hcini & Hcab & _).
  pose proof (i2_registro _ _ _ H2 r c Hc) as [_ Hbf].
  rewrite Hcini, Hcab in Hbf. destruct Hbf as (_ & _ & _ & Hespera).
  pose proof (i2_ingreso_orden _ _ _ H2 r r' c c' Hlt Hc Hc') as Hing.
  destruct (Inv_clasificacion s r' c' HI Hc')
    as [[Hq (Hini & Hab & _)]|[[_ [fin (ti & Hini & _)]]
       |[[_ (ti & tf & Hini & _)]|[_ (Hini & Hab & _)]]]].
  - done.
  - exfalso. apply Hno. unfold iniciado. rewrite Hini. eauto.
  - exfalso. apply Hno. unfold iniciado. rewrite Hini. eauto.
  - exfalso. pose proof (i2_registro _ _ _ H2 r' c' Hc') as [_ Hbf'].
    rewrite Hini, Hab in Hbf'. destruct Hbf' as (_ & Hvencido & _). lia.
Qed.

Lemma atencion_por_orden_de_llegada_witness :
  ∃ s0 s,
    __init__ 2 1 = Ok s0
    ∧ pasos (llegan 5) (atencion_fija 90) 95 s0 = Ok s
    ∧ cola s = [4]%nat
    ∧ (∀ r r' c c' ti ti',
         (r < r')%nat → objetos s !! r = Some c → objetos s !! r' = Some c' →
         Cliente.tiempo_inicio_atencion c = Some ti →
         Cliente.tiempo_inicio_atencion c' = Some ti' →
         ti ≤ ti')
    ∧ (∀ r r' c',
         r ∈ cola s → (r < r')%nat → objetos s !! r' = Some c' →
         r' ∈ cola s
         ∧ Cliente.tiempo_inicio_atencion c' = None
         ∧ Cliente.abandono c' = false).
Proof.
  eexists _, _. split; [reflexivity|]. split; [vm_compute; reflexivity|].
  split; [reflexivity|].
  apply (atencion_por_orden_de_llegada (llegan 5) (atencion_fija 90)).
  eapply (alcanzable_pasos (llegan 5) (atencion_fija 90) 95);
    [eapply (alcanzable_init _ _ 2 1); reflexivity|vm_compute; reflexivity].
Defined.

(** ** Records are written once *)

Lemma conserva_refl c : conserva c c.
Proof. by repeat split. Qed.

Lemma conserva_trans c1 c2 c3 : conserva c1 c2 → conserva c2 c3 → conserva c1 c3.
Proof.
  intros (? & ? & ? & ? & ? & ? & ?) (? & ? & ? & ? & ? & ? & ?).
  split_and!; try congruence; auto.
Qed.

Lemma historia_refl s : historia s s.
Proof. intros r c Hc. exists c. split; [done|apply conserva_refl]. Qed.

Lemma historia_trans s1 s2 s3 : historia s1 s2 → historia s2 s3 → historia s1 s3.
Proof.
  intros H12 H23 r c Hc. destruct (H12 r c Hc) as (c2 & Hc2 & E2).
  destruct (H23 r c2 Hc2) as (c3 & Hc3 & E3).
  exists c3. split; [done|]. by eapply conserva_trans.
Qed.

Lemma historia_insert s s' r c c' :
  objetos s !! r = Some c → conserva c c' →
  objetos s' = <[r := c']> (objetos s) →
  historia s s'.
Proof.
  intros Hc Hcc Hobj r0 x Hx. rewrite Hobj.
  destruct (decide (r0 = r)) as [->|Hne].
  - rewrite list_lookup_insert_eq by (by eapply lookup_lt_Some).
    exists c'. split; [done|]. congruence.
  - rewrite list_lookup_insert_ne by done.
    exists x. split; [done|apply conserva_refl].
Qed.

Lemma historia_procesar_llegadas U s : historia s (procesar_llegadas U s).
Proof.
  intros r c Hc. exists c. split; [|apply conserva_refl].
  destruct (procesar_llegadas_spec U s)
    as (_ & _ & _ & _ & _ & [(_ & _ & -> & _)|(_ & _ & _ & -> & _)]);
    [done|by apply lookup_app_l_Some].
Qed.

Lemma historia_asignar_box N s i s' :
  Inv s → Inv2 0 0 s → asignar_box N s i = Ok s' → historia s s'.
Proof.
  intros HI H2 Hpaso.
  apply asignar_box_efecto in Hpaso
    as [[-> _]|(b & r & resto & c & Hb & Hlibre & Hcola & Hc & ->)];
    [apply historia_refl|].
  assert (r ∈ cola s) as Hr by (rewrite Hcola; left).
  destruct (inv_cola s HI r Hr) as (c0 & Hc0 & Hnoini & Hnoab & _).
  assert (c0 = c) as -> by congruence.
  pose proof (i2_registro _ _ _ H2 r c Hc) as [_ Hbf].
  rewrite Hnoini, Hnoab in Hbf. destruct Hbf as (Hnobox & _).
  eapply (historia_insert s _ r c); [done| |reflexivity].
  split_and!; simpl; try done; congruence.
Qed.

Lemma historia_finalizar_box s i s' :
  Inv s → Inv2 0 0 s → finalizar_box s i = Ok s' → historia s s'.
Proof.
  intros HI H2 Hpaso.
  apply finalizar_box_casos in Hpaso
    as (b & Hb & [[_ ->]
                 |(fin & _ & _
                   & [[_ ->]
                     |(_ & r & c & Hr & Hc & _ & _ & _ & _ & Hobj & _)])]);
    [apply historia_refl|apply historia_refl|].
  destruct (i2_box_cliente _ _ _ H2 i b r c Hb Hr Hc) as [_ Hnofin].
  eapply (historia_insert s s' r c); [done| |exact Hobj].
  split_and!; simpl; try done; congruence.
Qed.

Lemma historia_asignar_clientes_a_boxes N s s' :
  Inv s → Inv2 0 0 s → asignar_clientes_a_boxes N s = Ok s' → historia s s'.
Proof.
  intros HI H2 Hrun. unfold asignar_clientes_a_boxes in Hrun.
  pose proof (for_each_seq_rel
                (λ _ s1, Inv s1 ∧ Inv2 0 0 s1 ∧ historia s s1
                         ∧ length (boxes s1) = length (boxes s))
                (asignar_box N) (length (boxes s)) 0 s s' Hrun) as Hloop.
  destruct Hloop as (_ & _ & ? & _); [|  |done].
  { split_and!; try done. apply historia_refl. }
  intros k s1 s2 Hk (HI1 & H21 & Hh & Hlen) Hpaso.
  destruct (Inv_asignar_box N s1 k HI1) as (s2' & Hs2' & HI2); [lia|].
  assert (s2' = s2) as -> by congruence.
  split; [done|]. split; [exact (Inv2_asignar_box N s1 k s2 HI1 H21 Hpaso)|].
  split.
  - eapply historia_trans; [exact Hh|].
    exact (historia_asignar_box N s1 k s2 HI1 H21 Hpaso).
  - by rewrite (marco_boxes _ _ (marco_asignar_box N s1 k s2 Hpaso)).
Qed.

Lemma historia_procesar_finalizacion_atencion s s' :
  Inv s → Inv2 0 0 s → procesar_finalizacion_atencion s = Ok s' →
  historia s s'.
Proof.
  intros HI H2 Hrun. unfold procesar_finalizacion_atencion in Hrun.
  pose proof (for_each_seq_rel
                (λ _ s1, Inv s1 ∧ Inv2 0 0 s1 ∧ historia s s1
                         ∧ length (boxes s1) = length (boxes s))
                finalizar_box (length (boxes s)) 0 s s' Hrun) as Hloop.
  destruct Hloop as (_ & _ & ? & _); [|  |done].
  { split_and!; try done. apply historia_refl. }
  intros k s1 s2 Hk (HI1 & H21 & Hh & Hlen) Hpaso.
  destruct (Inv_finalizar_box s1 k HI1) as (s2' & Hs2' & HI2); [lia|].
  assert (s2' = s2) as -> by congruence.
  split; [done|]. split; [exact (Inv2_finalizar_box s1 k s2 HI1 H21 Hpaso)|].
  split.
  - eapply historia_trans; [exact Hh|].
    exact (historia_finalizar_box s1 k s2 HI1 H21 Hpaso).
  - by rewrite (marco_boxes _ _ (marco_finalizar_box s1 k s2 Hpaso)).
Qed.

Lemma historia_procesar_abandonos s s' :
  Inv s → Inv2 0 0 s → procesar_abandonos s = Ok s' → historia s s'.
Proof.
  intros HI H2 Hrun.
  destruct (procesar_abandonos_spec s HI)
    as (s'' & Hrun' & _ & _ & _ & _ & Hobj).
  assert (s'' = s') as -> by congruence.
  intros r c Hc. rewrite Hobj, Hc. case_decide as Hv.
  - apply list_elem_of_filter in Hv as [_ Hr].
    destruct (inv_cola s HI r Hr) as (c0 & Hc0 & Hnoini & Hnoab & _).
    assert (c0 = c) as -> by congruence.
    pose proof (i2_registro _ _ _ H2 r c Hc) as [_ Hbf].
    rewrite Hnoini, Hnoab in Hbf. destruct Hbf as (_ & _ & Hnota & _).
    eexists. split; [reflexivity|].
    split_and!; simpl; try done; congruence.
  - exists c. split; [done|apply conserva_refl].
Qed.

Lemma simular_paso_historia U N s s' :
  Inv s → Inv2 1 0 s → simular_paso U N s = Ok s' → historia s s'.
Proof.
  intros HI H2 Hpaso.
  destruct (simular_paso_etapas U N s HI H2)
    as (s2 & s3 & s4 & Hs2 & Hs3 & Hs4 & Hs'
        & [HI1 H21] & [HI2 H22] & [HI3 H23] & _).
  assert (s' = set_tiempo_actual (tiempo_actual s4 + 1) s4) as ->
    by congruence.
  eapply historia_trans; [apply (historia_procesar_llegadas U)|].
  eapply historia_trans;
    [exact (historia_asignar_clientes_a_boxes N _ s2 HI1 H21 Hs2)|].
  eapply historia_trans;
    [exact (historia_procesar_finalizacion_atencion s2 s3 HI2 H22 Hs3)|].
  exact (historia_procesar_abandonos s3 s4 HI3 H23 Hs4).
Qed.

(** Nothing written on a customer record is ever rewritten.  However
    many ticks later, the record is still in the store at the same
    reference, with the same [id] and arrival tick, and every stamp that
    was set (service start, service end, box, abandonment) has kept its
    value. *)
Theorem sellos_definitivos U N n s s' :
  alcanzable U N s →
  pasos U N n s = Ok s' →
  ∀ r c, objetos s !! r = Some c →
    ∃ c', objetos s' !! r = Some c' ∧ conserva c c'.
Proof.
  revert s. induction n as [|n IH]; intros s Halc Hrun; simpl in Hrun.
  - injection Hrun as <-. apply historia_refl.
  - apply bind_Ok in Hrun as (s1 & H1 & Hrun).
    apply (historia_trans s s1 s').
    + apply (simular_paso_historia U N); [|  |done].
      * by eapply alcanzable_Inv.
      * by eapply alcanzable_Inv2.
    + refine (IH s1 _ Hrun). by eapply alcanzable_paso.
Qed.

Lemma sellos_definitivos_witness :
  ∃ s0 s s',
    __init__ 1 1 = Ok s0
    ∧ pasos (llegan 3) (atencion_fija 1800) 5 s0 = Ok s
    ∧ pasos (llegan 3) (atencion_fija 1800) 1800 s = Ok s'
    ∧ ∀ r c, objetos s !! r = Some c →
        ∃ c', objetos s' !! r = Some c' ∧ conserva c c'.
Proof.
  eexists _, _, _. split; [reflexivity|]. split; [vm_compute; reflexivity|].
  split; [vm_compute; reflexivity|].
  apply (sellos_definitivos (llegan 3) (atencion_fija 1800) 1800).
  - eapply (alcanzable_pasos (llegan 3) (atencion_fija 1800) 5);
      [eapply (alcanzable_init _ _ 1 1); reflexivity|vm_compute; reflexivity].
  - vm_compute; reflexivity.
Defined.

(** ** What a completion pass releases *)

Lemma finalizar_box_detalle s i s' :
  finalizar_box s i = Ok s' →
  ∃ b,
    boxes s !! i = Some b
    ∧ match Box.ocupado b, Box.tiempo_fin_atencion b with
      | true, Some fin =>
          if decide (fin ≤ tiempo_actual s) then
            ∃ r,
              Box.cliente_actual b = Some r
              ∧ boxes s' = <[i := Box.mk (Box.id b) false None None]> (boxes s)
              ∧ clientes_atendidos s' = clientes_atendidos s ++ [r]
              ∧ Est.clientes_atendidos (estadisticas s')
                = Est.clientes_atendidos (estadisticas s) + 1
              ∧ cola s' = cola s
              ∧ clientes_abandonaron s' = clientes_abandonaron s
              ∧ tiempo_actual s' = tiempo_actual s
              ∧ pos_numpy s' = pos_numpy s
          else s' = s
      | true, None => False
      | false, _ => s' = s
      end.
Proof.
  unfold finalizar_box. intros (b & Hb%of_option_Ok & H)%bind_Ok.
  exists b. split; [done|].
  destruct (Box.ocupado b) eqn:Hoc; [|by injection H as <-].
  apply bind_Ok in H as (fin & Hfin%of_option_Ok & H). rewrite Hfin.
  case_decide as Hdue; [|by injection H as <-].
  apply bind_Ok in H as (r & Hr%of_option_Ok & H).
  apply bind_Ok in H as (s1 & (c & Hc & ->)%modificar_Ok & H).
  apply bind_Ok in H as (c1 & Hc1%of_option_Ok & H). injection H as <-.
  exists r. simpl. rewrite registrar_atendidos. split_and!; done.
Qed.

Lemma procesar_finalizacion_atencion_detalle s s' :
  procesar_finalizacion_atencion s = Ok s' →
  length (boxes s') = length (boxes s)
  ∧ cola s' = cola s
  ∧ clientes_abandonaron s' = clientes_abandonaron s
  ∧ tiempo_actual s' = tiempo_actual s
  ∧ pos_numpy s' = pos_numpy s
  ∧ (∀ i b,
       boxes s !! i = Some b →
       boxes s' !! i
       = Some match Box.ocupado b, Box.tiempo_fin_atencion b with
              | true, Some fin =>
                  if decide (fin ≤ tiempo_actual s)
                  then Box.mk (Box.id b) false None None
                  else b
              | _, _ => b
              end)
  ∧ ∃ terminados,
      clientes_atendidos s' = clientes_atendidos s ++ terminados
      ∧ Est.clientes_atendidos (estadisticas s')
        = Est.clientes_atendidos (estadisticas s)
          + Z.of_nat (length terminados)
      ∧ (length terminados ≤ length (boxes s))%nat
      ∧ ∀ r, r ∈ terminados ↔
             ∃ i b fin,
               boxes s !! i = Some b
               ∧ Box.ocupado b = true
               ∧ Box.tiempo_fin_atencion b = Some fin
               ∧ fin ≤ tiempo_actual s
               ∧ Box.cliente_actual b = Some r.
Proof.
  intros Hrun. unfold procesar_finalizacion_atencion in Hrun.
  pose (P := λ (k : nat) (s1 : Simulador),
    length (boxes s1) = length (boxes s)
    ∧ cola s1 = cola s
    ∧ clientes_abandonaron s1 = clientes_abandonaron s
    ∧ tiempo_actual s1 = tiempo_actual s
    ∧ pos_numpy s1 = pos_numpy s
    ∧ (∀ i b,
         boxes s !! i = Some b →
         boxes s1 !! i
         = Some match Box.ocupado b, Box.tiempo_fin_atencion b with
                | true, Some fin =>
                    if decide ((i < k)%nat ∧ fin ≤ tiempo_actual s)
                    then Box.mk (Box.id b) false None None
                    else b
                | _, _ => b
                end)
    ∧ ∃ terminados,
        clientes_atendidos s1 = clientes_atendidos s ++ terminados
        ∧ Est.clientes_atendidos (estadisticas s1)
          = Est.clientes_atendidos (estadisticas s)
            + Z.of_nat (length terminados)
        ∧ (length terminados ≤ k)%nat
        ∧ ∀ r, r ∈ terminados ↔
               ∃ i b fin,
                 (i < k)%nat
                 ∧ boxes s !! i = Some b
                 ∧ Box.ocupado b = true
                 ∧ Box.tiempo_fin_atencion b = Some fin
                 ∧ fin ≤ tiempo_actual s
                 ∧ Box.cliente_actual b = Some r).
  assert (P (0 + length (boxes s))%nat s')
    as (Hlen & Hq & Hab & Ht & Hnp & Hbx & term & Hat & Hest & Hcuenta & Hterm).
  { eapply (for_each_seq_rel P); [exact Hrun| |].
    - unfold P. split_and!; try done.
      + intros i b Hb. rewrite Hb. f_equal.
        by destruct (Box.ocupado b), (Box.tiempo_fin_atencion b).
      + exists []. rewrite app_nil_r. simpl. split_and!; try done; [lia|].
        intros r. split; [by intros ?%elem_of_nil|].
        intros (i & _ & _ & ? & _). lia.
    - intros k s1 s2 Hk
        (Hlen & Hq & Hab & Ht & Hnp & Hbx & term & Hat & Hest & Hcuenta & Hterm)
        Hpaso.
      simpl in Hk.
      destruct (lookup_lt_is_Some_2 (boxes s) k ltac:(lia)) as [b0 Hb0].
      apply finalizar_box_detalle in Hpaso as (bk & Hbk & Hcaso).
      assert (bk = b0) as ->.
      { rewrite (Hbx k b0 Hb0) in Hbk. injection Hbk as <-.
        destruct (Box.ocupado b0), (Box.tiempo_fin_atencion b0); try done.
        by rewrite decide_False by lia. }
      assert (P (S k) s1 ∨
              ∃ fin r,
                Box.ocupado b0 = true
                ∧ Box.tiempo_fin_atencion b0 = Some fin
                ∧ fin ≤ tiempo_actual s
                ∧ Box.cliente_actual b0 = Some r
                ∧ boxes s2
                  = <[k := Box.mk (Box.id b0) false None None]> (boxes s1)
                ∧ clientes_atendidos s2 = clientes_atendidos s1 ++ [r]
                ∧ Est.clientes_atendidos (estadisticas s2)
                  = Est.clientes_atendidos (estadisticas s1) + 1
                ∧ cola s2 = cola s1
                ∧ clientes_abandonaron s2 = clientes_abandonaron s1
                ∧ tiempo_actual s2 = tiempo_actual s1
                ∧ pos_numpy s2 = pos_numpy s1) as Hcasos.
      { assert ((∀ fin, Box.ocupado b0 = true →
                        Box.tiempo_fin_atencion b0 = Some fin →
                        tiempo_actual s < fin) → P (S k) s1) as Hsin.
        { intros Hno. unfold P. split_and!; try done.
          - intros i b Hb. rewrite (Hbx i b Hb). f_equal.
            destruct (Box.ocupado b) eqn:Hoc,
              (Box.tiempo_fin_atencion b) as [fin|] eqn:Hfin; try done.
            destruct (decide (i = k)) as [->|Hne].
            + assert (b = b0) as -> by congruence.
              pose proof (Hno fin Hoc Hfin).
              by rewrite !decide_False by lia.
            + repeat case_decide; try done; lia.
          - exists term. split_and!; try done; [lia|].
            intros r. rewrite Hterm. split.
            + intros (i & b & fin & ? & ?). exists i, b, fin.
              split; [lia|done].
            + intros (i & b & fin & Hi & Hb & Hoc & Hfin & Hdue & Hr).
              exists i, b, fin. split_and!; try done.
              destruct (decide (i = k)) as [->|Hne]; [|lia].
              assert (b = b0) as -> by congruence.
              pose proof (Hno fin Hoc Hfin). lia. }
        destruct (Box.ocupado b0) eqn:Hoc0.
        2:{ left. subst s2. apply Hsin. done. }
        destruct (Box.tiempo_fin_atencion b0) as [fin0|] eqn:Hfin0; [|done].
        rewrite Ht in Hcaso. case_decide as Hdue.
        2:{ left. subst s2. apply Hsin. intros fin _ [= <-]. lia. }
        right.
        destruct Hcaso
          as (r & Hr & Hbx2 & Hat2 & Hest2 & Hq2 & Hab2 & Ht2 & Hnp2).
        exists fin0, r. split_and!; try done; congruence. }
      destruct Hcasos as [HP|(fin & r & Hoc & Hfin & Hdue & Hr & Hbx2 & Hat2
                               & Hest2 & Hq2 & Hab2 & Ht2 & Hnp2)].
      { destruct (Box.ocupado b0) eqn:Hoc0;
          [destruct (Box.tiempo_fin_atencion b0) as [fin0|] eqn:Hfin0;
             [|done]|].
        - rewrite Ht in Hcaso. case_decide as Hdue; [|by subst s2].
          exfalso. destruct HP as (_ & _ & _ & _ & _ & Hbx' & _).
          pose proof (Hbx' k b0 Hb0) as Hk'. rewrite Hoc0, Hfin0 in Hk'.
          rewrite decide_True in Hk' by (split; [lia|done]).
          rewrite (Hbx k b0 Hb0), Hoc0, Hfin0 in Hk'.
          rewrite decide_False in Hk' by lia.
          injection Hk' as Hk'. rewrite Hk' in Hoc0. done.
        - by subst s2. }
      unfold P. split_and!; try congruence.
      + by rewrite Hbx2, length_insert.
      + intros i b Hb. rewrite Hbx2.
        destruct (decide (i = k)) as [->|Hne].
        * assert (b = b0) as -> by congruence.
          rewrite list_lookup_insert_eq by lia. rewrite Hoc, Hfin.
          by rewrite decide_True by (split; [lia|done]).
        * rewrite list_lookup_insert_ne by done. rewrite (Hbx i b Hb).
          f_equal.
          destruct (Box.ocupado b), (Box.tiempo_fin_atencion b); try done.
          repeat case_decide; try done; lia.
      + exists (term ++ [r]). rewrite Hat2, Hat, Hest2, Hest, length_app.
        rewrite <- app_assoc. simpl. split_and!; try done; try lia.
        intros r'. rewrite elem_of_app, Hterm, list_elem_of_singleton. split.
        * intros [(i & b & fin' & ? & ?)| ->].
          -- exists i, b, fin'. split; [lia|done].
          -- exists k, b0, fin. split_and!; try done. lia.
        * intros (i & b & fin' & Hi & Hb & Hoc' & Hfin' & Hdue' & Hr').
          destruct (decide (i = k)) as [->|Hne].
          -- right. congruence.
          -- left. exists i, b, fin'. split_and!; try done. lia. }
  split_and!; try done.
  - intros i b Hb. rewrite (Hbx i b Hb). f_equal.
    apply lookup_lt_Some in Hb.
    destruct (Box.ocupado b), (Box.tiempo_fin_atencion b); try done.
    repeat case_decide; try done; lia.
  - exists term. split_and!; try done.
    intros r. rewrite Hterm. split.
    + intros (i & b & fin & _ & ?). by exists i, b, fin.
    + intros (i & b & fin & Hb & ?). exists i, b, fin.
      split; [|done]. apply lookup_lt_Some in Hb. lia.
Qed.

(** [procesar_finalizacion_atencion] releases exactly the occupied boxes
    whose completion tick has been reached and leaves every other box as
    it was; the customers of the released boxes, and nobody else, are
    appended to the served record and counted; the queue, the abandoned
    record, the clock and the draws are untouched.  Afterwards every box
    still occupied completes strictly later than the current tick. *)
Theorem finalizacion_libera_los_vencidos s s' :
  procesar_finalizacion_atencion s = Ok s' →
  (length (boxes s') = length (boxes s)
   ∧ cola s' = cola s
   ∧ clientes_abandonaron s' = clientes_abandonaron s
   ∧ tiempo_actual s' = tiempo_actual s
   ∧ pos_numpy s' = pos_numpy s)
  ∧ (∀ i b,
       boxes s !! i = Some b →
       boxes s' !! i
       = Some match Box.ocupado b, Box.tiempo_fin_atencion b with
              | true, Some fin =>
                  if decide (fin ≤ tiempo_actual s)
                  then Box.mk (Box.id b) false None None
                  else b
              | _, _ => b
              end)
  ∧ (∃ terminados,
       clientes_atendidos s' = clientes_atendidos s ++ terminados
       ∧ Est.clientes_atendidos (estadisticas s')
         = Est.clientes_atendidos (estadisticas s)
           + Z.of_nat (length terminados)
       ∧ ∀ r, r ∈ terminados ↔
              ∃ i b fin,
                boxes s !! i = Some b
                ∧ Box.ocupado b = true
                ∧ Box.tiempo_fin_atencion b = Some fin
                ∧ fin ≤ tiempo_actual s
                ∧ Box.cliente_actual b = Some r)
  ∧ (∀ b fin,
       b ∈ boxes s' → Box.ocupado b = true →
       Box.tiempo_fin_atencion b = Some fin → tiempo_actual s' < fin).
Proof.
  intros Hrun.
  destruct (procesar_finalizacion_atencion_detalle s s' Hrun)
    as (Hlen & Hq & Hab & Ht & Hnp & Hbx & term & Hat & Hest & _ & Hterm).
  split; [done|]. split; [done|]. split; [by exists term|].
  intros b fin (i & Hi)%list_elem_of_lookup_1 Hoc Hfin.
  destruct (lookup_lt_is_Some_2 (boxes s) i) as [b0 Hb0].
  { apply lookup_lt_Some in Hi. lia. }
  rewrite (Hbx i b0 Hb0) in Hi. injection Hi as Hi. rewrite Ht.
  destruct (Box.ocupado b0) eqn:Hoc0.
  - destruct (Box.tiempo_fin_atencion b0) as [fin0|] eqn:Hfin0.
    + case_decide; subst b; simpl in *; [done|]. 
      assert (fin0 = fin) as -> by congruence. lia.
    + subst b. congruence.
  - subst b. congruence.
Qed.

Lemma finalizacion_libera_los_vencidos_witness :
  ∃ s0 s s2 s',
    __init__ 2 1 = Ok s0
    ∧ pasos (llegan 5) (atencion_fija 90) 90 s0 = Ok s
    ∧ asignar_clientes_a_boxes (atencion_fija 90)
        (procesar_llegadas (llegan 5) s) = Ok s2
    ∧ procesar_finalizacion_atencion s2 = Ok s'
    ∧ clientes_atendidos s2 = []
    ∧ clientes_atendidos s' = [0%nat]
    ∧ (length (boxes s') = length (boxes s2)
       ∧ cola s' = cola s2
       ∧ clientes_abandonaron s' = clientes_abandonaron s2
       ∧ tiempo_actual s' = tiempo_actual s2
       ∧ pos_numpy s' = pos_numpy s2)
    ∧ (∀ i b,
         boxes s2 !! i = Some b →
         boxes s' !! i
         = Some match Box.ocupado b, Box.tiempo_fin_atencion b with
                | true, Some fin =>
                    if decide (fin ≤ tiempo_actual s2)
                    then Box.mk (Box.id b) false None None
                    else b
                | _, _ => b
                end)
    ∧ (∃ terminados,
         clientes_atendidos s' = clientes_atendidos s2 ++ terminados
         ∧ Est.clientes_atendidos (estadisticas s')
           = Est.clientes_atendidos (estadisticas s2)
             + Z.of_nat (length terminados)
         ∧ ∀ r, r ∈ terminados ↔
                ∃ i b fin,
                  boxes s2 !! i = Some b
                  ∧ Box.ocupado b = true
                  ∧ Box.tiempo_fin_atencion b = Some fin
                  ∧ fin ≤ tiempo_actual s2
                  ∧ Box.cliente_actual b = Some r)
    ∧ (∀ b fin,
         b ∈ boxes s' → Box.ocupado b = true →
         Box.tiempo_fin_atencion b = Some fin → tiempo_actual s' < fin).
Proof.
  eexists _, _, _, _. split; [reflexivity|].
  split; [vm_compute; reflexivity|]. split; [vm_compute; reflexivity|].
  split; [vm_compute; reflexivity|]. split; [reflexivity|].
  split; [reflexivity|].
  apply finalizacion_libera_los_vencidos. vm_compute; reflexivity.
Defined.

(** ** What one tick adds *)

Lemma atendidos_asignar_clientes_a_boxes N s s' :
  asignar_clientes_a_boxes N s = Ok s' →
  clientes_atendidos s' = clientes_atendidos s.
Proof.
  unfold asignar_clientes_a_boxes.
  apply (for_each_rel
           (λ t t', clientes_atendidos t' = clientes_atendidos t));
    [done|congruence|].
  intros t i t' Hpaso.
  by apply asignar_box_efecto in Hpaso
    as [[-> _]|(b & r & resto & c & _ & _ & _ & _ & ->)].
Qed.

Lemma NoDup_iguales {A} (l : list A) :
  NoDup l → (∀ x y, x ∈ l → y ∈ l → x = y) → (length l ≤ 1)%nat.
Proof.
  intros Hnd Heq. destruct l as [|x [|y l]]; simpl; [lia|lia|].
  exfalso. apply NoDup_cons in Hnd as [Hx _]. apply Hx.
  rewrite (Heq x y); [left|left|right; left].
Qed.

(** In one tick at most one customer arrives and at most one abandons, the
    latter having arrived exactly 1800 ticks earlier; at most one customer
    per box completes its service.  The three records only grow, at their
    tail, and the clock advances by one. *)
Theorem novedades_de_un_tick U N s s' :
  alcanzable U N s →
  simular_paso U N s = Ok s' →
  tiempo_actual s' = tiempo_actual s + 1
  ∧ ∃ llegados terminados perdidos,
      clientes_ingresados s' = clientes_ingresados s ++ llegados
      ∧ (length llegados ≤ 1)%nat
      ∧ clientes_atendidos s' = clientes_atendidos s ++ terminados
      ∧ (length terminados ≤ length (boxes s))%nat
      ∧ clientes_abandonaron s' = clientes_abandonaron s ++ perdidos
      ∧ (length perdidos ≤ 1)%nat
      ∧ ∀ r, r ∈ perdidos →
          ∃ c, objetos s' !! r = Some c
               ∧ Cliente.tiempo_ingreso c = tiempo_actual s - 1800.
Proof.
  intros Halc Hpaso.
  pose proof (alcanzable_Inv _ _ _ Halc) as HI.
  pose proof (alcanzable_Inv2 _ _ _ Halc) as H2.
  pose proof (alcanzable_config _ _ _ Halc) as Hcfg.
  destruct (simular_paso_etapas U N s HI H2)
    as (s2 & s3 & s4 & Hs2 & Hs3 & Hs4 & Hs'
        & [HI1 H21] & [HI2 H22] & [HI3 H23] & _).
  assert (s' = set_tiempo_actual (tiempo_actual s4 + 1) s4) as ->
    by congruence.
  pose proof (marco_asignar_clientes_a_boxes N _ _ Hs2) as M2.
  pose proof (marco_procesar_finalizacion_atencion _ _ Hs3) as M3.
  pose proof (marco_procesar_abandonos _ _ Hs4) as M4.
  pose proof (marco_trans _ _ _ (marco_trans _ _ _ M2 M3) M4) as M.
  destruct (procesar_llegadas_spec U s)
    as (Ht1 & Hab1 & Hat1 & Hbx1 & _ & Hllegada).
  assert (tiempo_actual s3 = tiempo_actual s) as Ht3.
  { rewrite (marco_tiempo _ _ M3), (marco_tiempo _ _ M2). done. }
  assert (TIEMPO_MAX_ESPERA s3 = 1800) as Hmax.
  { pose proof (marco_config _ _ (marco_trans _ _ _ M2 M3)) as Hc3.
    rewrite config_procesar_llegadas, Hcfg in Hc3.
    unfold config, config_inicial in Hc3. by injection Hc3 as _ _ _ -> _ _ _ _. }
  simpl. split; [rewrite (marco_tiempo _ _ M); lia|].
  destruct (procesar_finalizacion_atencion_detalle s2 s3 Hs3)
    as (_ & _ & Hab3 & _ & _ & _ & term & Hat3 & _ & Hcuenta & _).
  destruct (procesar_abandonos_spec s3 HI3)
    as (s4' & Hs4' & _ & _ & Hab4 & _ & Hobj4).
  assert (s4' = s4) as -> by congruence.
  pose proof (ajeno_procesar_abandonos s3 s4 Hs4) as Haj.
  unfold ajeno_al_abandono in Haj. injection Haj as Hat4 _ _ _ _ _ _ _ _ _.
  assert (∀ r, r ∈ filter (vencido s3) (cola s3) →
            ∃ c, objetos s3 !! r = Some c
                 ∧ Cliente.tiempo_ingreso c = tiempo_actual s - 1800)
    as Hvencidos.
  { intros r [Hv Hr]%list_elem_of_filter.
    destruct (inv_cola s3 HI3 r Hr) as (c & Hc & Hnoini & Hnoab & _).
    exists c. split; [done|].
    unfold vencido in Hv. rewrite Hc in Hv.
    pose proof (i2_registro _ _ _ H23 r c Hc) as [_ Hbf].
    rewrite Hnoini, Hnoab in Hbf. destruct Hbf as (_ & _ & _ & Hcota).
    lia. }
  assert (∃ llegados,
            clientes_ingresados (procesar_llegadas U s)
            = clientes_ingresados s ++ llegados
            ∧ (length llegados ≤ 1)%nat) as (llegados & Hing & Huno).
  { destruct Hllegada as [(_ & _ & _ & -> & _)|(_ & _ & _ & _ & -> & _)].
    - exists []. rewrite app_nil_r. split; [done|simpl; lia].
    - eexists. split; [reflexivity|simpl; lia]. }
  exists llegados, term, (filter (vencido s3) (cola s3)).
  split_and!.
  - by rewrite (marco_ingresados _ _ M).
  - done.
  - by rewrite Hat4, Hat3, (atendidos_asignar_clientes_a_boxes N _ _ Hs2), Hat1.
  - rewrite <- Hbx1, <- (marco_boxes _ _ M2). done.
  - rewrite Hab4, Hab3.
    rewrite (sv_abandonaron _ _ (servicio_asignar_clientes_a_boxes N _ _ Hs2)).
    by rewrite Hab1.
  - apply NoDup_iguales.
    + apply NoDup_filter.
      pose proof (Inv_NoDup s3 HI3) as Hnd. by apply NoDup_app in Hnd as [? _].
    + intros x y Hx Hy.
      destruct (Hvencidos x Hx) as (cx & Hcx & Hix).
      destruct (Hvencidos y Hy) as (cy & Hcy & Hiy).
      destruct (decide (x = y)) as [|Hne]; [done|]. exfalso.
      destruct (decide (x < y)%nat).
      * pose proof (i2_ingreso_orden _ _ _ H23 x y cx cy ltac:(lia) Hcx Hcy).
        lia.
      * pose proof (i2_ingreso_orden _ _ _ H23 y x cy cx ltac:(lia) Hcy Hcx).
        lia.
  - intros r Hr. destruct (Hvencidos r Hr) as (c & Hc & Hingreso).
    rewrite Hobj4, decide_True, Hc by done. simpl.
    eexists. split; [reflexivity|]. done.
Qed.

Lemma novedades_de_un_tick_witness :
  ∃ s0 s s',
    __init__ 1 1 = Ok s0
    ∧ pasos (llegan 3) (atencion_fija 1800) 1802 s0 = Ok s
    ∧ simular_paso (llegan 3) (atencion_fija 1800) s = Ok s'
    ∧ clientes_abandonaron s = []
    ∧ clientes_abandonaron s' = [2%nat]
    ∧ tiempo_actual s' = tiempo_actual s + 1
    ∧ ∃ llegados terminados perdidos,
        clientes_ingresados s' = clientes_ingresados s ++ llegados
        ∧ (length llegados ≤ 1)%nat
        ∧ clientes_atendidos s' = clientes_atendidos s ++ terminados
        ∧ (length terminados ≤ length (boxes s))%nat
        ∧ clientes_abandonaron s' = clientes_abandonaron s ++ perdidos
        ∧ (length perdidos ≤ 1)%nat
        ∧ ∀ r, r ∈ perdidos →
            ∃ c, objetos s' !! r = Some c
                 ∧ Cliente.tiempo_ingreso c = tiempo_actual s - 1800.
Proof.
  eexists _, _, _. split; [reflexivity|]. split; [vm_compute; reflexivity|].
  split; [vm_compute; reflexivity|]. split; [reflexivity|].
  split; [reflexivity|].
  apply (novedades_de_un_tick (llegan 3) (atencion_fija 1800)).
  - eapply (alcanzable_pasos (llegan 3) (atencion_fija 1800) 1802);
      [eapply (alcanzable_init _ _ 1 1); reflexivity|vm_compute; reflexivity].
  - vm_compute; reflexivity.
Defined.

(** ** The run waits for the boxes *)

Lemma ocupados_asignar_clientes_a_boxes N s s' :
  asignar_clientes_a_boxes N s = Ok s' →
  ∀ i b, boxes s !! i = Some b → Box.ocupado b = true →
         boxes s' !! i = Some b.
Proof.
  unfold asignar_clientes_a_boxes.
  apply (for_each_rel
           (λ t t', ∀ i b, boxes t !! i = Some b → Box.ocupado b = true →
                           boxes t' !! i = Some b)); [done|auto|].
  intros t i0 t' Hpaso i b Hb Hoc.
  apply asignar_box_efecto in Hpaso
    as [[-> _]|(b0 & r & resto & c & Hb0 & Hlibre & _ & _ & ->)]; [done|].
  simpl. rewrite list_lookup_insert_ne; [done|]. congruence.
Qed.

Lemma simular_paso_box_pendiente U N s s' i b fin :
  simular_paso U N s = Ok s' →
  boxes s !! i = Some b → Box.ocupado b = true →
  Box.tiempo_fin_atencion b = Some fin →
  tiempo_actual s < fin →
  boxes s' !! i = Some b ∧ tiempo_actual s' = tiempo_actual s + 1.
Proof.
  intros (s2 & s3 & s4 & Hs2 & Hs3 & Hs4 & ->)%simular_paso_Ok Hb Hoc Hfin Hlt.
  destruct (procesar_llegadas_spec U s) as (Ht1 & _ & _ & Hbx1 & _).
  pose proof (marco_asignar_clientes_a_boxes N _ _ Hs2) as M2.
  pose proof (marco_procesar_finalizacion_atencion _ _ Hs3) as M3.
  pose proof (marco_procesar_abandonos _ _ Hs4) as M4.
  rewrite <- Hbx1 in Hb.
  pose proof (ocupados_asignar_clientes_a_boxes N _ _ Hs2 i b Hb Hoc) as Hb2.
  destruct (procesar_finalizacion_atencion_detalle s2 s3 Hs3)
    as (_ & _ & _ & _ & _ & Hbx3 & _).
  pose proof (Hbx3 i b Hb2) as Hb3. rewrite Hoc, Hfin in Hb3.
  rewrite (marco_tiempo _ _ M2), Ht1 in Hb3.
  rewrite decide_False in Hb3 by lia.
  pose proof (ajeno_procesar_abandonos s3 s4 Hs4) as Haj.
  unfold ajeno_al_abandono in Haj. injection Haj as _ Hbx4 _ _ _ _ _ _ _ _.
  simpl. rewrite Hbx4. split; [done|].
  rewrite (marco_tiempo _ _ M4), (marco_tiempo _ _ M3), (marco_tiempo _ _ M2).
  lia.
Qed.

(** The run does not stop, and does not disturb a box, before the box's
    scheduled completion: from any state in which a box is occupied until
    the tick [fin], every state reached while the clock has not passed
    [fin] still has that box as it was, so [condicion_finalizacion] is
    false there.  The length of a run is therefore not bounded by the
    horizon: it follows the service times drawn. *)
Theorem la_corrida_espera_a_los_boxes U N k s s' i b fin :
  boxes s !! i = Some b →
  Box.ocupado b = true →
  Box.tiempo_fin_atencion b = Some fin →
  pasos U N k s = Ok s' →
  tiempo_actual s' ≤ fin →
  tiempo_actual s' = tiempo_actual s + Z.of_nat k
  ∧ boxes s' !! i = Some b
  ∧ condicion_finalizacion s' = false.
Proof.
  intros Hb Hoc Hfin. revert s Hb.
  induction k as [|k IH]; intros s Hb Hrun Hle.
  - simpl in Hrun. injection Hrun as <-. split; [lia|]. split; [done|].
    destruct (condicion_finalizacion s) eqn:Hc; [|done].
    apply condicion_finalizacion_true in Hc as (_ & _ & Hlibres).
    rewrite (Hlibres b) in Hoc; [done|]. by eapply list_elem_of_lookup_2.
  - rewrite pasos_S in Hrun. apply bind_Ok in Hrun as (s1 & H1 & Hrun).
    destruct (decide (tiempo_actual s < fin)) as [Hlt|Hge].
    + destruct (simular_paso_box_pendiente U N s s1 i b fin H1 Hb Hoc Hfin Hlt)
        as [Hb1 Ht1].
      destruct (IH s1 Hb1 Hrun Hle) as (Ht & Hb' & Hc').
      split; [lia|done].
    + exfalso.
      destruct (simular_paso_marco U N s s1 H1) as (s4 & M & ->).
      destruct (procesar_llegadas_spec U s) as (Ht0 & _).
      assert (∀ n t t', pasos U N n t = Ok t' →
                        tiempo_actual t ≤ tiempo_actual t') as Hmono.
      { clear. induction n as [|n IHn]; intros t t' Hr.
        - simpl in Hr. injection Hr as <-. lia.
        - rewrite pasos_S in Hr. apply bind_Ok in Hr as (t1 & Ht1 & Hr).
          destruct (simular_paso_marco U N t t1 Ht1) as (t4 & M & ->).
          destruct (procesar_llegadas_spec U t) as (Ht0 & _).
          pose proof (IHn _ _ Hr) as Hle. simpl in Hle.
          rewrite (marco_tiempo _ _ M), Ht0 in Hle. lia. }
      pose proof (Hmono _ _ _ Hrun) as Hle'. simpl in Hle'.
      rewrite (marco_tiempo _ _ M), Ht0 in Hle'. lia.
Qed.

Lemma la_corrida_espera_a_los_boxes_witness :
  ∃ s0 s s' b,
    __init__ 1 1 = Ok s0
    ∧ pasos (llegan 1) (atencion_fija 20000) 1 s0 = Ok s
    ∧ pasos (llegan 1) (atencion_fija 20000) (Z.to_nat 18000) s = Ok s'
    ∧ boxes s !! 0%nat = Some b
    ∧ tiempo_actual s' = tiempo_actual s + Z.of_nat (Z.to_nat 18000)
    ∧ boxes s' !! 0%nat = Some b
    ∧ condicion_finalizacion s' = false.
Proof.
  eexists _, _, _, _. split; [reflexivity|].
  split; [vm_compute; reflexivity|]. split; [vm_compute; reflexivity|].
  split; [reflexivity|].
  apply (la_corrida_espera_a_los_boxes (llegan 1) (atencion_fija 20000)
           (Z.to_nat 18000) _ _ 0%nat _ 20000).
  - reflexivity.
  - reflexivity.
  - reflexivity.
  - vm_compute; reflexivity.
  - vm_compute. discriminate.
Defined.

(** ** The printed results *)

Lemma min_seg_cotas x :
  0 ≤ (min_seg x).2 < 60 ∧ (min_seg x).1 * 60 + (min_seg x).2 = x.
Proof.
  unfold min_seg. simpl.
  pose proof (Z.div_mod x 60 ltac:(lia)).
  pose proof (Z.mod_pos_bound x 60 ltac:(lia)). lia.
Qed.

(** What [imprimir_resultados] prints once the costs are computed.  The
    total cost is the sum of the two partial costs printed above it.  Each
    pair of times reads [N/A] exactly when nobody was served; otherwise
    the seconds are below 60, the minimum is not above the maximum, the
    shortest service shown is at least one minute and the longest wait
    shown is at most thirty minutes. *)
Theorem resultados_impresos U N s :
  alcanzable U N s →
  res_costo_total (imprimir_resultados (calcular_costos s))
  = res_costo_boxes (imprimir_resultados (calcular_costos s))
    + res_costo_perdidas (imprimir_resultados (calcular_costos s))
  ∧ (res_atencion (imprimir_resultados (calcular_costos s)) = None
     ↔ res_atendidos (imprimir_resultados (calcular_costos s)) = 0)
  ∧ (res_espera (imprimir_resultados (calcular_costos s)) = None
     ↔ res_atendidos (imprimir_resultados (calcular_costos s)) = 0)
  ∧ (∀ lo hi,
       res_atencion (imprimir_resultados (calcular_costos s)) = Some (lo, hi) →
       1 ≤ lo.1 ∧ 0 ≤ lo.2 < 60 ∧ 0 ≤ hi.2 < 60
       ∧ lo.1 * 60 + lo.2 ≤ hi.1 * 60 + hi.2)
  ∧ (∀ lo hi,
       res_espera (imprimir_resultados (calcular_costos s)) = Some (lo, hi) →
       0 ≤ lo.1 ∧ 0 ≤ lo.2 < 60 ∧ 0 ≤ hi.2 < 60
       ∧ lo.1 * 60 + lo.2 ≤ hi.1 * 60 + hi.2 ≤ 1800).
Proof.
  intros Halc.
  pose proof (alcanzable_Inv _ _ _ Halc) as HI.
  pose proof (alcanzable_Inv2 _ _ _ Halc) as H2.
  destruct (i2_atencion _ _ _ H2) as (Hahi & Halo & Hanil & Hacons).
  destruct (i2_espera _ _ _ H2) as (Hehi & Helo & Henil & Hecons).
  assert (clientes_atendidos s = [] →
          atenciones s = [] ∧ esperas s = []) as Hvacio.
  { intros Hl. unfold atenciones, esperas. by rewrite Hl. }
  assert (clientes_atendidos s ≠ [] →
          atenciones s ≠ [] ∧ esperas s ≠ []) as Hlleno.
  { intros Hl. destruct (clientes_atendidos s) as [|r l] eqn:Hat; [done|].
    assert (r ∈ clientes_atendidos s) as Hr by (rewrite Hat; left).
    destruct (atendido_tiempos U N s r Halc Hr)
      as (c & ta & te & _ & _ & _ & _ & _ & Hta & Hte).
    split; intros Hnil; [rewrite Hnil in Hta|rewrite Hnil in Hte];
      by eapply elem_of_nil. }
  assert (Est.clientes_atendidos (estadisticas s) = 0
          ↔ clientes_atendidos s = []) as Hcero.
  { rewrite (inv_est_atendidos s HI).
    destruct (clientes_atendidos s); simpl; split; try done; lia. }
  assert (∀ x, x ∈ atenciones s → 60 ≤ x) as Hpiso.
  { intros x (r & c & Hr & Hc & Hx)%atenciones_origen.
    destruct (atendido_tiempos U N s r Halc Hr)
      as (c' & ta & te & Hc' & Hta & _ & ? & _).
    assert (ta = x) as <- by congruence. done. }
  assert (∀ x, x ∈ esperas s → 0 ≤ x ≤ 1800) as Hcota.
  { intros x (r & c & Hr & Hc & Hx)%esperas_origen.
    destruct (atendido_tiempos U N s r Halc Hr)
      as (c' & ta & te & Hc' & _ & Hte & _ & ? & _).
    assert (te = x) as <- by congruence. done. }
  simpl. split_and!.
  - done.
  - rewrite Hcero. split.
    + destruct (Est.tiempo_min_atencion (estadisticas s)) as [|m] eqn:Hm;
        [|done]. intros _.
      destruct (clientes_atendidos s) as [|r l] eqn:Hat; [done|].
      destruct Hlleno as [Hne _]; [done|].
      destruct (Hacons Hne) as (_ & m' & ? & _). congruence.
    + intros Hl. destruct (Hvacio Hl) as [Hnil _].
      destruct (Hanil Hnil) as [-> _]. done.
  - rewrite Hcero. split.
    + destruct (Est.tiempo_min_espera (estadisticas s)) as [|m] eqn:Hm;
        [|done]. intros _.
      destruct (clientes_atendidos s) as [|r l] eqn:Hat; [done|].
      destruct Hlleno as [_ Hne]; [done|].
      destruct (Hecons Hne) as (_ & m' & ? & _). congruence.
    + intros Hl. destruct (Hvacio Hl) as [_ Hnil].
      destruct (Henil Hnil) as [-> _]. done.
  - intros lo hi Himp.
    destruct (Est.tiempo_min_atencion (estadisticas s)) as [|m] eqn:Hm;
      [done|].
    injection Himp as <- <-.
    assert (atenciones s ≠ []) as Hne.
    { intros Hnil. destruct (Hanil Hnil). congruence. }
    destruct (Hacons Hne) as (Hmax & m' & Hm' & Hmin).
    assert (m' = m) as -> by congruence.
    pose proof (Hpiso m Hmin). pose proof (Hahi m Hmin).
    pose proof (min_seg_cotas m).
    pose proof (min_seg_cotas (Est.tiempo_max_atencion (estadisticas s))).
    split_and!; lia.
  - intros lo hi Himp.
    destruct (Est.tiempo_min_espera (estadisticas s)) as [|m] eqn:Hm;
      [done|].
    injection Himp as <- <-.
    assert (esperas s ≠ []) as Hne.
    { intros Hnil. destruct (Henil Hnil). congruence. }
    destruct (Hecons Hne) as (Hmax & m' & Hm' & Hmin).
    assert (m' = m) as -> by congruence.
    pose proof (Hcota m Hmin). pose proof (Hehi m Hmin).
    pose proof (Hcota _ Hmax).
    pose proof (min_seg_cotas m).
    pose proof (min_seg_cotas (Est.tiempo_max_espera (estadisticas s))).
    split_and!; lia.
Qed.

Lemma resultados_impresos_witness :
  ∃ s0 s,
    __init__ 1 1 = Ok s0
    ∧ pasos (llegan 3) (atencion_fija_hasta 100 250 1) 2000 s0 = Ok s
    ∧ res_atencion (imprimir_resultados (calcular_costos s))
      = Some ((1, 40), (4, 10))
    ∧ res_costo_total (imprimir_resultados (calcular_costos s))
      = res_costo_boxes (imprimir_resultados (calcular_costos s))
        + res_costo_perdidas (imprimir_resultados (calcular_costos s))
    ∧ (res_atencion (imprimir_resultados (calcular_costos s)) = None
       ↔ res_atendidos (imprimir_resultados (calcular_costos s)) = 0)
    ∧ (res_espera (imprimir_resultados (calcular_costos s)) = None
       ↔ res_atendidos (imprimir_resultados (calcular_costos s)) = 0)
    ∧ (∀ lo hi,
         res_atencion (imprimir_resultados (calcular_costos s))
         = Some (lo, hi) →
         1 ≤ lo.1 ∧ 0 ≤ lo.2 < 60 ∧ 0 ≤ hi.2 < 60
         ∧ lo.1 * 60 + lo.2 ≤ hi.1 * 60 + hi.2)
    ∧ (∀ lo hi,
         res_espera (imprimir_resultados (calcular_costos s))
         = Some (lo, hi) →
         0 ≤ lo.1 ∧ 0 ≤ lo.2 < 60 ∧ 0 ≤ hi.2 < 60
         ∧ lo.1 * 60 + lo.2 ≤ hi.1 * 60 + hi.2 ≤ 1800).
Proof.
  eexists _, _. split; [reflexivity|]. split; [vm_compute; reflexivity|].
  split; [reflexivity|].
  apply (resultados_impresos (llegan 3) (atencion_fija_hasta 100 250 1)).
  eapply (alcanzable_pasos (llegan 3) (atencion_fija_hasta 100 250 1) 2000);
    [eapply (alcanzable_init _ _ 1 1); reflexivity|vm_compute; reflexivity].
Defined.
